(** * pg-mcp-server: OpenAI clients for the PG-MCP tool server

    A shallow embedding of [openai_pg_mcp_client.py] (class
    [OpenAIPgMcpClient]) and [simplified_openai_client.py] (class
    [SimpleOpenAIClient]), and the properties of their schema translation,
    connection life-cycle and chat loop.

    Python values are modelled as follows.
    - A dictionary with a fixed set of keys is a record whose fields are the
      keys; an optional key is an [option] field.
    - A dictionary indexed by run-time strings ([self.tools], the
      ["properties"] object of a schema) is a [gmap string _].
    - A value decoded from JSON is a [json] tree.
    - [None] in a [str]-typed attribute is [None] of [option string]; Python's
      truth test on it ([if x:], [x or y]) is [str_truthy]. The attribute
      [conn_id] of [OpenAIPgMcpClient] holds whatever the server answered, a
      [json] value, with [JNull] for [None] and [py_truthy] as truth test.
    - A method that can raise returns in the [Result] type; a method that
      reads or writes [self], or talks to a remote service, runs in the
      monad [M]. *)

From Stdlib Require Import ZArith.
From stdpp Require Import gmap strings list fin_maps pretty.

Local Open Scope string_scope.
Local Open Scope list_scope.

(** ** Python values *)

#[local] Unset Elimination Schemes.
Inductive json : Type :=
  | JNull
  | JBool (b : bool)
  | JNum (z : Z)
  | JStr (s : string)
  | JArr (items : list json)
  | JObj (fields : list (string * json)).
#[local] Set Elimination Schemes.

(** Python's truth value of a decoded JSON value. *)
Definition py_truthy (v : json) : bool :=
  match v with
  | JNull => false
  | JBool b => b
  | JNum z => negb (z =? 0)%Z
  | JStr s => negb (String.eqb s EmptyString)
  | JArr l => match l with [] => false | _ => true end
  | JObj l => match l with [] => false | _ => true end
  end.

(** Truth value of an [Optional[str]]: [None] and the empty string are false. *)
Definition str_truthy (o : option string) : bool :=
  match o with
  | Some s => negb (String.eqb s EmptyString)
  | None => false
  end.

(** [d.get(k)] on a JSON object, first binding wins; [None] is [JNull]. *)
Fixpoint assoc_get (k : string) (d : list (string * json)) : option json :=
  match d with
  | [] => None
  | (k', v) :: d' => if String.eqb k k' then Some v else assoc_get k d'
  end.

(** ** MCP tool descriptions ([mcp.shared.schema]) *)

Record ToolParam : Type := {
  param_name : string;
  param_type : option string;
  param_description : option string;
  param_required : bool;
  (* [None]: the attribute [items] is missing or is [None] *)
  param_items : option string
}.

Record ToolDefinition : Type := {
  tool_name : string;
  tool_description : option string;
  tool_params : option (list ToolParam)
}.

(** ** OpenAI function-calling schema *)

(** The dictionary built by [_convert_param_schema]: keys ["description"],
    ["type"] and ["items"]; the value of ["items"] is [{"type": s}]. *)
Record ParamSchema : Type := {
  schema_description : option string;
  schema_type : string;
  schema_items : option string
}.

Record Parameters : Type := {
  parameters_type : string;
  properties : gmap string ParamSchema;
  required : list string
}.

Record FunctionSchema : Type := {
  function_name : string;
  function_description : string;
  function_parameters : Parameters
}.

Record OpenAITool : Type := {
  openai_type : string;
  function : FunctionSchema
}.

Module SchemaTranslator.

(** [param.type == s] *)
Definition type_is (p : ToolParam) (s : string) : bool :=
  bool_decide (param_type p = Some s).

Definition _convert_param_schema (param : ToolParam) : ParamSchema :=
  let description :=
    if str_truthy (param_description param)
    then param_description param else None in
  if type_is param "string" then
    {| schema_description := description; schema_type := "string";
       schema_items := None |}
  else if type_is param "number" then
    {| schema_description := description; schema_type := "number";
       schema_items := None |}
  else if type_is param "integer" then
    {| schema_description := description; schema_type := "integer";
       schema_items := None |}
  else if type_is param "boolean" then
    {| schema_description := description; schema_type := "boolean";
       schema_items := None |}
  else if type_is param "array" then
    {| schema_description := description; schema_type := "array";
       schema_items :=
         if str_truthy (param_items param) then param_items param
         else None |}
  else
    {| schema_description := description; schema_type := "string";
       schema_items := None |}.

(** One iteration of [for param in tool.params]. *)
Definition add_param (parameters : Parameters) (param : ToolParam)
  : Parameters :=
  let param_schema := _convert_param_schema param in
  {| parameters_type := parameters_type parameters;
     properties := <[param_name param := param_schema]> (properties parameters);
     required :=
       if param_required param
       then required parameters ++ [param_name param]
       else required parameters |}.

(** What one iteration does to [parameters["properties"]]. *)
Definition insert_schema (m : gmap string ParamSchema) (p : ToolParam)
  : gmap string ParamSchema :=
  <[param_name p := _convert_param_schema p]> m.

Definition empty_parameters : Parameters :=
  {| parameters_type := "object"; properties := ∅; required := [] |}.

Definition _convert_tool_to_openai_format (tool : ToolDefinition)
  : OpenAITool :=
  let parameters :=
    match tool_params tool with
    | Some (param :: rest) => foldl add_param empty_parameters (param :: rest)
    | _ => empty_parameters
    end in
  {| openai_type := "function";
     function :=
       {| function_name := tool_name tool;
          function_description :=
            if str_truthy (tool_description tool)
            then default EmptyString (tool_description tool)
            else "Tool for " +:+ tool_name tool;
          function_parameters := parameters |} |}.

(** The parameter list as Python iterates it: nothing for [None]. *)
Definition params_of (tool : ToolDefinition) : list ToolParam :=
  default [] (tool_params tool).

Definition known_types : list string :=
  ["string"; "number"; "integer"; "boolean"; "array"].

End SchemaTranslator.

(** ** Exceptions and results *)

(** A Python exception: its class and [str(e)]. *)
Inductive exn : Type := Exn (cls : string) (msg : string).

Definition str_of_exn (e : exn) : string :=
  match e with Exn _ msg => msg end.

Definition ValueError (msg : string) : exn := Exn "ValueError" msg.
Definition AttributeError (msg : string) : exn := Exn "AttributeError" msg.
Definition IndexError (msg : string) : exn := Exn "IndexError" msg.

Inductive Result (A : Type) : Type :=
  | Return (a : A)
  | Raise (e : exn).
Arguments Return {A} a.
Arguments Raise {A} e.

(** ** Conversation data *)

(** One entry of [message.tool_calls]: [id], [function.name] and the raw
    text [function.arguments]. *)
Record ToolCall : Type := {
  call_id : string;
  call_name : string;
  call_arguments : string
}.

(** [response.choices[i].message] *)
Record ChatMessage : Type := {
  content : option string;
  tool_calls : option (list ToolCall)
}.

(** A completion response, as the list [response.choices]. *)
Definition Response : Type := list ChatMessage.

(** The dictionaries of the [messages] argument, by ["role"]. *)
Inductive Turn : Type :=
  | SystemTurn (text : string)
  | UserTurn (text : string)
  | AssistantTurn (text : string) (calls : list ToolCall)
  | ToolTurn (tool_call_id : string) (text : string).

(** ** Observable events *)

Inductive LogRecord : Type :=
  | LoadedTools (n : nat)
  | ConnectedWith (conn_id : json)
  | Disconnected
  | CallingTool (function_name : string) (function_args : json)
  | ExecutingQuery (query : json)
  | ErrorSecondCall (e : exn)
  | ErrorInChat (e : exn).

Inductive Event : Type :=
  | EvSseClient (url : string)
  | EvCreateSession
  | EvServerInfo
  | EvCallTool (name : string) (arguments : json)
  | EvCompletion (model : string) (messages : list Turn)
      (tools : list OpenAITool)
  | EvInfo (r : LogRecord)
  | EvError (r : LogRecord).

(** The collaborators outside the repository: the completion service, the
    MCP transport, the process environment and the [json] and [str]
    library functions. A remote answer may depend on everything that
    happened before the request. *)
Record World : Type := {
  sse_client : list Event -> string -> Result unit;
  create_session : list Event -> Result unit;
  server_info : list Event -> Result (option (list ToolDefinition));
  call_tool : list Event -> string -> json -> Result json;
  completions_create :
    list Event -> string -> list Turn -> list OpenAITool -> Result Response;
  environ_get : string -> option string;
  json_loads : string -> Result json;
  json_dumps : json -> string;
  str_upper : string -> string
}.

(** ** The state and exception monad *)

Record State (S : Type) : Type := {
  self : S;
  history : list Event
}.
Arguments self {S} _.
Arguments history {S} _.
Arguments Build_State {S} _ _.

Definition M (S A : Type) : Type := State S -> Result A * State S.

Definition ret {S A} (a : A) : M S A := fun st => (Return a, st).

Definition raise {S A} (e : exn) : M S A := fun st => (Raise e, st).

Definition bind {S A B} (m : M S A) (k : A -> M S B) : M S B :=
  fun st =>
    match m st with
    | (Return a, st') => k a st'
    | (Raise e, st') => (Raise e, st')
    end.

Notation "x <- m ;; k" := (bind m (fun x => k))
  (at level 100, m at next level, right associativity).
Notation "m ;;; k" := (bind m (fun _ => k))
  (at level 100, right associativity).

(** [try: body except Exception as e: handler e] *)
Definition try_except {S A} (body : M S A) (handler : exn -> M S A) : M S A :=
  fun st =>
    match body st with
    | (Return a, st') => (Return a, st')
    | (Raise e, st') => handler e st'
    end.

Definition get_self {S} : M S S := fun st => (Return (self st), st).

Definition set_self {S} (s : S) : M S unit :=
  fun st => (Return tt, Build_State s (history st)).

Definition emit {S} (ev : Event) : M S unit :=
  fun st => (Return tt, Build_State (self st) (history st ++ [ev])).

(** A request to a collaborator: the request is recorded, then the answer
    (a value or an exception) is the one the world gives after the history
    so far. *)
Definition request {S A} (ev : Event) (answer : list Event -> Result A)
  : M S A :=
  fun st => (answer (history st), Build_State (self st) (history st ++ [ev])).

Definition lift_result {S A} (r : Result A) : M S A := fun st => (r, st).

(** [for x in l: body], with the loop's local variables in [acc]; the body
    answers [inl acc'] to go on and [inr r] for [return r]. *)
Fixpoint for_loop {S A Acc R} (l : list A) (acc : Acc)
    (body : Acc -> A -> M S (Acc + R)) : M S (Acc + R) :=
  match l with
  | [] => ret (inl acc)
  | x :: l' =>
      r <- body acc x ;;
      match r with
      | inl acc' => for_loop l' acc' body
      | inr v => ret (inr v)
      end
  end.

(** [response.choices[0].message] *)
Definition first_choice {S} (response : Response) : M S ChatMessage :=
  match response with
  | message :: _ => ret message
  | [] => raise (IndexError "list index out of range")
  end.

(** [s or e], with [e] the empty string *)
Definition or_empty (o : option string) : string :=
  if str_truthy o then default EmptyString o else EmptyString.

(** [needle in haystack] on strings. *)
Fixpoint str_contains (needle haystack : string) : bool :=
  String.prefix needle haystack ||
  match haystack with
  | EmptyString => false
  | String _ rest => str_contains needle rest
  end.

(** ** [openai_pg_mcp_client.py] *)

Module OpenAIPgMcpClient.

(** The [ClientSession] object held in [self.session]. *)
Record ClientSession : Type := { transport : string }.

Record Self : Type := {
  pg_mcp_url : string;
  session : option ClientSession;
  conn_id : json;
  tools : gmap string OpenAITool;
  model : string;
  system_prompt : string
}.

Definition with_session (s : Self) (v : option ClientSession) : Self :=
  {| pg_mcp_url := pg_mcp_url s; session := v; conn_id := conn_id s;
     tools := tools s; model := model s; system_prompt := system_prompt s |}.

Definition with_conn_id (s : Self) (v : json) : Self :=
  {| pg_mcp_url := pg_mcp_url s; session := session s; conn_id := v;
     tools := tools s; model := model s; system_prompt := system_prompt s |}.

Definition with_tools (s : Self) (v : gmap string OpenAITool) : Self :=
  {| pg_mcp_url := pg_mcp_url s; session := session s; conn_id := conn_id s;
     tools := v; model := model s; system_prompt := system_prompt s |}.

Definition the_system_prompt : string :=
"
        You are a helpful assistant with access to a PostgreSQL database through the PG-MCP server.
        Your task is to help the user interact with their database by:
        1. Understanding their questions about the database
        2. Converting natural language to SQL when appropriate
        3. Using the available database tools to explore and query the database
        4. Explaining query results in a clear, helpful manner
        
        Available tools:
        - connect: Register a database connection string and get a connection ID
        - disconnect: Close a database connection
        - pg_query: Execute SQL queries using a connection ID
        - pg_explain: Get query execution plans
        
        Always think step by step about what the user is asking, and use the appropriate tools to help them.
        ".

Definition not_initialized : exn :=
  ValueError "Client not initialized. Call initialize() first.".
Definition not_connected : exn :=
  ValueError "Not connected to database. Call connect_to_database() first.".
Definition connection_rejected : exn :=
  ValueError "Failed to connect to database. No connection ID returned.".

Section Methods.
Variable W : World.

Definition __init__ (url : string) : Self :=
  {| pg_mcp_url := url; session := None; conn_id := JNull; tools := ∅;
     model := default "gpt-4o" (environ_get W "OPENAI_MODEL");
     system_prompt := the_system_prompt |}.

(** [await self.session.call_tool(name, arguments)] *)
Definition session_call_tool (name : string) (arguments : json)
  : M Self json :=
  request (EvCallTool name arguments)
          (fun h => call_tool W h name arguments).

(** [await self.async_openai_client.chat.completions.create(...)],
    always with [tool_choice="auto"]. *)
Definition create (mdl : string) (messages : list Turn)
    (openai_tools : list OpenAITool) : M Self Response :=
  request (EvCompletion mdl messages openai_tools)
          (fun h => completions_create W h mdl messages openai_tools).

(** The body of [for tool in tools] in [_load_tools]. *)
Definition register (registry : gmap string OpenAITool)
    (tool : ToolDefinition) : gmap string OpenAITool :=
  let openai_tool :=
    SchemaTranslator._convert_tool_to_openai_format tool in
  <[tool_name tool := openai_tool]> registry.

Definition _load_tools : M Self unit :=
  s <- get_self ;;
  match session s with
  | None =>
      raise (AttributeError
               "'NoneType' object has no attribute 'server_info'")
  | Some _ =>
      listing <- request EvServerInfo (server_info W) ;;
      let tool_list := default [] listing in
      s <- get_self ;;
      set_self (with_tools s (foldl register (tools s) tool_list)) ;;;
      s <- get_self ;;
      emit (EvInfo (LoadedTools (size (tools s))))
  end.

Definition initialize : M Self unit :=
  s <- get_self ;;
  request (EvSseClient (pg_mcp_url s))
          (fun h => sse_client W h (pg_mcp_url s)) ;;;
  request EvCreateSession (create_session W) ;;;
  s <- get_self ;;
  set_self (with_session s (Some {| transport := pg_mcp_url s |})) ;;;
  _load_tools.

(** [result.get("connection_id")] *)
Definition get_connection_id (result : json) : M Self json :=
  match result with
  | JObj d => ret (default JNull (assoc_get "connection_id" d))
  | _ => raise (AttributeError "object has no attribute 'get'")
  end.

Definition connect_to_database (connection_string : string)
  : M Self json :=
  s <- get_self ;;
  match session s with
  | None => raise not_initialized
  | Some _ =>
      result <- session_call_tool "connect"
                  (JObj [("connection_string", JStr connection_string)]) ;;
      id <- get_connection_id result ;;
      s <- get_self ;;
      set_self (with_conn_id s id) ;;;
      if negb (py_truthy id) then raise connection_rejected
      else
        emit (EvInfo (ConnectedWith id)) ;;;
        ret id
  end.

(** [not self.session or not self.conn_id] *)
Definition unconnected (s : Self) : bool :=
  match session s with
  | None => true
  | Some _ => negb (py_truthy (conn_id s))
  end.

Definition execute_query (query : string) : M Self json :=
  s <- get_self ;;
  if unconnected s then raise not_connected
  else
    result <- session_call_tool "pg_query"
                (JObj [("connection_id", conn_id s);
                       ("query", JStr query)]) ;;
    ret result.

Definition explain_query (query : string) : M Self json :=
  s <- get_self ;;
  if unconnected s then raise not_connected
  else
    result <- session_call_tool "pg_explain"
                (JObj [("connection_id", conn_id s);
                       ("query", JStr query)]) ;;
    ret result.

Definition disconnect : M Self unit :=
  s <- get_self ;;
  if negb (unconnected s) then
    session_call_tool "disconnect"
      (JObj [("connection_id", conn_id s)]) ;;;
    s <- get_self ;;
    set_self (with_conn_id s JNull) ;;;
    emit (EvInfo Disconnected)
  else ret tt.

(** The body of [for tool_call in message.tool_calls] in [chat]. The
    loop's local is the list [assistant_message["tool_calls"]]; the body
    ends in [return final_message.content]. *)
Definition chat_tool_call (s : Self) (user_message : string)
    (openai_tools : list OpenAITool) (message : ChatMessage)
    (all_calls : list ToolCall)
    (assistant_tool_calls : list ToolCall) (tool_call : ToolCall)
  : M Self (list ToolCall + option string) :=
  let function_name := call_name tool_call in
  function_args <- lift_result (json_loads W (call_arguments tool_call)) ;;
  emit (EvInfo (CallingTool function_name function_args)) ;;;
  tool_result <- session_call_tool function_name function_args ;;
  let assistant_tool_calls := (assistant_tool_calls ++ [tool_call])%list in
  let tool_response :=
    ToolTurn (call_id tool_call) (json_dumps W tool_result) in
  response <- create (model s)
                [SystemTurn (system_prompt s);
                 UserTurn user_message;
                 AssistantTurn (or_empty (content message)) all_calls;
                 tool_response]
                openai_tools ;;
  final_message <- first_choice response ;;
  ret (inr (content final_message)).

Definition chat (user_message : string) : M Self (option string) :=
  s <- get_self ;;
  match session s with
  | None => raise not_initialized
  | Some _ =>
      (* [list(self.tools.values())]: the values of the registry (Python
         lists them in insertion order, [map_to_list] in key order) *)
      let openai_tools := (map_to_list (tools s)).*2 in
      response <- create (model s)
                    [SystemTurn (system_prompt s);
                     UserTurn user_message]
                    openai_tools ;;
      message <- first_choice response ;;
      match tool_calls message with
      | Some (tool_call :: others) =>
          let all_calls := tool_call :: others in
          r <- for_loop all_calls []
                 (chat_tool_call s user_message openai_tools message
                    all_calls) ;;
          match r with
          | inr final => ret final
          | inl _ => ret (content message)
          end
      | _ => ret (content message)
      end
  end.

End Methods.

End OpenAIPgMcpClient.

(** ** [simplified_openai_client.py] *)

Module SimpleOpenAIClient.

Record Self : Type := {
  api_key : string;
  model : string;
  tools : list OpenAITool;
  system_prompt : string;
  conn_id : option string
}.

Definition with_conn_id (s : Self) (v : option string) : Self :=
  {| api_key := api_key s; model := model s; tools := tools s;
     system_prompt := system_prompt s; conn_id := v |}.

Definition string_property (description : string) : ParamSchema :=
  {| schema_description := Some description; schema_type := "string";
     schema_items := None |}.

Definition manual_tool (name description : string)
    (props : list (string * ParamSchema)) (req : list string) : OpenAITool :=
  {| openai_type := "function";
     function :=
       {| function_name := name;
          function_description := description;
          function_parameters :=
            {| parameters_type := "object";
               properties := list_to_map props;
               required := req |} |} |}.

Definition the_tools : list OpenAITool :=
  [ manual_tool "connect"
      "Register a database connection string and get a connection ID"
      [("connection_string", string_property "PostgreSQL connection string")]
      ["connection_string"];
    manual_tool "disconnect"
      "Close a database connection"
      [("connection_id", string_property "Connection ID to close")]
      ["connection_id"];
    manual_tool "pg_query"
      "Execute a SQL query using a connection ID"
      [("connection_id", string_property "Connection ID to use");
       ("query", string_property "SQL query to execute")]
      ["connection_id"; "query"];
    manual_tool "pg_explain"
      "Get query execution plan"
      [("connection_id", string_property "Connection ID to use");
       ("query", string_property "SQL query to explain")]
      ["connection_id"; "query"] ].

Definition the_system_prompt : string :=
"
        You are a helpful assistant with access to a PostgreSQL database.
        Your task is to help the user interact with their database by:
        1. Understanding their questions about the database
        2. Converting natural language to SQL when appropriate
        3. Using the available database tools to explore and query the database
        4. Explaining query results in a clear, helpful manner
        
        Always think step by step about what the user is asking, and use the appropriate tools to help them.
        ".

Definition mock_connection_id : string := "mock-connection-id".

Definition select_rows : json :=
  JObj [("columns", JArr [JStr "id"; JStr "name"; JStr "value"]);
        ("rows", JArr [JArr [JNum 1; JStr "Example 1"; JNum 100];
                       JArr [JNum 2; JStr "Example 2"; JNum 200];
                       JArr [JNum 3; JStr "Example 3"; JNum 300]])].

Definition query_done : json :=
  JObj [("status", JStr "success");
        ("message", JStr "Query executed successfully")].

Section Methods.
Variable W : World.

Definition __init__ : Result Self :=
  if str_truthy (environ_get W "OPENAI_API_KEY") then
    Return {| api_key := default EmptyString (environ_get W "OPENAI_API_KEY");
              model := default "gpt-4o" (environ_get W "OPENAI_MODEL");
              tools := the_tools;
              system_prompt := the_system_prompt;
              conn_id := None |}
  else Raise (ValueError "OPENAI_API_KEY environment variable not set").

Definition create (mdl : string) (messages : list Turn)
    (openai_tools : list OpenAITool) : M Self Response :=
  request (EvCompletion mdl messages openai_tools)
          (fun h => completions_create W h mdl messages openai_tools).

Definition connect_to_database (connection_string : string)
  : M Self string :=
  s <- get_self ;;
  set_self (with_conn_id s (Some mock_connection_id)) ;;;
  emit (EvInfo (ConnectedWith (JStr mock_connection_id))) ;;;
  ret mock_connection_id.

(** [query] is whatever the caller passes; [query.upper()] needs a
    [str]. *)
Definition execute_query (query : json) : M Self json :=
  emit (EvInfo (ExecutingQuery query)) ;;;
  match query with
  | JStr q =>
      if str_contains "SELECT" (str_upper W q) then ret select_rows
      else ret query_done
  | _ => raise (AttributeError "object has no attribute 'upper'")
  end.

(** [function_args.get("query", e)], with [e] the empty string *)
Definition get_query (function_args : json) : M Self json :=
  match function_args with
  | JObj d => ret (default (JStr EmptyString) (assoc_get "query" d))
  | _ => raise (AttributeError "object has no attribute 'get'")
  end.

(** The [if]/[elif] chain on [function_name]. *)
Definition mock_tool (function_name : string) (function_args : json)
  : M Self json :=
  if String.eqb function_name "connect" then
    s <- get_self ;;
    set_self (with_conn_id s (Some mock_connection_id)) ;;;
    ret (JObj [("connection_id", JStr mock_connection_id)])
  else if String.eqb function_name "disconnect" then
    s <- get_self ;;
    set_self (with_conn_id s None) ;;;
    ret (JObj [("status", JStr "disconnected")])
  else if String.eqb function_name "pg_query" then
    query <- get_query function_args ;;
    execute_query query
  else if String.eqb function_name "pg_explain" then
    ret (JObj [("plan",
           JStr "Seq Scan on example_table (cost=0.00..1.00 rows=3 width=20)")])
  else
    ret (JObj [("error", JStr "Unknown tool")]).

(** The body of [for tool_call in message.tool_calls]; the loop's local
    is [tool_responses]. *)
Definition chat_tool_call (tool_responses : list Turn)
    (tool_call : ToolCall) : M Self (list Turn + option string) :=
  let function_name := call_name tool_call in
  function_args <- lift_result (json_loads W (call_arguments tool_call)) ;;
  emit (EvInfo (CallingTool function_name function_args)) ;;;
  tool_result <- mock_tool function_name function_args ;;
  ret (inl (tool_responses ++
            [ToolTurn (call_id tool_call) (json_dumps W tool_result)])%list).

(** The statements under the outer [try]. *)
Definition auto_connect : M Self unit :=
  s <- get_self ;;
  if negb (str_truthy (conn_id s)) then
    let db_url := environ_get W "DATABASE_URL" in
    if str_truthy db_url then
      connect_to_database (default EmptyString db_url) ;;; ret tt
    else ret tt
  else ret tt.

Definition second_call (s : Self) (messages : list Turn)
  : M Self (option string) :=
  try_except
    (response <- create (model s) messages (tools s) ;;
     final_message <- first_choice response ;;
     ret (content final_message))
    (fun e =>
       emit (EvError (ErrorSecondCall e)) ;;;
       ret (Some ("Error processing tool results: " +:+ str_of_exn e))).

Definition chat_body (user_message : string) : M Self (option string) :=
  s <- get_self ;;
  response <- create (model s)
                [SystemTurn (system_prompt s); UserTurn user_message]
                (tools s) ;;
  message <- first_choice response ;;
  match tool_calls message with
  | Some (tool_call :: others) =>
      let all_calls := tool_call :: others in
      r <- for_loop all_calls [] chat_tool_call ;;
      match r with
      | inr final => ret final
      | inl tool_responses =>
          s <- get_self ;;
          let messages :=
            ([SystemTurn (system_prompt s);
              UserTurn user_message;
              AssistantTurn (or_empty (content message)) all_calls]
             ++ tool_responses)%list in
          second_call s messages
      end
  | _ => ret (content message)
  end.

Definition chat (user_message : string) : M Self (option string) :=
  try_except
    (auto_connect ;;; chat_body user_message)
    (fun e =>
       emit (EvError (ErrorInChat e)) ;;;
       ret (Some ("Error: " +:+ str_of_exn e))).

End Methods.

End SimpleOpenAIClient.

(** ** Concrete worlds

    Scripted collaborators on which the methods can be run. *)

Module Demo.

Definition dq : string := String (Ascii.ascii_of_nat 34) EmptyString.

Definition quoted (s : string) : string := dq +:+ s +:+ dq.

(** A printer for [json] values, without escapes. *)
Fixpoint dumps (v : json) : string :=
  match v with
  | JNull => "null"
  | JBool b => if b then "true" else "false"
  | JNum z => pretty z
  | JStr s => quoted s
  | JArr l =>
      "[" +:+
      (fix items (l : list json) : string :=
         match l with
         | [] => EmptyString
         | [x] => dumps x
         | x :: r => dumps x +:+ ", " +:+ items r
         end) l +:+ "]"
  | JObj l =>
      "{" +:+
      (fix fields (l : list (string * json)) : string :=
         match l with
         | [] => EmptyString
         | [(k, x)] => quoted k +:+ ": " +:+ dumps x
         | (k, x) :: r => quoted k +:+ ": " +:+ dumps x +:+ ", " +:+ fields r
         end) l +:+ "}"
  end.

Definition count_query : string := "SELECT COUNT(*) FROM users".
Definition count_args : json := JObj [("query", JStr count_query)].
Definition list_query : string := "SELECT name FROM users".
Definition list_args : json := JObj [("query", JStr list_query)].

(** A decoder that knows the argument texts of the scripts below. *)
Definition loads (s : string) : Result json :=
  if String.eqb s (dumps count_args) then Return count_args
  else if String.eqb s (dumps list_args) then Return list_args
  else if String.eqb s "{}" then Return (JObj [])
  else Raise (Exn "JSONDecodeError" "Expecting value").

Definition upper_char (c : Ascii.ascii) : Ascii.ascii :=
  let n := Ascii.nat_of_ascii c in
  if (97 <=? n)%nat && (n <=? 122)%nat then Ascii.ascii_of_nat (n - 32)
  else c.

Fixpoint upper (s : string) : string :=
  match s with
  | EmptyString => EmptyString
  | String c r => String (upper_char c) (upper r)
  end.

Definition is_completion (ev : Event) : bool :=
  match ev with EvCompletion _ _ _ => true | _ => false end.

Definition is_call_tool (ev : Event) : bool :=
  match ev with EvCallTool _ _ => true | _ => false end.

(** The [n]-th completion request is answered by the [n]-th entry of the
    script. *)
Definition scripted (script : list (Result Response)) (h : list Event)
  : Result Response :=
  default (Raise (Exn "APIError" "script exhausted"))
          (script !! length (filter is_completion h)).

Definition world (script : list (Result Response))
    (tool_answer : string -> json -> Result json)
    (listing : Result (option (list ToolDefinition)))
    (env : string -> option string) : World :=
  {| sse_client := fun _ _ => Return tt;
     create_session := fun _ => Return tt;
     server_info := fun _ => listing;
     call_tool := fun _ => tool_answer;
     completions_create := fun h _ _ _ => scripted script h;
     environ_get := env;
     json_loads := loads;
     json_dumps := dumps;
     str_upper := upper |}.

Definition no_env : string -> option string := fun _ => None.

Definition database_env (key : string) : option string :=
  if String.eqb key "DATABASE_URL"
  then Some "postgresql://localhost/app" else None.

(** Tool and parameter descriptions as an MCP server lists them. *)
Definition string_param (name : string) : ToolParam :=
  {| param_name := name; param_type := Some "string";
     param_description := None; param_required := true;
     param_items := None |}.

Definition pg_query_tool : ToolDefinition :=
  {| tool_name := "pg_query"; tool_description := None;
     tool_params := Some [string_param "query"] |}.

Definition connect_tool : ToolDefinition :=
  {| tool_name := "connect"; tool_description := None;
     tool_params := Some [string_param "connection_string"] |}.

Definition ids_param : ToolParam :=
  {| param_name := "ids"; param_type := Some "array";
     param_description := Some "Row identifiers"; param_required := false;
     param_items := Some "integer" |}.

Definition blob_param : ToolParam :=
  {| param_name := "payload"; param_type := Some "object";
     param_description := None; param_required := false;
     param_items := None |}.

Definition pg_server (connection_id : json) (name : string) (_ : json)
  : Result json :=
  if String.eqb name "connect"
  then Return (JObj [("connection_id", connection_id)])
  else if String.eqb name "disconnect"
  then Return (JObj [("status", JStr "disconnected")])
  else Return (JObj [("rows", JArr [JArr [JNum 42]])]).

Definition down (_ : string) (_ : json) : Result json :=
  Raise (Exn "ConnectionError" "server unreachable").

Definition text (s : string) : ChatMessage :=
  {| content := Some s; tool_calls := None |}.

Definition asks (calls : list ToolCall) : ChatMessage :=
  {| content := None; tool_calls := Some calls |}.

Definition call_1 : ToolCall :=
  {| call_id := "call_1"; call_name := "pg_query";
     call_arguments := dumps count_args |}.

Definition call_2 : ToolCall :=
  {| call_id := "call_2"; call_name := "pg_query";
     call_arguments := dumps list_args |}.

Definition call_disconnect : ToolCall :=
  {| call_id := "call_3"; call_name := "disconnect";
     call_arguments := "{}" |}.

(** An initialised client of the MCP server, without a connection. *)
Definition fresh (W : World) : OpenAIPgMcpClient.Self :=
  OpenAIPgMcpClient.with_session
    (OpenAIPgMcpClient.__init__ W "http://localhost:8000/sse")
    (Some {| OpenAIPgMcpClient.transport := "http://localhost:8000/sse" |}).

Definition start {S} (s : S) : State S := {| self := s; history := [] |}.

Definition simple : SimpleOpenAIClient.Self :=
  {| SimpleOpenAIClient.api_key := "sk-test";
     SimpleOpenAIClient.model := "gpt-4o";
     SimpleOpenAIClient.tools := SimpleOpenAIClient.the_tools;
     SimpleOpenAIClient.system_prompt := SimpleOpenAIClient.the_system_prompt;
     SimpleOpenAIClient.conn_id := None |}.

End Demo.

(** ** Invariants of computations *)

(** [m] never breaks a property of [self]. *)
Definition keeps {S A} (P : S → Prop) (m : M S A) : Prop :=
  ∀ st, P (self st) → P (self (m st).2).

(** [m] only adds events to the history. *)
Definition appends {S A} (m : M S A) : Prop :=
  ∀ st, ∃ evs, history (m st).2 = (history st ++ evs)%list.

(** The tool calls that the first completion of an exchange asks for, when
    the service is asked from state [st]. *)
Definition requested_calls (W : World) (user_message : string)
    (st : State SimpleOpenAIClient.Self) : list ToolCall :=
  let s := self st in
  match completions_create W (history st) (SimpleOpenAIClient.model s)
          [SystemTurn (SimpleOpenAIClient.system_prompt s);
           UserTurn user_message]
          (SimpleOpenAIClient.tools s) with
  | Return (message :: _) => default [] (tool_calls message)
  | _ => []
  end.

(** The events of one kind in a history. *)
Definition tool_calls_made (h : list Event) : list Event :=
  filter (λ ev, Demo.is_call_tool ev = true) h.

Definition completions_made (h : list Event) : list Event :=
  filter (λ ev, Demo.is_completion ev = true) h.

(** The call identifier a tool-result turn is tagged with. *)
Definition turn_id (t : Turn) : option string :=
  match t with
  | ToolTurn id _ => Some id
  | _ => None
  end.

(** Scripts for the chat loop. *)

(** The service asks for two queries at once, then answers in words. *)
Definition two_calls_world : World :=
  Demo.world
    [Return [Demo.asks [Demo.call_1; Demo.call_2]];
     Return [Demo.text "There are 42 users."];
     Return [Demo.text "Their names are listed."]]
    (Demo.pg_server (JStr "conn-7")) (Return (Some [Demo.pg_query_tool]))
    Demo.no_env.


(** [DATABASE_URL] is set and the service asks for a [disconnect]. *)
Definition disconnecting_world : World :=
  Demo.world
    [Return [Demo.asks [Demo.call_disconnect]];
     Return [Demo.text "Disconnected."]]
    (Demo.pg_server (JStr "conn-7")) (Return (Some [Demo.pg_query_tool]))
    Demo.database_env.

(** [DATABASE_URL] is set and the service asks for one query. *)
Definition querying_world : World :=
  Demo.world
    [Return [Demo.asks [Demo.call_1]];
     Return [Demo.text "There are 3 rows."]]
    (Demo.pg_server (JStr "conn-7")) (Return (Some [Demo.pg_query_tool]))
    Demo.database_env.

(** The simplified client holds its mock connection. *)
Definition mock_connected (s : SimpleOpenAIClient.Self) : Prop :=
  SimpleOpenAIClient.conn_id s = Some SimpleOpenAIClient.mock_connection_id.

(** The state in which [chat] of the simplified client issues its first
    completion request after connecting by itself. *)
Definition auto_connected (st : State SimpleOpenAIClient.Self)
  : State SimpleOpenAIClient.Self :=
  {| self := SimpleOpenAIClient.with_conn_id (self st)
               (Some SimpleOpenAIClient.mock_connection_id);
     history := history st ++
       [EvInfo (ConnectedWith (JStr SimpleOpenAIClient.mock_connection_id))] |}.

(** The first completion request of an exchange. *)
Definition first_request (s : SimpleOpenAIClient.Self) (user_message : string)
  : Event :=
  EvCompletion (SimpleOpenAIClient.model s)
    [SystemTurn (SimpleOpenAIClient.system_prompt s); UserTurn user_message]
    (SimpleOpenAIClient.tools s).


(** The first completion request of an exchange of [OpenAIPgMcpClient]. *)
Definition mcp_first_request (s : OpenAIPgMcpClient.Self)
    (user_message : string) : Event :=
  EvCompletion (OpenAIPgMcpClient.model s)
    [SystemTurn (OpenAIPgMcpClient.system_prompt s); UserTurn user_message]
    (map_to_list (OpenAIPgMcpClient.tools s)).*2.

(** The follow-up request that [OpenAIPgMcpClient.chat] issues inside its
    loop, for the call [tool_call] and its result. *)
Definition mcp_followup_request (W : World) (s : OpenAIPgMcpClient.Self)
    (user_message : string) (message : ChatMessage)
    (all_calls : list ToolCall) (tool_call : ToolCall) (tool_result : json)
  : Event :=
  EvCompletion (OpenAIPgMcpClient.model s)
    [SystemTurn (OpenAIPgMcpClient.system_prompt s);
     UserTurn user_message;
     AssistantTurn (or_empty (content message)) all_calls;
     ToolTurn (call_id tool_call) (json_dumps W tool_result)]
    (map_to_list (OpenAIPgMcpClient.tools s)).*2.

(** A connection identifier is only ever held by an initialised client. *)
Definition session_before_connection (s : OpenAIPgMcpClient.Self) : Prop :=
  py_truthy (OpenAIPgMcpClient.conn_id s) = true →
  OpenAIPgMcpClient.session s ≠ None.

(** A tool definition that lists the parameter [query] twice. *)
Definition twice_tool : ToolDefinition :=
  {| tool_name := "pg_query"; tool_description := None;
     tool_params := Some [Demo.string_param "query";
                          Demo.string_param "query"] |}.

(** [DATABASE_URL] is set, to the empty string. *)
Definition empty_url_world : World :=
  Demo.world [Return [Demo.text "Hello."]]
    (Demo.pg_server (JStr "conn-7")) (Return (Some [Demo.pg_query_tool]))
    (λ key, if String.eqb key "DATABASE_URL" then Some EmptyString else None).

(** A registry as a client holds it after an earlier listing that named
    [pg_explain]; the server now lists [connect] and [pg_query]. *)
Definition explain_tool : ToolDefinition :=
  {| tool_name := "pg_explain"; tool_description := Some "Get query execution plans";
     tool_params := Some [Demo.string_param "query"] |}.

Definition listing_world : World :=
  Demo.world [] (Demo.pg_server (JStr "conn-7"))
    (Return (Some [Demo.connect_tool; Demo.pg_query_tool])) Demo.no_env.

Definition loaded_client : OpenAIPgMcpClient.Self :=
  OpenAIPgMcpClient.with_tools (Demo.fresh listing_world)
    {[ "pg_explain" :=
         SchemaTranslator._convert_tool_to_openai_format explain_tool ]}.

(** The MCP server cannot be reached at all. *)
Definition offline_world : World :=
  {| sse_client := λ _ _, Raise (Exn "ConnectError" "connection refused");
     create_session := λ _, Return tt;
     server_info := λ _, Return None;
     call_tool := λ _, Demo.down;
     completions_create := λ h _ _ _, Demo.scripted [] h;
     environ_get := Demo.database_env;
     json_loads := Demo.loads;
     json_dumps := Demo.dumps;
     str_upper := Demo.upper |}.

(** The transport opens, and the listing request fails. *)
Definition listing_fails_world : World :=
  Demo.world [Return [Demo.text "Hello."]] (Demo.pg_server (JStr "conn-7"))
    (Raise (Exn "ProtocolError" "malformed tool listing")) Demo.database_env.

(** The server accepts a first [connect] and rejects every later one; the
    [disconnect] of an open connection fails. *)
Definition is_connect (ev : Event) : bool :=
  match ev with
  | EvCallTool name _ => String.eqb name "connect"
  | _ => false
  end.

Definition moody_server (h : list Event) (name : string) (_ : json)
  : Result json :=
  if String.eqb name "connect" then
    match filter (λ ev, is_connect ev = true) h with
    | [] => Return (JObj [("connection_id", JStr "conn-1")])
    | _ => Return (JObj [("error", JStr "too many connections")])
    end
  else if String.eqb name "disconnect" then
    Raise (Exn "TimeoutError" "disconnect timed out")
  else Return (JObj [("rows", JArr [JArr [JNum 42]])]).

Definition moody_world : World :=
  {| sse_client := λ _ _, Return tt;
     create_session := λ _, Return tt;
     server_info := λ _, Return (Some [Demo.pg_query_tool]);
     call_tool := moody_server;
     completions_create := λ h _ _ _, Demo.scripted [] h;
     environ_get := Demo.database_env;
     json_loads := Demo.loads;
     json_dumps := Demo.dumps;
     str_upper := Demo.upper |}.

(** A working server. *)
Definition steady_world : World :=
  Demo.world [Return [Demo.text "Hello."]] (Demo.pg_server (JStr "conn-7"))
    (Return (Some [Demo.pg_query_tool])) Demo.database_env.

(** A server whose first [disconnect] times out and whose later ones
    succeed. *)
Definition flaky_server (h : list Event) (name : string) (arguments : json)
  : Result json :=
  if String.eqb name "disconnect" then
    match filter (λ ev, Demo.is_call_tool ev = true) h with
    | [] => Raise (Exn "TimeoutError" "disconnect timed out")
    | _ => Return (JObj [("status", JStr "disconnected")])
    end
  else Demo.pg_server (JStr "conn-1") name arguments.

Definition flaky_world : World :=
  {| sse_client := λ _ _, Return tt;
     create_session := λ _, Return tt;
     server_info := λ _, Return (Some [Demo.pg_query_tool]);
     call_tool := flaky_server;
     completions_create := λ h _ _ _, Demo.scripted [] h;
     environ_get := Demo.database_env;
     json_loads := Demo.loads;
     json_dumps := Demo.dumps;
     str_upper := Demo.upper |}.

(** Traffic with the MCP server. *)
Definition is_remote (ev : Event) : bool :=
  match ev with
  | EvSseClient _ | EvCreateSession | EvServerInfo | EvCallTool _ _ => true
  | _ => false
  end.

Definition remote_made (h : list Event) : list Event :=
  filter (λ ev, is_remote ev = true) h.

(** [m] adds events to the history, among them at most [n] completion
    requests and at most [r] requests to the MCP server. *)
Definition requests_within {S A} (n r : nat) (m : M S A) : Prop :=
  ∀ st, ∃ evs,
    history (m st).2 = history st ++ evs
    ∧ (length (completions_made evs) ≤ n)%nat
    ∧ (length (remote_made evs) ≤ r)%nat.

(** What the mock tools of the simplified client do to [conn_id], one
    requested call after the other. *)
Definition conn_id_step (c : option string) (tool_call : ToolCall)
  : option string :=
  if String.eqb (call_name tool_call) "connect"
  then Some SimpleOpenAIClient.mock_connection_id
  else if String.eqb (call_name tool_call) "disconnect" then None
  else c.

Definition conn_id_after (calls : list ToolCall) (c : option string)
  : option string :=
  foldl conn_id_step c calls.

(** A requested call that the simplified client can run: its arguments
    decode, and for [pg_query] they are an object whose [query], when
    given, is a string. *)
Definition runnable (W : World) (tool_call : ToolCall) : Prop :=
  ∃ args,
    json_loads W (call_arguments tool_call) = Return args
    ∧ (call_name tool_call = "pg_query" →
       ∃ d q, args = JObj d
              ∧ default (JStr EmptyString) (assoc_get "query" d) = JStr q).

(** The follow-up request of the simplified client. *)
Definition followup_request (s : SimpleOpenAIClient.Self)
    (user_message : string) (message : ChatMessage) (calls : list ToolCall)
    (tool_responses : list Turn) : Event :=
  EvCompletion (SimpleOpenAIClient.model s)
    ([SystemTurn (SimpleOpenAIClient.system_prompt s);
      UserTurn user_message;
      AssistantTurn (or_empty (content message)) calls] ++ tool_responses)
    (SimpleOpenAIClient.tools s).

Definition is_log (ev : Event) : bool :=
  match ev with
  | EvInfo _ | EvError _ => true
  | _ => false
  end.

(** The service asks for a call whose arguments are not JSON. *)
Definition call_garbled : ToolCall :=
  {| call_id := "call_9"; call_name := "pg_query";
     call_arguments := "{query: " |}.

Definition call_connect : ToolCall :=
  {| call_id := "call_4"; call_name := "connect"; call_arguments := "{}" |}.

Definition call_unknown : ToolCall :=
  {| call_id := "call_5"; call_name := "drop_everything";
     call_arguments := "{}" |}.

Definition garbled_world : World :=
  Demo.world
    [Return [Demo.asks [call_connect; call_garbled; Demo.call_1]];
     Return [Demo.text "Done."]]
    (Demo.pg_server (JStr "conn-7")) (Return (Some [Demo.pg_query_tool]))
    Demo.no_env.

(** The service asks for a connect, an unknown tool and a query. *)
Definition mixed_world : World :=
  Demo.world
    [Return [Demo.asks [call_connect; call_unknown; Demo.call_1]];
     Return [Demo.text "Done."]]
    (Demo.pg_server (JStr "conn-7")) (Return (Some [Demo.pg_query_tool]))
    Demo.no_env.

(** Two states of the simplified client that differ at most in
    [conn_id]. *)
Definition same_settings (s s' : SimpleOpenAIClient.Self) : Prop :=
  SimpleOpenAIClient.api_key s' = SimpleOpenAIClient.api_key s
  ∧ SimpleOpenAIClient.model s' = SimpleOpenAIClient.model s
  ∧ SimpleOpenAIClient.tools s' = SimpleOpenAIClient.tools s
  ∧ SimpleOpenAIClient.system_prompt s' = SimpleOpenAIClient.system_prompt s.

(** The service asks first for a call whose arguments are not JSON. *)
Definition garbled_first_world : World :=
  Demo.world
    [Return [Demo.asks [call_garbled; Demo.call_1]];
     Return [Demo.text "Done."]]
    (Demo.pg_server (JStr "conn-7")) (Return (Some [Demo.pg_query_tool]))
    Demo.no_env.

(** ** The command-line entry points

    [main] of both client files and [run_example] of
    [example-clients/example_openai_client.py]. The terminal is the list of
    what was written to it; the lines typed by the user are an argument,
    and reading past the last one is the end of input ([EOFError]).
    [asyncio.sleep] is not modelled. *)

Inductive Output : Type :=
  | Printed (text : string)
  | Prompted (text : string)
  | LoggedError (text : string).

Module Cli.

(** A running program: the client object it created and its terminal. *)
Record Process (C : Type) : Type := {
  client : C;
  terminal : list Output
}.
Arguments client {C} _.
Arguments terminal {C} _.
Arguments Build_Process {C} _ _.

Definition nl : string := String (Ascii.ascii_of_nat 10) EmptyString.

Definition query_prompt : string := nl +:+ "Your query: ".

Definition eof_error : exn := Exn "EOFError" "EOF when reading a line".

(** [str(x)] of an [Optional[str]], as [print] and f-strings show it. *)
Definition py_str (o : option string) : string := default "None" o.

(** A method call on the client object. *)
Definition in_client {C A} (m : M C A) : M (Process C) A :=
  fun st =>
    let '(r, st') := m {| self := client (self st); history := history st |} in
    (r, {| self := {| client := self st'; terminal := terminal (self st) |};
           history := history st' |}).

Definition write {C} (o : Output) : M (Process C) unit :=
  fun st =>
    (Return tt,
     {| self := {| client := client (self st);
                   terminal := terminal (self st) ++ [o] |};
        history := history st |}).

Definition print {C} (text : string) : M (Process C) unit :=
  write (Printed text).

(** The part of a program that runs with a client object [c]. *)
Definition with_client {C A} (c : C) (m : M (Process C) A)
  : M (list Output) A :=
  fun st =>
    let '(r, st') :=
      m {| self := {| client := c; terminal := self st |};
           history := history st |} in
    (r, {| self := terminal (self st'); history := history st' |}).

(** [try: body finally: final] *)
Definition try_finally {S A} (body : M S A) (final : M S unit) : M S A :=
  fun st =>
    let '(r, st1) := body st in
    match final st1 with
    | (Return _, st2) => (r, st2)
    | (Raise e, st2) => (Raise e, st2)
    end.

Section Programs.
Variable W : World.
(** [str.lower] *)
Variable str_lower : string → string.

(** The [while True] loop of [main] in [openai_pg_mcp_client.py], on the
    lines still to be read. *)
Fixpoint mcp_loop (lines : list string)
  : M (Process OpenAIPgMcpClient.Self) unit :=
  match lines with
  | [] => write (Prompted query_prompt) ;;; raise eof_error
  | user_input :: rest =>
      write (Prompted query_prompt) ;;;
      if String.eqb (str_lower user_input) "exit" then ret tt
      else
        response <- in_client (OpenAIPgMcpClient.chat W user_input) ;;
        print (nl +:+ "Assistant: " +:+ py_str response) ;;;
        mcp_loop rest
  end.

(** [main] of [openai_pg_mcp_client.py]; [query] is [args.query]. *)
Definition mcp_main (query : option string) (lines : list string)
  : M (list Output) unit :=
  let database_url := environ_get W "DATABASE_URL" in
  let pg_mcp_url :=
    default "http://localhost:8000/sse" (environ_get W "PG_MCP_URL") in
  if negb (str_truthy database_url) then
    raise (ValueError "DATABASE_URL environment variable not set")
  else
    with_client (OpenAIPgMcpClient.__init__ W pg_mcp_url)
      (in_client (OpenAIPgMcpClient.initialize W) ;;;
       try_finally
         (in_client (OpenAIPgMcpClient.connect_to_database W
                       (default EmptyString database_url)) ;;;
          if str_truthy query then
            response <- in_client (OpenAIPgMcpClient.chat W
                                     (default EmptyString query)) ;;
            print (py_str response)
          else
            print "Connected to PostgreSQL database. Type 'exit' to quit." ;;;
            mcp_loop lines)
         (in_client (OpenAIPgMcpClient.disconnect W))).

Definition example_queries : list string :=
  ["What tables are in this database?";
   "How many records are in the users table?";
   "Show me the schema of the orders table";
   "What are the top 5 products by sales?"].

(** The [for query in queries] loop of [run_example]. *)
Fixpoint example_loop (queries : list string)
  : M (Process OpenAIPgMcpClient.Self) unit :=
  match queries with
  | [] => ret tt
  | query :: rest =>
      print (nl +:+ "Query: " +:+ query) ;;;
      response <- in_client (OpenAIPgMcpClient.chat W query) ;;
      print ("Response: " +:+ py_str response) ;;;
      example_loop rest
  end.

(** [run_example] of [example_openai_client.py]. *)
Definition run_example : M (list Output) unit :=
  let database_url := environ_get W "DATABASE_URL" in
  let pg_mcp_url :=
    default "http://localhost:8000/sse" (environ_get W "PG_MCP_URL") in
  if negb (str_truthy database_url) then
    raise (ValueError "DATABASE_URL environment variable not set")
  else
    with_client (OpenAIPgMcpClient.__init__ W pg_mcp_url)
      (in_client (OpenAIPgMcpClient.initialize W) ;;;
       try_finally
         (in_client (OpenAIPgMcpClient.connect_to_database W
                       (default EmptyString database_url)) ;;;
          example_loop example_queries)
         (in_client (OpenAIPgMcpClient.disconnect W))).

(** The [while True] loop of [main] in [simplified_openai_client.py]. *)
Fixpoint simple_loop (lines : list string)
  : M (Process SimpleOpenAIClient.Self) unit :=
  match lines with
  | [] => write (Prompted query_prompt) ;;; raise eof_error
  | user_input :: rest =>
      write (Prompted query_prompt) ;;;
      if String.eqb (str_lower user_input) "exit" then ret tt
      else
        response <- in_client (SimpleOpenAIClient.chat W user_input) ;;
        print (nl +:+ "Assistant: " +:+ py_str response) ;;;
        simple_loop rest
  end.

(** [SimpleOpenAIClient()] with the log line it writes before raising. *)
Definition new_simple_client : M (list Output) SimpleOpenAIClient.Self :=
  match SimpleOpenAIClient.__init__ W with
  | Return c => ret c
  | Raise e =>
      (fun st =>
         (Raise e,
          {| self := self st ++ [LoggedError (str_of_exn e)];
             history := history st |}))
  end.

(** [main] of [simplified_openai_client.py]. *)
Definition simple_main (lines : list string) : M (list Output) unit :=
  try_except
    (c <- new_simple_client ;;
     with_client c
       (print "OpenAI PG-MCP Client (Simplified)" ;;;
        print "Type 'exit' to quit" ;;;
        simple_loop lines))
    (fun e =>
       (fun st =>
          (Return tt,
           {| self := self st ++
                [LoggedError ("Error in main: " +:+ str_of_exn e);
                 Printed ("Error: " +:+ str_of_exn e)];
              history := history st |}))).

End Programs.

End Cli.

(** ASCII lower-casing, for running the entry points. *)
Definition lower_char (c : Ascii.ascii) : Ascii.ascii :=
  let n := Ascii.nat_of_ascii c in
  if (65 <=? n)%nat && (n <=? 90)%nat then Ascii.ascii_of_nat (n + 32)
  else c.

Fixpoint ascii_lower (s : string) : string :=
  match s with
  | EmptyString => EmptyString
  | String c r => String (lower_char c) (ascii_lower r)
  end.

(** A working server and a completion service that answers in words,
    then fails. *)
Definition talkative_world : World :=
  Demo.world
    [Return [Demo.text "There are 42 users."];
     Return [Demo.text "Three tables."]]
    (Demo.pg_server (JStr "conn-7")) (Return (Some [Demo.pg_query_tool]))
    (λ key, if String.eqb key "DATABASE_URL"
            then Some "postgresql://localhost/app"
            else if String.eqb key "OPENAI_API_KEY" then Some "sk-test"
            else None).



Definition missing_api_key : string :=
  "OPENAI_API_KEY environment variable not set".

(** ** [convert_to_openai.py]

    The regular-expression engine ([re.subn]), the path arithmetic of
    [pathlib] and the directory listing are parameters; the file system is
    a map from paths to text. *)

Module Converter.

Definition dq : string := String (Ascii.ascii_of_nat 34) EmptyString.
Definition bs : string := String (Ascii.ascii_of_nat 92) EmptyString.
Definition nl : string := String (Ascii.ascii_of_nat 10) EmptyString.

(** The patterns and their replacements, in the order they are applied. *)
Definition REPLACEMENTS : list (string * string) :=
[ ("from anthropic import Anthropic",
   "from openai import OpenAI");
  ("from anthropic.async_api import AsyncAnthropic",
   "from openai import AsyncOpenAI");
  ("import anthropic",
   "import openai");
  ("anthropic_client\s*=\s*Anthropic\(api_key=.*\)",
   "openai_client = OpenAI(api_key=os.environ.get(" +:+ dq
       +:+ "OPENAI_API_KEY" +:+ dq +:+ "))");
  ("async_anthropic_client\s*=\s*AsyncAnthropic\(api_key=.*\)",
   "async_openai_client = AsyncOpenAI(api_key=os.environ.get(" +:+ dq
       +:+ "OPENAI_API_KEY" +:+ dq +:+ "))");
  ("anthropic_client\.messages\.create\(\s*model\s*=\s*[" +:+ bs
       +:+ dq +:+ "']claude-.*[" +:+ bs +:+ dq +:+ "'],",
   "openai_client.chat.completions.create(" +:+ nl
       +:+ "    model=os.environ.get(" +:+ dq +:+ "OPENAI_MODEL" +:+ dq
       +:+ ", " +:+ dq +:+ "gpt-4o" +:+ dq +:+ "),");
  ("async_anthropic_client\.messages\.create\(\s*model\s*=\s*["
       +:+ bs +:+ dq +:+ "']claude-.*[" +:+ bs +:+ dq +:+ "'],",
   "async_openai_client.chat.completions.create(" +:+ nl
       +:+ "    model=os.environ.get(" +:+ dq +:+ "OPENAI_MODEL" +:+ dq
       +:+ ", " +:+ dq +:+ "gpt-4o" +:+ dq +:+ "),");
  ("max_tokens\s*=\s*\d+",
   "max_tokens=1024");
  ("temperature\s*=\s*\d+(\.\d+)?",
   "temperature=0.7");
  ("system\s*=\s*",
   "messages=[{" +:+ dq +:+ "role" +:+ dq +:+ ": " +:+ dq
       +:+ "system" +:+ dq +:+ ", " +:+ dq +:+ "content" +:+ dq
       +:+ ": ");
  ("messages\s*=\s*\[\s*\{\s*" +:+ bs +:+ dq +:+ "role" +:+ bs +:+ dq
       +:+ "\s*:\s*" +:+ bs +:+ dq +:+ "user" +:+ bs +:+ dq,
   "messages=[{" +:+ dq +:+ "role" +:+ dq +:+ ": " +:+ dq
       +:+ "system" +:+ dq +:+ ", " +:+ dq +:+ "content" +:+ dq
       +:+ ": system_prompt}, {" +:+ dq +:+ "role" +:+ dq +:+ ": "
       +:+ dq +:+ "user" +:+ dq);
  ("response\.content\[0]\.text",
   "response.choices[0].message.content");
  ("tools\s*=\s*\[\s*\{\s*" +:+ bs +:+ dq +:+ "type" +:+ bs +:+ dq
       +:+ "\s*:\s*" +:+ bs +:+ dq +:+ "function" +:+ bs +:+ dq,
   "tools=tool_list");
  ("ANTHROPIC_API_KEY",
   "OPENAI_API_KEY");
  ("CLAUDE_MODEL",
   "OPENAI_MODEL") ].

Section Convert.
(** [re.subn(pattern, replacement, content)]: the new text and the number
    of substitutions. *)
Variable re_subn : string → string → string → string * nat.
(** [file_path.with_suffix(file_path.suffix + '.bak')] *)
Variable backup_path_of : string → string.

Definition change_line (pattern replacement : string) (count : nat)
  : string :=
  "- Replaced '" +:+ pattern +:+ "' with '" +:+ replacement +:+ "' (" +:+
  pretty count +:+ " occurrences)".

(** One iteration of [for pattern, replacement in REPLACEMENTS], on the
    pair of [content] and [changes]. *)
Definition apply_replacement (acc : string * list string)
    (entry : string * string) : string * list string :=
  let '(new_content, count) := re_subn entry.1 entry.2 acc.1 in
  if (0 <? count)%nat
  then (new_content, acc.2 ++ [change_line entry.1 entry.2 count])
  else acc.

Definition file_not_found (file_path : string) : exn :=
  Exn "FileNotFoundError"
    ("[Errno 2] No such file or directory: '" +:+ file_path +:+ "'").

Definition convert_file (fs : gmap string string) (file_path : string)
  : Result (nat * list string) * gmap string string :=
  match fs !! file_path with
  | None => (Raise (file_not_found file_path), fs)
  | Some original_content =>
      let '(content, changes) :=
        foldl apply_replacement (original_content, []) REPLACEMENTS in
      let total_changes := length changes in
      let fs' :=
        if bool_decide (content = original_content) then fs
        else
          <[file_path := content]>
            (<[backup_path_of file_path := original_content]> fs) in
      (Return (total_changes, changes), fs')
  end.

(** The state of [convert_directory] inside its loop. *)
Record Tally : Type := {
  files_modified : nat;
  total_replacements : nat;
  printed : list string;
  files : gmap string string
}.

(** [convert_directory], on the paths that [glob('**/*.py')] found. *)
Fixpoint convert_each (python_files : list string) (t : Tally)
  : Result unit * Tally :=
  match python_files with
  | [] => (Return tt, t)
  | file_path :: rest =>
      match convert_file (files t) file_path with
      | (Raise e, fs') =>
          (Raise e,
           {| files_modified := files_modified t;
              total_replacements := total_replacements t;
              printed := printed t; files := fs' |})
      | (Return (changes, modifications), fs') =>
          convert_each rest
            (if (0 <? changes)%nat then
               {| files_modified := files_modified t + 1;
                  total_replacements := total_replacements t + changes;
                  printed := printed t ++
                    (nl +:+ "Modified: " +:+ file_path +:+ " (" +:+
                     pretty changes +:+ " replacements)")
                    :: (String.append "  " <$> modifications);
                  files := fs' |}
             else
               {| files_modified := files_modified t;
                  total_replacements := total_replacements t;
                  printed := printed t; files := fs' |})
      end
  end.

Definition convert_directory (fs : gmap string string)
    (python_files : list string) : Result (nat * nat) * Tally :=
  let start :=
    {| files_modified := 0; total_replacements := 0;
       printed := ["Found " +:+ pretty (length python_files) +:+
                   " Python files to check"];
       files := fs |} in
  match convert_each python_files start with
  | (Return _, t) => (Return (files_modified t, total_replacements t), t)
  | (Raise e, t) => (Raise e, t)
  end.

End Convert.

End Converter.

(** A substitution engine for patterns without metacharacters: every
    occurrence of the text [pattern] is replaced, left to right. *)
Fixpoint literal_subn_from (pattern replacement : string) (skip : nat)
    (content : string) : string * nat :=
  match content with
  | EmptyString => (EmptyString, 0)
  | String c rest =>
      match skip with
      | S skip' => literal_subn_from pattern replacement skip' rest
      | O =>
          if String.prefix pattern content && negb (String.eqb pattern EmptyString)
          then
            let '(out, n) :=
              literal_subn_from pattern replacement
                (String.length pattern - 1) rest in
            (replacement +:+ out, S n)
          else
            let '(out, n) := literal_subn_from pattern replacement 0 rest in
            (String c out, n)
      end
  end.

Definition literal_subn (pattern replacement content : string)
  : string * nat :=
  literal_subn_from pattern replacement 0 content.

Definition append_bak (file_path : string) : string := file_path +:+ ".bak".

Definition claude_client_py : string :=
  "key = os.environ.get('ANTHROPIC_API_KEY'); import anthropic".

Definition plain_py : string := "print('hello')".

Definition project_files : gmap string string :=
  {[ "client.py" := claude_client_py; "hello.py" := plain_py ]}.

(** * Properties *)

(** ** Schema translation *)

Section SchemaFacts.
Import SchemaTranslator.

Lemma add_param_properties (ps : list ToolParam) (acc : Parameters) :
  properties (foldl add_param acc ps) =
  foldl insert_schema (properties acc) ps.
Proof.
  revert acc. induction ps as [|p ps IH]; intros acc; simpl; [done|].
  by rewrite IH.
Qed.

Lemma add_param_required (ps : list ToolParam) (acc : Parameters) :
  required (foldl add_param acc ps) =
  (required acc ++
    (param_name <$> filter (λ p, param_required p = true) ps))%list.
Proof.
  revert acc. induction ps as [|p ps IH]; intros acc; simpl.
  - by rewrite app_nil_r.
  - rewrite IH. simpl. rewrite filter_cons.
    destruct (param_required p) eqn:Hreq.
    + rewrite decide_True by done. by rewrite <- app_assoc.
    + rewrite decide_False by done. done.
Qed.

Lemma insert_schema_dom (ps : list ToolParam) (m : gmap string ParamSchema) :
  dom (foldl insert_schema m ps) =
  dom m ∪ list_to_set (param_name <$> ps).
Proof.
  revert m. induction ps as [|p ps IH]; intros m; simpl.
  - by rewrite union_empty_r_L.
  - rewrite IH. unfold insert_schema. rewrite dom_insert_L.
    by rewrite (comm_L _ {[param_name p]} (dom m)), <- (assoc_L _).
Qed.

Lemma insert_schema_size (ps : list ToolParam) (m : gmap string ParamSchema) :
  NoDup (param_name <$> ps) →
  (∀ p, p ∈ ps → m !! param_name p = None) →
  size (foldl insert_schema m ps) = size m + length ps.
Proof.
  revert m. induction ps as [|p ps IH]; intros m Hnd Hfresh; simpl.
  - lia.
  - rewrite fmap_cons in Hnd. apply NoDup_cons in Hnd as [Hp Hnd].
    rewrite IH; [| done |].
    + unfold insert_schema. rewrite map_size_insert_None; [lia|].
      apply Hfresh. left.
    + intros q Hq. unfold insert_schema.
      rewrite lookup_insert_ne; [apply Hfresh; by right|].
      intros Heq. apply Hp. rewrite Heq. by apply list_elem_of_fmap_2.
Qed.

Lemma insert_schema_lookup_fresh (ps : list ToolParam)
    (m : gmap string ParamSchema) (k : string) :
  k ∉ (param_name <$> ps) →
  foldl insert_schema m ps !! k = m !! k.
Proof.
  revert m. induction ps as [|p ps IH]; intros m Hk; simpl; [done|].
  rewrite fmap_cons in Hk. apply not_elem_of_cons in Hk as [Hne Hk].
  rewrite IH by done. unfold insert_schema. by rewrite lookup_insert_ne.
Qed.

Lemma insert_schema_lookup (ps : list ToolParam)
    (m : gmap string ParamSchema) (p : ToolParam) :
  NoDup (param_name <$> ps) → p ∈ ps →
  foldl insert_schema m ps !! param_name p = Some (_convert_param_schema p).
Proof.
  revert m. induction ps as [|q ps IH]; intros m Hnd Hin; simpl.
  - by apply elem_of_nil in Hin.
  - rewrite fmap_cons in Hnd. apply NoDup_cons in Hnd as [Hq Hnd].
    apply elem_of_cons in Hin as [->|Hin].
    + rewrite insert_schema_lookup_fresh by done.
      unfold insert_schema. by rewrite lookup_insert_eq.
    + by apply IH.
Qed.

(** The parameters object of a translated tool is the loop run over
    [params_of]. *)
Lemma convert_tool_parameters (tool : ToolDefinition) :
  function_parameters (function (_convert_tool_to_openai_format tool)) =
  foldl add_param empty_parameters (params_of tool).
Proof.
  unfold _convert_tool_to_openai_format, params_of. simpl.
  destruct (tool_params tool) as [[|p ps]|]; reflexivity.
Qed.

End SchemaFacts.

(** C5. A tool definition whose parameters have pairwise different names
    (a well-formed definition) with N parameters translates to a schema
    whose ["properties"] has exactly N keys, the parameter names, each bound
    to the translation of its parameter, and whose ["required"] list is the
    names of the parameters marked required, in the order of the
    definition. *)
Theorem convert_tool_properties_and_required (tool : ToolDefinition) :
  NoDup (param_name <$> SchemaTranslator.params_of tool) →
  let parameters :=
    function_parameters
      (function (SchemaTranslator._convert_tool_to_openai_format tool)) in
  size (properties parameters) = length (SchemaTranslator.params_of tool)
  ∧ dom (properties parameters) =
      list_to_set (param_name <$> SchemaTranslator.params_of tool)
  ∧ (∀ p, p ∈ SchemaTranslator.params_of tool →
          properties parameters !! param_name p =
          Some (SchemaTranslator._convert_param_schema p))
  ∧ required parameters =
      param_name <$>
        filter (λ p, param_required p = true) (SchemaTranslator.params_of tool).
Proof.
  intros Hnd parameters. subst parameters.
  rewrite convert_tool_parameters, add_param_properties, add_param_required.
  simpl. repeat split.
  - rewrite insert_schema_size; [by rewrite map_size_empty | done |].
    intros p _. apply lookup_empty.
  - by rewrite insert_schema_dom, dom_empty_L, union_empty_l_L.
  - intros p Hp. by apply insert_schema_lookup.
Qed.

Lemma convert_tool_properties_and_required_witness :
  let parameters :=
    function_parameters
      (function (SchemaTranslator._convert_tool_to_openai_format
                   Demo.pg_query_tool)) in
  size (properties parameters) = 1
  ∧ properties parameters !! "query" =
      Some {| schema_description := None; schema_type := "string";
              schema_items := None |}
  ∧ required parameters = ["query"].
Proof.
  assert (Hnd : NoDup (param_name <$>
                         SchemaTranslator.params_of Demo.pg_query_tool)).
  { simpl. apply NoDup_singleton. }
  destruct (convert_tool_properties_and_required Demo.pg_query_tool Hnd)
    as (Hsize & _ & Hlookup & Hreq).
  split; [exact Hsize|]. split; [|exact Hreq].
  apply (Hlookup (Demo.string_param "query")). simpl. left.
Defined.

(** Parameters that share a name share a key, so the count of keys falls
    short of the count of parameters, and the name is listed as required
    once per parameter. *)
Example repeated_names_share_a_key :
  let parameters :=
    function_parameters
      (function (SchemaTranslator._convert_tool_to_openai_format twice_tool)) in
  length (SchemaTranslator.params_of twice_tool) = 2
  ∧ size (properties parameters) = 1
  ∧ required parameters = ["query"; "query"].
Proof. intros parameters. by vm_compute. Qed.

Lemma type_is_true (p : ToolParam) (t : string) :
  param_type p = Some t → SchemaTranslator.type_is p t = true.
Proof. intros H. unfold SchemaTranslator.type_is. by apply bool_decide_eq_true. Qed.

Lemma type_is_false (p : ToolParam) (t : string) :
  param_type p ≠ Some t → SchemaTranslator.type_is p t = false.
Proof. intros H. unfold SchemaTranslator.type_is. by apply bool_decide_eq_false. Qed.

(** C6. The descriptor of a parameter whose type is none of the five known
    ones (or is missing) has type ["string"]; for a known type the
    descriptor has that type; the descriptor of an array carries the
    parameter's item type when it has a non-empty one, and no other
    descriptor carries an item type. *)
Theorem convert_param_schema_type (p : ToolParam) :
  (∀ t, param_type p = Some t → t ∈ SchemaTranslator.known_types →
        schema_type (SchemaTranslator._convert_param_schema p) = t)
  ∧ ((∀ t, t ∈ SchemaTranslator.known_types → param_type p ≠ Some t) →
        schema_type (SchemaTranslator._convert_param_schema p) = "string")
  ∧ (param_type p = Some "array" →
        schema_items (SchemaTranslator._convert_param_schema p) =
        if str_truthy (param_items p) then param_items p else None)
  ∧ (param_type p ≠ Some "array" →
        schema_items (SchemaTranslator._convert_param_schema p) = None).
Proof.
  unfold SchemaTranslator.known_types. repeat split.
  - intros t Ht Hin. unfold SchemaTranslator._convert_param_schema.
    apply list_elem_of_In in Hin. simpl in Hin.
    destruct Hin as [<-|[<-|[<-|[<-|[<-|[]]]]]];
      repeat first
        [ rewrite (type_is_true p _ Ht)
        | rewrite (type_is_false p) by (rewrite Ht; discriminate) ];
      reflexivity.
  - intros Hnot. unfold SchemaTranslator._convert_param_schema.
    rewrite !type_is_false; [reflexivity | ..];
      apply Hnot; repeat constructor.
  - intros Ht. unfold SchemaTranslator._convert_param_schema.
    rewrite (type_is_true p _ Ht).
    rewrite !type_is_false by (rewrite Ht; discriminate). reflexivity.
  - intros Ht. unfold SchemaTranslator._convert_param_schema.
    rewrite (type_is_false p "array" Ht).
    repeat match goal with
           | |- context [SchemaTranslator.type_is p ?t] =>
               destruct (SchemaTranslator.type_is p t)
           end; reflexivity.
Qed.

Lemma convert_param_schema_type_witness :
  schema_type (SchemaTranslator._convert_param_schema Demo.ids_param) = "array"
  ∧ schema_items (SchemaTranslator._convert_param_schema Demo.ids_param) =
      Some "integer"
  ∧ schema_type (SchemaTranslator._convert_param_schema Demo.blob_param) =
      "string"
  ∧ schema_items (SchemaTranslator._convert_param_schema Demo.blob_param) =
      None.
Proof.
  destruct (convert_param_schema_type Demo.ids_param) as (Hknown & _ & Harr & _).
  destruct (convert_param_schema_type Demo.blob_param) as (_ & Hother & _ & Hnone).
  split; [|split; [|split]].
  - apply (Hknown "array"); [reflexivity|]. repeat constructor.
  - apply (Harr eq_refl).
  - apply Hother. intros t Hin. simpl.
    apply list_elem_of_In in Hin. simpl in Hin.
    destruct Hin as [<-|[<-|[<-|[<-|[<-|[]]]]]]; discriminate.
  - apply Hnone. discriminate.
Defined.

(** ** Session and connection life-cycle of [OpenAIPgMcpClient] *)

Section SessionFacts.
Import OpenAIPgMcpClient.
Variable W : World.

Lemma unconnected_without_conn_id (s : Self) :
  py_truthy (conn_id s) = false → unconnected s = true.
Proof. intros H. unfold unconnected. rewrite H. by destruct (session s). Qed.

Lemma connected_with_both (s : Self) :
  session s ≠ None → py_truthy (conn_id s) = true → unconnected s = false.
Proof.
  intros Hs Hc. unfold unconnected. rewrite Hc.
  by destruct (session s).
Qed.

(** A remote error in [connect] reaches the caller and leaves [conn_id]
    as it was. *)
Lemma connect_to_database_remote_error (st : State Self) (cs : string)
    (e : exn) :
  session (self st) ≠ None →
  call_tool W (history st) "connect"
    (JObj [("connection_string", JStr cs)]) = Raise e →
  connect_to_database W cs st =
    (Raise e,
     {| self := self st;
        history := history st ++
          [EvCallTool "connect" (JObj [("connection_string", JStr cs)])] |}).
Proof.
  intros Hs Hcall. unfold connect_to_database, bind, get_self.
  destruct (session (self st)) as [sess|]; [|done].
  unfold session_call_tool, request. simpl. by rewrite Hcall.
Qed.

(** A remote error in [disconnect] reaches the caller and leaves
    [conn_id] set. *)
Lemma disconnect_remote_error (st : State Self) (e : exn) :
  session (self st) ≠ None →
  py_truthy (conn_id (self st)) = true →
  call_tool W (history st) "disconnect"
    (JObj [("connection_id", conn_id (self st))]) = Raise e →
  disconnect W st =
    (Raise e,
     {| self := self st;
        history := history st ++
          [EvCallTool "disconnect"
             (JObj [("connection_id", conn_id (self st))])] |}).
Proof.
  intros Hs Hc Hcall. unfold disconnect, bind, get_self.
  rewrite (connected_with_both _ Hs Hc). simpl.
  unfold session_call_tool, request. simpl. by rewrite Hcall.
Qed.

End SessionFacts.

(** C9. On a client whose session is [None], [chat] raises at once: no
    completion request and no tool call is made and the client is left as
    it was; [connect_to_database] does the same. *)
Theorem uninitialized_client_raises (W : World)
    (st : State OpenAIPgMcpClient.Self) (user_message cs : string) :
  OpenAIPgMcpClient.session (self st) = None →
  OpenAIPgMcpClient.chat W user_message st =
    (Raise OpenAIPgMcpClient.not_initialized, st)
  ∧ OpenAIPgMcpClient.connect_to_database W cs st =
    (Raise OpenAIPgMcpClient.not_initialized, st).
Proof.
  intros Hs.
  unfold OpenAIPgMcpClient.chat, OpenAIPgMcpClient.connect_to_database,
    bind, get_self.
  rewrite Hs. done.
Qed.

Lemma uninitialized_client_raises_witness :
  let W := Demo.world [Return [Demo.text "hello"]] (Demo.pg_server (JStr "c1"))
             (Return None) Demo.no_env in
  let st := Demo.start (OpenAIPgMcpClient.__init__ W "http://localhost:8000/sse") in
  OpenAIPgMcpClient.chat W "How many users?" st =
    (Raise (ValueError "Client not initialized. Call initialize() first."), st)
  ∧ OpenAIPgMcpClient.connect_to_database W "postgresql://localhost/app" st =
    (Raise (ValueError "Client not initialized. Call initialize() first."), st).
Proof.
  intros W st.
  exact (uninitialized_client_raises W st "How many users?"
           "postgresql://localhost/app" eq_refl).
Defined.

(** C8. [connect_to_database] sends one [connect] request with the
    connection string. When the answer carries a connection identifier, the
    identifier becomes [conn_id] and is returned; when it carries none
    (no such key, or a null or empty value), the call fails with the
    error "Failed to connect to database". *)
Theorem connect_to_database_outcome (W : World)
    (st : State OpenAIPgMcpClient.Self) (cs : string)
    (d : list (string * json)) :
  OpenAIPgMcpClient.session (self st) ≠ None →
  call_tool W (history st) "connect"
    (JObj [("connection_string", JStr cs)]) = Return (JObj d) →
  let id := default JNull (assoc_get "connection_id" d) in
  let sent := EvCallTool "connect" (JObj [("connection_string", JStr cs)]) in
  OpenAIPgMcpClient.connect_to_database W cs st =
    if py_truthy id then
      (Return id,
       {| self := OpenAIPgMcpClient.with_conn_id (self st) id;
          history := history st ++ [sent; EvInfo (ConnectedWith id)] |})
    else
      (Raise OpenAIPgMcpClient.connection_rejected,
       {| self := OpenAIPgMcpClient.with_conn_id (self st) id;
          history := history st ++ [sent] |}).
Proof.
  intros Hs Hcall id req.
  unfold OpenAIPgMcpClient.connect_to_database, bind, get_self.
  destruct (OpenAIPgMcpClient.session (self st)) as [sess|]; [|done].
  unfold OpenAIPgMcpClient.session_call_tool, request. simpl.
  rewrite Hcall. simpl. fold id.
  destruct (py_truthy id); simpl; [|done].
  by rewrite <- app_assoc.
Qed.

Lemma connect_to_database_outcome_witness :
  let accepting := Demo.world [] (Demo.pg_server (JStr "conn-7"))
                     (Return None) Demo.no_env in
  let rejecting := Demo.world [] (Demo.pg_server JNull)
                     (Return None) Demo.no_env in
  let sent := EvCallTool "connect"
                (JObj [("connection_string", JStr "postgresql://localhost/app")]) in
  OpenAIPgMcpClient.connect_to_database accepting "postgresql://localhost/app"
      (Demo.start (Demo.fresh accepting)) =
    (Return (JStr "conn-7"),
     {| self := OpenAIPgMcpClient.with_conn_id (Demo.fresh accepting)
                  (JStr "conn-7");
        history := [sent; EvInfo (ConnectedWith (JStr "conn-7"))] |})
  ∧ OpenAIPgMcpClient.connect_to_database rejecting "postgresql://localhost/app"
      (Demo.start (Demo.fresh rejecting)) =
    (Raise (ValueError "Failed to connect to database. No connection ID returned."),
     {| self := OpenAIPgMcpClient.with_conn_id (Demo.fresh rejecting) JNull;
        history := [sent] |}).
Proof.
  intros accepting rejecting sent. split.
  - apply (connect_to_database_outcome accepting
             (Demo.start (Demo.fresh accepting)) "postgresql://localhost/app"
             [("connection_id", JStr "conn-7")]); [discriminate | reflexivity].
  - apply (connect_to_database_outcome rejecting
             (Demo.start (Demo.fresh rejecting)) "postgresql://localhost/app"
             [("connection_id", JNull)]); [discriminate | reflexivity].
Defined.

(** C7. With a session and a connection identifier, [disconnect] sends one
    [disconnect] request carrying the identifier and, when the request
    returns, sets [conn_id] to [None]; a second call right after it sends
    nothing, raises nothing and changes nothing. *)
Theorem disconnect_twice (W : World) (st : State OpenAIPgMcpClient.Self)
    (answer : json) :
  OpenAIPgMcpClient.session (self st) ≠ None →
  py_truthy (OpenAIPgMcpClient.conn_id (self st)) = true →
  call_tool W (history st) "disconnect"
    (JObj [("connection_id", OpenAIPgMcpClient.conn_id (self st))]) =
    Return answer →
  let st1 :=
    {| self := OpenAIPgMcpClient.with_conn_id (self st) JNull;
       history := history st ++
         [EvCallTool "disconnect"
            (JObj [("connection_id", OpenAIPgMcpClient.conn_id (self st))]);
          EvInfo Disconnected] |} in
  OpenAIPgMcpClient.disconnect W st = (Return tt, st1)
  ∧ OpenAIPgMcpClient.conn_id (self st1) = JNull
  ∧ OpenAIPgMcpClient.disconnect W st1 = (Return tt, st1).
Proof.
  intros Hs Hc Hcall st1. split; [|split; [done|]].
  - unfold OpenAIPgMcpClient.disconnect, bind, get_self.
    rewrite (connected_with_both _ Hs Hc). simpl.
    unfold OpenAIPgMcpClient.session_call_tool, request. simpl.
    rewrite Hcall. unfold emit, st1. simpl. by rewrite <- app_assoc.
  - unfold OpenAIPgMcpClient.disconnect, bind, get_self.
    rewrite unconnected_without_conn_id by done. done.
Qed.

Lemma disconnect_twice_witness :
  let W := Demo.world [] (Demo.pg_server (JStr "conn-7"))
             (Return None) Demo.no_env in
  let connected :=
    OpenAIPgMcpClient.with_conn_id (Demo.fresh W) (JStr "conn-7") in
  let st1 :=
    {| self := OpenAIPgMcpClient.with_conn_id connected JNull;
       history := [EvCallTool "disconnect"
                     (JObj [("connection_id", JStr "conn-7")]);
                   EvInfo Disconnected] |} in
  OpenAIPgMcpClient.disconnect W (Demo.start connected) = (Return tt, st1)
  ∧ OpenAIPgMcpClient.conn_id (self st1) = JNull
  ∧ OpenAIPgMcpClient.disconnect W st1 = (Return tt, st1).
Proof.
  intros W connected st1.
  apply (disconnect_twice W (Demo.start connected)
           (JObj [("status", JStr "disconnected")]));
    [discriminate | reflexivity | reflexivity].
Defined.




(** ** The tool registry *)

Lemma register_all_dom (listing : list ToolDefinition)
    (registry : gmap string OpenAITool) :
  dom (foldl OpenAIPgMcpClient.register registry listing) =
  dom registry ∪ list_to_set (tool_name <$> listing).
Proof.
  revert registry. induction listing as [|tool listing IH]; intros registry.
  - simpl. by rewrite union_empty_r_L.
  - simpl. rewrite IH. unfold OpenAIPgMcpClient.register.
    rewrite dom_insert_L.
    by rewrite (comm_L _ {[tool_name tool]} (dom registry)), <- (assoc_L _).
Qed.

(** The last definition listed under a name is the one registered. *)
Lemma register_all_lookup_last (listing : list ToolDefinition)
    (registry : gmap string OpenAITool) (tool : ToolDefinition) :
  foldl OpenAIPgMcpClient.register registry (listing ++ [tool])
    !! tool_name tool =
  Some (SchemaTranslator._convert_tool_to_openai_format tool).
Proof.
  rewrite foldl_app. simpl. unfold OpenAIPgMcpClient.register at 1.
  by rewrite lookup_insert_eq.
Qed.

(** C3, as the code has it. Initialisation of a new client succeeds
    whenever the transport opens and the server answers the listing
    request, also when the listing is empty or missing; afterwards the
    keys of the registry are the listed tool names, so the registry is
    empty exactly when the listing is. *)
Theorem initialize_registry (W : World) (url : string) (h : list Event)
    (listing : option (list ToolDefinition)) :
  sse_client W h url = Return tt →
  create_session W (h ++ [EvSseClient url]) = Return tt →
  server_info W (h ++ [EvSseClient url; EvCreateSession]) = Return listing →
  ∃ st',
    OpenAIPgMcpClient.initialize W
      {| self := OpenAIPgMcpClient.__init__ W url; history := h |} =
      (Return tt, st')
    ∧ OpenAIPgMcpClient.session (self st') ≠ None
    ∧ dom (OpenAIPgMcpClient.tools (self st')) =
        list_to_set (tool_name <$> default [] listing)
    ∧ (OpenAIPgMcpClient.tools (self st') = ∅ ↔ default [] listing = []).
Proof.
  intros Hsse Hcreate Hinfo.
  unfold OpenAIPgMcpClient.initialize, OpenAIPgMcpClient._load_tools,
    bind, get_self, set_self, request, emit. simpl.
  rewrite Hsse, Hcreate. simpl.
  rewrite <- app_assoc. simpl. rewrite Hinfo. simpl.
  eexists. split; [reflexivity|]. simpl.
  split; [discriminate|].
  assert (Hdom : dom (foldl OpenAIPgMcpClient.register
                        (∅ : gmap string OpenAITool) (default [] listing)) =
                 list_to_set (tool_name <$> default [] listing)).
  { by rewrite register_all_dom, dom_empty_L, union_empty_l_L. }
  split; [exact Hdom|]. split.
  - intros Hempty. rewrite Hempty, dom_empty_L in Hdom.
    destruct (default [] listing) as [|tool rest]; [done|].
    simpl in Hdom. exfalso.
    assert (Hin : tool_name tool ∈ (∅ : gset string)).
    { rewrite Hdom. apply elem_of_union_l. by apply elem_of_singleton. }
    by apply not_elem_of_empty in Hin.
  - intros ->. reflexivity.
Qed.

Lemma initialize_registry_witness :
  let W := Demo.world [] (Demo.pg_server (JStr "conn-7"))
             (Return (Some [Demo.connect_tool; Demo.pg_query_tool]))
             Demo.no_env in
  ∃ st',
    OpenAIPgMcpClient.initialize W
      (Demo.start (OpenAIPgMcpClient.__init__ W "http://localhost:8000/sse")) =
      (Return tt, st')
    ∧ OpenAIPgMcpClient.session (self st') ≠ None
    ∧ dom (OpenAIPgMcpClient.tools (self st')) =
        list_to_set ["connect"; "pg_query"]
    ∧ (OpenAIPgMcpClient.tools (self st') = ∅ ↔
       [Demo.connect_tool; Demo.pg_query_tool] = []).
Proof.
  intros W.
  exact (initialize_registry W "http://localhost:8000/sse" []
           (Some [Demo.connect_tool; Demo.pg_query_tool])
           eq_refl eq_refl eq_refl).
Defined.

(** C3 as stated fails: with an empty tool listing, initialisation returns
    normally and leaves an empty registry. *)
Lemma initialize_with_no_tools_succeeds :
  let W := Demo.world [] (Demo.pg_server (JStr "conn-7"))
             (Return (Some [])) Demo.no_env in
  let outcome :=
    OpenAIPgMcpClient.initialize W
      (Demo.start (OpenAIPgMcpClient.__init__ W "http://localhost:8000/sse")) in
  outcome.1 = Return tt
  ∧ OpenAIPgMcpClient.tools (self outcome.2) = ∅
  ∧ history outcome.2 =
      [EvSseClient "http://localhost:8000/sse"; EvCreateSession; EvServerInfo;
       EvInfo (LoadedTools 0)].
Proof. intros W outcome. vm_compute. done. Qed.

(** ** Computations in [M] *)

Section MonadFacts.
Context {S : Type}.

Lemma bind_get_self {A} (k : S → M S A) (st : State S) :
  bind get_self k st = k (self st) st.
Proof. reflexivity. Qed.

Lemma bind_ret {A B} (a : A) (k : A → M S B) (st : State S) :
  bind (ret a) k st = k a st.
Proof. reflexivity. Qed.

Lemma bind_request {A B} (ev : Event) (answer : list Event → Result A)
    (k : A → M S B) (st : State S) :
  bind (request ev answer) k st =
  match answer (history st) with
  | Return a => k a {| self := self st; history := history st ++ [ev] |}
  | Raise e => (Raise e, {| self := self st; history := history st ++ [ev] |})
  end.
Proof. unfold bind, request. by destruct (answer (history st)). Qed.

Lemma keeps_ret {A} (P : S → Prop) (a : A) : keeps P (ret a).
Proof. intros st H. exact H. Qed.

Lemma keeps_raise {A} (P : S → Prop) (e : exn) : keeps P (@raise S A e).
Proof. intros st H. exact H. Qed.

Lemma keeps_lift_result {A} (P : S → Prop) (r : Result A) :
  keeps P (lift_result r).
Proof. intros st H. exact H. Qed.

Lemma keeps_get_self (P : S → Prop) : keeps P get_self.
Proof. intros st H. exact H. Qed.

Lemma keeps_emit (P : S → Prop) (ev : Event) : keeps P (emit ev).
Proof. intros st H. exact H. Qed.

Lemma keeps_request {A} (P : S → Prop) (ev : Event)
    (answer : list Event → Result A) : keeps P (request ev answer).
Proof. intros st H. exact H. Qed.

Lemma keeps_set_self (P : S → Prop) (s : S) : P s → keeps P (set_self s).
Proof. intros Hs st _. exact Hs. Qed.

Lemma keeps_bind {A B} (P : S → Prop) (m : M S A) (k : A → M S B) :
  keeps P m → (∀ a, keeps P (k a)) → keeps P (bind m k).
Proof.
  intros Hm Hk st H. unfold bind. specialize (Hm st H).
  destruct (m st) as [[a|e] st1]; simpl in *; [|exact Hm].
  by apply Hk.
Qed.

Lemma keeps_try_except {A} (P : S → Prop) (body : M S A)
    (handler : exn → M S A) :
  keeps P body → (∀ e, keeps P (handler e)) → keeps P (try_except body handler).
Proof.
  intros Hm Hh st H. unfold try_except. specialize (Hm st H).
  destruct (body st) as [[a|e] st1]; simpl in *; [exact Hm|].
  by apply Hh.
Qed.

Lemma keeps_for_loop {A Acc R} (P : S → Prop) (l : list A) (acc : Acc)
    (body : Acc → A → M S (Acc + R)) :
  (∀ acc' x, x ∈ l → keeps P (body acc' x)) →
  keeps P (for_loop l acc body).
Proof.
  revert acc. induction l as [|x l IH]; intros acc Hbody; simpl.
  - apply keeps_ret.
  - apply keeps_bind; [apply Hbody; left|].
    intros [acc'|r]; [|apply keeps_ret].
    apply IH. intros acc'' y Hy. apply Hbody. by right.
Qed.

Lemma keeps_first_choice (P : S → Prop) (response : Response) :
  keeps P (first_choice response).
Proof. destruct response; [apply keeps_raise | apply keeps_ret]. Qed.

Lemma appends_ret {A} (a : A) : appends (@ret S A a).
Proof. intros st. exists []. simpl. by rewrite app_nil_r. Qed.

Lemma appends_raise {A} (e : exn) : appends (@raise S A e).
Proof. intros st. exists []. simpl. by rewrite app_nil_r. Qed.

Lemma appends_lift_result {A} (r : Result A) : appends (@lift_result S A r).
Proof. intros st. exists []. simpl. by rewrite app_nil_r. Qed.

Lemma appends_get_self : appends (@get_self S).
Proof. intros st. exists []. simpl. by rewrite app_nil_r. Qed.

Lemma appends_set_self (s : S) : appends (set_self s).
Proof. intros st. exists []. simpl. by rewrite app_nil_r. Qed.

Lemma appends_emit (ev : Event) : appends (@emit S ev).
Proof. intros st. by exists [ev]. Qed.

Lemma appends_request {A} (ev : Event) (answer : list Event → Result A) :
  appends (@request S A ev answer).
Proof. intros st. by exists [ev]. Qed.

Lemma appends_bind {A B} (m : M S A) (k : A → M S B) :
  appends m → (∀ a, appends (k a)) → appends (bind m k).
Proof.
  intros Hm Hk st. unfold bind. destruct (Hm st) as [evs Hevs].
  destruct (m st) as [[a|e] st1]; simpl in *; [|by exists evs].
  destruct (Hk a st1) as [evs' Hevs']. exists (evs ++ evs')%list.
  by rewrite Hevs', Hevs, app_assoc.
Qed.

Lemma appends_try_except {A} (body : M S A) (handler : exn → M S A) :
  appends body → (∀ e, appends (handler e)) → appends (try_except body handler).
Proof.
  intros Hm Hh st. unfold try_except. destruct (Hm st) as [evs Hevs].
  destruct (body st) as [[a|e] st1]; simpl in *; [by exists evs|].
  destruct (Hh e st1) as [evs' Hevs']. exists (evs ++ evs')%list.
  by rewrite Hevs', Hevs, app_assoc.
Qed.

Lemma appends_for_loop {A Acc R} (l : list A) (acc : Acc)
    (body : Acc → A → M S (Acc + R)) :
  (∀ acc' x, appends (body acc' x)) → appends (for_loop l acc body).
Proof.
  intros Hbody. revert acc. induction l as [|x l IH]; intros acc; simpl.
  - apply appends_ret.
  - apply appends_bind; [apply Hbody|].
    intros [acc'|r]; [apply IH | apply appends_ret].
Qed.

(** A computation that begins with a request begins its trace with it. *)
Lemma request_then_appends {A B} (ev : Event)
    (answer : list Event → Result A) (k : A → M S B) (st : State S) :
  (∀ a, appends (k a)) →
  ∃ rest, history (bind (request ev answer) k st).2 = history st ++ ev :: rest.
Proof.
  intros Hk. rewrite bind_request.
  destruct (answer (history st)) as [a|e].
  - destruct (Hk a {| self := self st; history := history st ++ [ev] |})
      as [evs Hevs].
    exists evs. rewrite Hevs. simpl. by rewrite <- app_assoc.
  - by exists [].
Qed.

Lemma appends_first_choice (response : Response) :
  appends (@first_choice S response).
Proof. destruct response; [apply appends_raise | apply appends_ret]. Qed.

End MonadFacts.

Create HintDb monad.
#[local] Hint Resolve keeps_ret keeps_raise keeps_lift_result keeps_get_self
  keeps_emit keeps_request keeps_bind keeps_try_except
  appends_ret appends_raise appends_lift_result appends_get_self
  appends_set_self appends_emit appends_request appends_bind
  appends_try_except appends_for_loop keeps_first_choice
  appends_first_choice : monad.

(** ** The chat loop of [SimpleOpenAIClient] *)

Section SimpleFacts.
Import SimpleOpenAIClient.
Variable W : World.

Lemma mock_tool_keeps_connection (function_name : string) (args : json) :
  function_name ≠ "disconnect" →
  keeps mock_connected (mock_tool W function_name args).
Proof.
  intros Hname. unfold mock_tool.
  destruct (String.eqb function_name "connect").
  { apply keeps_bind; [apply keeps_get_self|]. intros s.
    apply keeps_bind; [by apply keeps_set_self | auto with monad]. }
  destruct (String.eqb function_name "disconnect") eqn:Hd.
  { by apply String.eqb_eq in Hd. }
  destruct (String.eqb function_name "pg_query").
  { apply keeps_bind.
    - unfold get_query. destruct args; auto with monad.
    - intros query. unfold execute_query.
      apply keeps_bind; [apply keeps_emit|]. intros _.
      destruct query; auto with monad.
      destruct (str_contains _ _); auto with monad. }
  destruct (String.eqb function_name "pg_explain"); auto with monad.
Qed.

Lemma chat_tool_call_keeps_connection (responses : list Turn)
    (tool_call : ToolCall) :
  call_name tool_call ≠ "disconnect" →
  keeps mock_connected (chat_tool_call W responses tool_call).
Proof.
  intros Hname. unfold chat_tool_call.
  apply keeps_bind; [apply keeps_lift_result|]. intros args.
  apply keeps_bind; [apply keeps_emit|]. intros _.
  apply keeps_bind; [by apply mock_tool_keeps_connection|]. intros result.
  apply keeps_ret.
Qed.

Lemma second_call_keeps (P : Self → Prop) (s : Self) (messages : list Turn) :
  keeps P (second_call W s messages).
Proof.
  unfold second_call, create. apply keeps_try_except.
  - apply keeps_bind; [apply keeps_request|]. intros response.
    apply keeps_bind; [apply keeps_first_choice|]. intros m.
    apply keeps_ret.
  - intros e. auto with monad.
Qed.

Lemma mock_tool_appends (function_name : string) (args : json) :
  appends (mock_tool W function_name args).
Proof.
  unfold mock_tool, get_query, execute_query.
  repeat match goal with
         | |- context [if ?b then _ else _] => destruct b
         end; auto 10 with monad.
  apply appends_bind; [destruct args; auto with monad|]. intros query.
  apply appends_bind; [apply appends_emit|]. intros _.
  destruct query; auto with monad.
  destruct (str_contains _ _); auto with monad.
Qed.

Lemma chat_tool_call_appends (responses : list Turn) (tool_call : ToolCall) :
  appends (chat_tool_call W responses tool_call).
Proof.
  unfold chat_tool_call.
  apply appends_bind; [apply appends_lift_result|]. intros args.
  apply appends_bind; [apply appends_emit|]. intros _.
  apply appends_bind; [apply mock_tool_appends|]. intros result.
  apply appends_ret.
Qed.

Lemma second_call_appends (s : Self) (messages : list Turn) :
  appends (second_call W s messages).
Proof.
  unfold second_call, create. apply appends_try_except.
  - apply appends_bind; [apply appends_request|]. intros response.
    apply appends_bind; [apply appends_first_choice|]. intros m.
    apply appends_ret.
  - intros e. auto with monad.
Qed.

(** The inner handler turns every error of the follow-up request into a
    string. *)
Lemma second_call_returns (s : Self) (messages : list Turn)
    (st : State Self) :
  ∃ r st', second_call W s messages st = (Return r, st').
Proof.
  unfold second_call, try_except, create, bind, request. simpl.
  destruct (completions_create W (history st) (model s) messages (tools s))
    as [[|m response]|e]; simpl; eauto.
Qed.



Lemma auto_connect_returns (st : State Self) :
  (auto_connect W st).1 = Return tt.
Proof.
  unfold auto_connect, bind, get_self.
  destruct (negb (str_truthy (conn_id (self st)))); [|done].
  destruct (str_truthy (environ_get W "DATABASE_URL")); done.
Qed.

Lemma auto_connect_with_database_url (st : State Self) (url : string) :
  str_truthy (conn_id (self st)) = false →
  environ_get W "DATABASE_URL" = Some url →
  url ≠ EmptyString →
  auto_connect W st = (Return tt, auto_connected st).
Proof.
  intros Hc Henv Hurl. unfold auto_connect, bind, get_self.
  rewrite Hc, Henv. simpl.
  destruct (String.eqb url EmptyString) eqn:Heq.
  { by apply String.eqb_eq in Heq. }
  reflexivity.
Qed.

End SimpleFacts.

Section SimpleChatFacts.
Import SimpleOpenAIClient.
Variable W : World.

(** What follows the first completion request in [chat_body]. *)
Lemma after_first_request_appends (user_message : string)
    (response : Response) :
  appends
    (message <- first_choice response ;;
     match tool_calls message with
     | Some (tool_call :: others) =>
         let all_calls := tool_call :: others in
         r <- for_loop all_calls [] (chat_tool_call W) ;;
         match r with
         | inr final => ret final
         | inl tool_responses =>
             s <- get_self ;;
             let messages :=
               ([SystemTurn (system_prompt s);
                 UserTurn user_message;
                 AssistantTurn (or_empty (content message)) all_calls]
                ++ tool_responses)%list in
             second_call W s messages
         end
     | _ => ret (content message)
     end).
Proof.
  apply appends_bind; [apply appends_first_choice|]. intros message.
  destruct (tool_calls message) as [[|tool_call others]|];
    [apply appends_ret | | apply appends_ret].
  apply appends_bind.
  - apply appends_for_loop. intros acc x. apply chat_tool_call_appends.
  - intros [responses|final]; [|apply appends_ret].
    apply appends_bind; [apply appends_get_self|]. intros s.
    apply second_call_appends.
Qed.

(** [chat_body] begins with the first completion request. *)
Lemma chat_body_first_event (user_message : string) (st : State Self) :
  ∃ rest,
    history (chat_body W user_message st).2 =
    history st ++ first_request (self st) user_message :: rest.
Proof.
  unfold chat_body. rewrite bind_get_self. unfold create, first_request.
  apply request_then_appends. intros response.
  apply after_first_request_appends.
Qed.

(** Unless a [disconnect] is asked for, the mock connection lasts through
    [chat_body]. *)
Lemma chat_body_keeps_connection (user_message : string) (st : State Self) :
  mock_connected (self st) →
  (∀ tool_call, tool_call ∈ requested_calls W user_message st →
                call_name tool_call ≠ "disconnect") →
  mock_connected (self (chat_body W user_message st).2).
Proof.
  intros Hconn Hcalls. unfold requested_calls in Hcalls.
  unfold chat_body. rewrite bind_get_self. unfold create.
  rewrite bind_request.
  destruct (completions_create W (history st) (model (self st))
              [SystemTurn (system_prompt (self st)); UserTurn user_message]
              (tools (self st))) as [[|message choices]|e];
    [exact Hconn | | exact Hconn].
  unfold first_choice. rewrite bind_ret.
  destruct (tool_calls message) as [[|tool_call others]|];
    [exact Hconn | | exact Hconn].
  simpl in Hcalls.
  apply (keeps_bind mock_connected); [| | exact Hconn].
  - apply keeps_for_loop. intros acc x Hx.
    apply chat_tool_call_keeps_connection. by apply Hcalls.
  - intros [responses|final]; [|apply keeps_ret].
    apply keeps_bind; [apply keeps_get_self|]. intros s.
    apply second_call_keeps.
Qed.

(** The loop of the simplified client never leaves early, and when it
    ends it has added one tool result per requested call, in the order of
    the requests and tagged with their identifiers. *)
Lemma simple_loop_answers_every_call (calls : list ToolCall)
    (acc : list Turn) (st : State Self) :
  match (for_loop calls acc (chat_tool_call W) st).1 with
  | Return (inl responses) =>
      ∃ added, responses = (acc ++ added)%list
               ∧ turn_id <$> added = Some ∘ call_id <$> calls
  | Return (inr _) => False
  | Raise _ => True
  end.
Proof.
  revert acc st. induction calls as [|tool_call calls IH]; intros acc st.
  - simpl. exists []. by rewrite app_nil_r.
  - simpl. unfold bind at 1.
    destruct (chat_tool_call W acc tool_call st) as [r st1] eqn:Hbody.
    unfold chat_tool_call, bind, lift_result, emit, ret in Hbody.
    simpl in Hbody.
    destruct (json_loads W (call_arguments tool_call)) as [args|e];
      [|by inversion Hbody].
    simpl in Hbody.
    destruct (mock_tool W (call_name tool_call) args _) as [[result|e] st2];
      [|by inversion Hbody].
    inversion Hbody; subst r st1; clear Hbody.
    specialize (IH (acc ++ [ToolTurn (call_id tool_call)
                              (json_dumps W result)])%list st2).
    destruct (for_loop calls _ (chat_tool_call W) st2) as [[[responses|?]|?] ?];
      simpl in *; [|done..].
    destruct IH as (added & -> & Hids).
    exists (ToolTurn (call_id tool_call) (json_dumps W result) :: added).
    split; [by rewrite <- app_assoc|].
    rewrite !fmap_cons. by rewrite Hids.
Qed.

End SimpleChatFacts.

(** C10, as the code has it. When [conn_id] is unset and [DATABASE_URL] is
    set to a non-empty value, [chat] of the simplified client first runs
    [connect_to_database], which sets [conn_id] to the mock identifier, and
    only then issues the first completion request; [conn_id] keeps that
    value to the end of the exchange unless the completion asks for the
    [disconnect] tool. *)
Theorem chat_connects_before_first_request (W : World) (user_message : string)
    (st : State SimpleOpenAIClient.Self) (url : string) :
  str_truthy (SimpleOpenAIClient.conn_id (self st)) = false →
  environ_get W "DATABASE_URL" = Some url →
  url ≠ EmptyString →
  SimpleOpenAIClient.auto_connect W st = (Return tt, auto_connected st)
  ∧ mock_connected (self (auto_connected st))
  ∧ (∃ rest,
       history (SimpleOpenAIClient.chat W user_message st).2 =
       history st ++
         EvInfo (ConnectedWith (JStr SimpleOpenAIClient.mock_connection_id))
         :: first_request (self (auto_connected st)) user_message :: rest)
  ∧ ((∀ tool_call,
        tool_call ∈ requested_calls W user_message (auto_connected st) →
        call_name tool_call ≠ "disconnect") →
     mock_connected (self (SimpleOpenAIClient.chat W user_message st).2)).
Proof.
  intros Hc Henv Hurl.
  pose proof (auto_connect_with_database_url W st url Hc Henv Hurl) as Hauto.
  split; [exact Hauto|]. split; [reflexivity|].
  assert (Hchat :
    SimpleOpenAIClient.chat W user_message st =
    match SimpleOpenAIClient.chat_body W user_message (auto_connected st) with
    | (Return r, st2) => (Return r, st2)
    | (Raise e, st2) =>
        (Return (Some ("Error: " +:+ str_of_exn e)),
         {| self := self st2;
            history := history st2 ++ [EvError (ErrorInChat e)] |})
    end).
  { unfold SimpleOpenAIClient.chat, try_except, bind at 1.
    rewrite Hauto.
    by destruct (SimpleOpenAIClient.chat_body W user_message
                   (auto_connected st)) as [[r|e] st2]. }
  rewrite Hchat. split.
  - destruct (chat_body_first_event W user_message (auto_connected st))
      as [rest Hrest].
    destruct (SimpleOpenAIClient.chat_body W user_message (auto_connected st))
      as [[r|e] st2]; simpl in *.
    + exists rest. rewrite Hrest. by rewrite <- app_assoc.
    + exists (rest ++ [EvError (ErrorInChat e)]). rewrite Hrest.
      by rewrite <- !app_assoc.
  - intros Hcalls.
    pose proof (chat_body_keeps_connection W user_message (auto_connected st)
                  eq_refl Hcalls) as Hkept.
    by destruct (SimpleOpenAIClient.chat_body W user_message
                   (auto_connected st)) as [[r|e] st2].
Qed.

Lemma chat_connects_before_first_request_witness :
  let st := Demo.start Demo.simple in
  SimpleOpenAIClient.auto_connect querying_world st =
    (Return tt, auto_connected st)
  ∧ (∃ rest,
       history (SimpleOpenAIClient.chat querying_world "How many rows?" st).2 =
       EvInfo (ConnectedWith (JStr "mock-connection-id"))
       :: first_request (self (auto_connected st)) "How many rows?" :: rest)
  ∧ SimpleOpenAIClient.conn_id
      (self (SimpleOpenAIClient.chat querying_world "How many rows?" st).2) =
    Some "mock-connection-id".
Proof.
  intros st.
  destruct (chat_connects_before_first_request querying_world "How many rows?"
              st "postgresql://localhost/app")
    as (Hauto & _ & Htrace & Hkept);
    [reflexivity | reflexivity | discriminate |].
  split; [exact Hauto|]. split; [exact Htrace|].
  apply Hkept. intros tool_call Hin.
  assert (Hcalls : requested_calls querying_world "How many rows?"
                     (auto_connected st) = [Demo.call_1])
    by (vm_compute; reflexivity).
  rewrite Hcalls in Hin. apply list_elem_of_singleton in Hin as ->.
  discriminate.
Defined.

(** C10 as stated fails: with [DATABASE_URL] set and no connection, an
    exchange in which the completion asks for [disconnect] ends with
    [conn_id] unset. *)
Lemma chat_can_end_disconnected :
  let st := Demo.start Demo.simple in
  SimpleOpenAIClient.conn_id (self st) = None
  ∧ environ_get disconnecting_world "DATABASE_URL" =
      Some "postgresql://localhost/app"
  ∧ (SimpleOpenAIClient.chat disconnecting_world "Close it." st).1 =
      Return (Some "Disconnected.")
  ∧ SimpleOpenAIClient.conn_id
      (self (SimpleOpenAIClient.chat disconnecting_world "Close it." st).2) =
    None.
Proof. intros st. vm_compute. done. Qed.

(** An empty [DATABASE_URL] counts as unset: no connection is made. *)
Example empty_database_url_is_ignored :
  let outcome :=
    SimpleOpenAIClient.chat empty_url_world "Hello?" (Demo.start Demo.simple) in
  environ_get empty_url_world "DATABASE_URL" = Some EmptyString
  ∧ outcome.1 = Return (Some "Hello.")
  ∧ SimpleOpenAIClient.conn_id (self outcome.2) = None
  ∧ history outcome.2 =
      [first_request (self (Demo.start Demo.simple)) "Hello?"].
Proof. intros outcome. by vm_compute. Qed.

(** ** The chat loop of [OpenAIPgMcpClient] *)

Section McpChatFacts.
Import OpenAIPgMcpClient.
Variable W : World.


(** The run of [chat] up to the end of the first loop iteration, when the
    first completion asks for tools. *)
Lemma chat_with_tool_calls (user_message : string) (st : State Self)
    (message : ChatMessage) (choices : list ChatMessage)
    (tool_call : ToolCall) (others : list ToolCall) :
  session (self st) ≠ None →
  completions_create W (history st) (model (self st))
    [SystemTurn (system_prompt (self st)); UserTurn user_message]
    (map_to_list (tools (self st))).*2 = Return (message :: choices) →
  tool_calls message = Some (tool_call :: others) →
  chat W user_message st =
    match chat_tool_call W (self st) user_message
            (map_to_list (tools (self st))).*2 message (tool_call :: others)
            [] tool_call
            {| self := self st;
               history := history st ++
                 [mcp_first_request (self st) user_message] |} with
    | (Return (inl acc), st1) =>
        (r <- for_loop others acc
                (chat_tool_call W (self st) user_message
                   (map_to_list (tools (self st))).*2 message
                   (tool_call :: others)) ;;
         match r with
         | inr final => ret final
         | inl _ => ret (content message)
         end) st1
    | (Return (inr final), st1) => (Return final, st1)
    | (Raise e, st1) => (Raise e, st1)
    end.
Proof.
  intros Hs Hfirst Hcalls. unfold chat. rewrite bind_get_self.
  destruct (session (self st)) as [sess|]; [|done].
  unfold create. rewrite bind_request, Hfirst.
  unfold first_choice. rewrite bind_ret, Hcalls.
  simpl for_loop. unfold bind at 1. unfold bind at 1.
  unfold mcp_first_request.
  destruct (chat_tool_call W (self st) user_message _ message _ [] tool_call _)
    as [[[acc|final]|e] st1]; reflexivity.
Qed.

End McpChatFacts.

(** C1 on [OpenAIPgMcpClient]: what [chat] does when the first completion
    asks for the tool calls [tool_call :: others]. It runs [tool_call],
    issues the follow-up request with that one result, and returns the
    follow-up's text from inside the loop: whatever [others] holds, no call
    in it is executed and no result for it reaches the follow-up. *)
Theorem chat_returns_after_first_tool_call (W : World) (user_message : string)
    (st : State OpenAIPgMcpClient.Self)
    (message : ChatMessage) (choices : list ChatMessage)
    (tool_call : ToolCall) (others : list ToolCall)
    (args tool_result : json)
    (final : ChatMessage) (finals : list ChatMessage) :
  let s := self st in
  let openai_tools := (map_to_list (OpenAIPgMcpClient.tools s)).*2 in
  let first := mcp_first_request s user_message in
  let calling := EvInfo (CallingTool (call_name tool_call) args) in
  let called := EvCallTool (call_name tool_call) args in
  let followup :=
    mcp_followup_request W s user_message message (tool_call :: others)
      tool_call tool_result in
  OpenAIPgMcpClient.session s ≠ None →
  completions_create W (history st) (OpenAIPgMcpClient.model s)
    [SystemTurn (OpenAIPgMcpClient.system_prompt s); UserTurn user_message]
    openai_tools = Return (message :: choices) →
  tool_calls message = Some (tool_call :: others) →
  json_loads W (call_arguments tool_call) = Return args →
  call_tool W (history st ++ [first; calling]) (call_name tool_call) args =
    Return tool_result →
  completions_create W (history st ++ [first; calling; called])
    (OpenAIPgMcpClient.model s)
    [SystemTurn (OpenAIPgMcpClient.system_prompt s);
     UserTurn user_message;
     AssistantTurn (or_empty (content message)) (tool_call :: others);
     ToolTurn (call_id tool_call) (json_dumps W tool_result)]
    openai_tools = Return (final :: finals) →
  OpenAIPgMcpClient.chat W user_message st =
    (Return (content final),
     {| self := s;
        history := history st ++ [first; calling; called; followup] |}).
Proof.
  intros s openai_tools first calling called followup
    Hs Hfirst Hcalls Hargs Hcall Hfollowup.
  rewrite (chat_with_tool_calls W user_message st message choices tool_call
             others Hs Hfirst Hcalls).
  unfold OpenAIPgMcpClient.chat_tool_call.
  unfold bind at 1. unfold lift_result. rewrite Hargs.
  unfold bind at 1. unfold emit. cbn [self history].
  unfold OpenAIPgMcpClient.session_call_tool, OpenAIPgMcpClient.create.
  rewrite bind_request. cbn [self history].
  rewrite <- app_assoc. cbn [app].
  fold s first calling. rewrite Hcall.
  rewrite bind_request. cbn [self history].
  rewrite <- app_assoc. cbn [app].
  fold openai_tools called. rewrite Hfollowup.
  unfold first_choice. rewrite bind_ret. unfold ret.
  rewrite <- app_assoc. reflexivity.
Qed.

Lemma chat_returns_after_first_tool_call_witness :
  let W := two_calls_world in
  let st := Demo.start (Demo.fresh W) in
  let outcome := OpenAIPgMcpClient.chat W "How many users, and who?" st in
  outcome.1 = Return (Some "There are 42 users.")
  ∧ tool_calls_made (history outcome.2) =
      [EvCallTool "pg_query" Demo.count_args]
  ∧ history outcome.2 =
      [mcp_first_request (self st) "How many users, and who?";
       EvInfo (CallingTool "pg_query" Demo.count_args);
       EvCallTool "pg_query" Demo.count_args;
       mcp_followup_request W (self st) "How many users, and who?"
         (Demo.asks [Demo.call_1; Demo.call_2]) [Demo.call_1; Demo.call_2]
         Demo.call_1 (JObj [("rows", JArr [JArr [JNum 42]])])].
Proof.
  intros W st outcome.
  assert (Hrun :
    outcome =
    (Return (Some "There are 42 users."),
     {| self := self st;
        history :=
          [mcp_first_request (self st) "How many users, and who?";
           EvInfo (CallingTool "pg_query" Demo.count_args);
           EvCallTool "pg_query" Demo.count_args;
           mcp_followup_request W (self st) "How many users, and who?"
             (Demo.asks [Demo.call_1; Demo.call_2]) [Demo.call_1; Demo.call_2]
             Demo.call_1 (JObj [("rows", JArr [JArr [JNum 42]])])] |})).
  { apply (chat_returns_after_first_tool_call W "How many users, and who?" st
             (Demo.asks [Demo.call_1; Demo.call_2]) [] Demo.call_1
             [Demo.call_2] Demo.count_args
             (JObj [("rows", JArr [JArr [JNum 42]])])
             (Demo.text "There are 42 users.") []);
      [discriminate | reflexivity..]. }
  rewrite Hrun. repeat split.
Defined.

(** The same request on the simplified client: both calls are executed
    and both results are in the single follow-up request. *)
Example simple_chat_runs_both_tool_calls :
  let outcome :=
    SimpleOpenAIClient.chat two_calls_world "How many users, and who?"
      (Demo.start Demo.simple) in
  outcome.1 = Return (Some "There are 42 users.")
  ∧ length (completions_made (history outcome.2)) = 2
  ∧ ∃ first_events tools,
      history outcome.2 =
      first_events ++
      [EvCompletion "gpt-4o"
         [SystemTurn SimpleOpenAIClient.the_system_prompt;
          UserTurn "How many users, and who?";
          AssistantTurn EmptyString [Demo.call_1; Demo.call_2];
          ToolTurn "call_1" (Demo.dumps SimpleOpenAIClient.select_rows);
          ToolTurn "call_2" (Demo.dumps SimpleOpenAIClient.select_rows)]
         tools].
Proof.
  intros outcome. split; [by vm_compute|]. split; [by vm_compute|].
  eexists [_; _; _; _; _], _. vm_compute. reflexivity.
Qed.

(** With no connection identifier, a tool call asked for by the completion
    still reaches the transport: the loop of [chat] does not look at
    [conn_id]. *)
Example chat_forwards_without_connection :
  let W := two_calls_world in
  let st := Demo.start (Demo.fresh W) in
  OpenAIPgMcpClient.conn_id (self st) = JNull
  ∧ EvCallTool "pg_query" Demo.count_args ∈
      history (OpenAIPgMcpClient.chat W "How many users?" st).2.
Proof.
  intros W st. split; [reflexivity|].
  vm_compute. apply list_elem_of_In. right. right. left. reflexivity.
Qed.




(** ** Reachable states of [OpenAIPgMcpClient] *)

Section ReachableFacts.
Import OpenAIPgMcpClient.
Variable W : World.

Lemma init_has_no_connection (url : string) :
  session_before_connection (__init__ W url).
Proof. intros Hconn. discriminate. Qed.

Lemma connect_to_database_keeps_invariant (cs : string) :
  keeps session_before_connection (connect_to_database W cs).
Proof.
  intros st Hinv. unfold connect_to_database. rewrite bind_get_self.
  destruct (session (self st)) as [sess|] eqn:Hsess; [|exact Hinv].
  unfold session_call_tool. rewrite bind_request.
  destruct (call_tool W (history st) "connect" _) as [result|e];
    [|exact Hinv].
  assert (Hdone : ∀ id (st1 : State Self),
            session (self st1) = Some sess →
            session_before_connection
              (self ((s <- get_self ;;
                      set_self (with_conn_id s id) ;;;
                      if negb (py_truthy id) then raise connection_rejected
                      else emit (EvInfo (ConnectedWith id)) ;;; ret id)
                       st1).2)).
  { intros id st1 Hs1 _. rewrite bind_get_self. unfold bind, set_self.
    cbn [self history]. destruct (negb (py_truthy id)); simpl; by rewrite Hs1. }
  unfold get_connection_id.
  destruct result; first [exact Hinv | rewrite bind_ret; by apply Hdone].
Qed.

Lemma disconnect_keeps_invariant :
  keeps session_before_connection (disconnect W).
Proof.
  intros st Hinv. unfold disconnect. rewrite bind_get_self.
  destruct (negb (unconnected (self st))); [|exact Hinv].
  unfold session_call_tool. rewrite bind_request.
  destruct (call_tool W (history st) "disconnect" _) as [result|e];
    [|exact Hinv].
  intros Hconn. discriminate.
Qed.

(** [chat] reads the client and never writes it. *)
Lemma chat_keeps (P : Self → Prop) (user_message : string) :
  keeps P (chat W user_message).
Proof.
  unfold chat. apply keeps_bind; [apply keeps_get_self|]. intros s.
  destruct (session s); [|apply keeps_raise].
  apply keeps_bind; [apply keeps_request|]. intros response.
  apply keeps_bind; [apply keeps_first_choice|]. intros message.
  destruct (tool_calls message) as [[|tool_call others]|];
    [apply keeps_ret | | apply keeps_ret].
  apply keeps_bind.
  - apply keeps_for_loop. intros acc x _. unfold chat_tool_call.
    apply keeps_bind; [apply keeps_lift_result|]. intros args.
    apply keeps_bind; [apply keeps_emit|]. intros _.
    apply keeps_bind; [apply keeps_request|]. intros tool_result.
    apply keeps_bind; [apply keeps_request|]. intros followup.
    apply keeps_bind; [apply keeps_first_choice|]. intros final.
    apply keeps_ret.
  - intros [acc|final]; apply keeps_ret.
Qed.

End ReachableFacts.

(** * Further properties *)

(** ** Translated schemas *)

(** X1. A translated tool keeps the tool's name, is of type ["function"]
    with parameters of type ["object"], and never has an empty description:
    the tool's own when that is non-empty, else "Tool for <name>". *)
Theorem translated_tool_header (tool : ToolDefinition) :
  let translated := SchemaTranslator._convert_tool_to_openai_format tool in
  openai_type translated = "function"
  ∧ function_name (function translated) = tool_name tool
  ∧ parameters_type (function_parameters (function translated)) = "object"
  ∧ str_truthy (Some (function_description (function translated))) = true
  ∧ function_description (function translated) =
      match tool_description tool with
      | Some (String c d) => String c d
      | _ => "Tool for " +:+ tool_name tool
      end.
Proof.
  intros translated. subst translated.
  split; [reflexivity|]. split; [reflexivity|].
  split.
  { rewrite convert_tool_parameters.
    generalize (SchemaTranslator.params_of tool).
    assert (Hkeep : ∀ ps acc,
              parameters_type (foldl SchemaTranslator.add_param acc ps) =
              parameters_type acc).
    { induction ps as [|p ps IH]; intros acc; simpl; [done|]. by rewrite IH. }
    intros ps. by rewrite Hkeep. }
  unfold SchemaTranslator._convert_tool_to_openai_format. simpl.
  destruct (tool_description tool) as [[|c d]|]; simpl; by split.
Qed.

(** X2. A translated parameter descriptor has one of the five JSON types,
    carries an item type only when it is an array, and carries a
    description only when the parameter has a non-empty one. *)
Theorem param_schema_is_closed (p : ToolParam) :
  let schema := SchemaTranslator._convert_param_schema p in
  schema_type schema ∈ SchemaTranslator.known_types
  ∧ (schema_items schema = None ∨ schema_type schema = "array")
  ∧ (schema_description schema = None
     ∨ (schema_description schema = param_description p
        ∧ str_truthy (param_description p) = true)).
Proof.
  intros schema. unfold schema, SchemaTranslator._convert_param_schema,
    SchemaTranslator.known_types.
  assert (Hdesc :
    (if str_truthy (param_description p) then param_description p else None)
      = None
    ∨ ((if str_truthy (param_description p) then param_description p else None)
         = param_description p
       ∧ str_truthy (param_description p) = true)).
  { destruct (str_truthy (param_description p)); [by right | by left]. }
  repeat match goal with
         | |- context [SchemaTranslator.type_is p ?t] =>
             destruct (SchemaTranslator.type_is p t)
         end; simpl;
    (split; [repeat first [apply list_elem_of_here | apply list_elem_of_further]
            |split; [by eauto | exact Hdesc]]).
Qed.

Lemma add_param_required_in_properties (ps : list ToolParam)
    (acc : Parameters) :
  Forall (λ name, is_Some (properties acc !! name)) (required acc) →
  Forall (λ name,
            is_Some (properties (foldl SchemaTranslator.add_param acc ps)
                       !! name))
         (required (foldl SchemaTranslator.add_param acc ps)).
Proof.
  revert acc. induction ps as [|p ps IH]; intros acc Hacc; simpl; [done|].
  apply IH. unfold SchemaTranslator.add_param. simpl.
  assert (Hold : Forall
            (λ name, is_Some
               (<[param_name p := SchemaTranslator._convert_param_schema p]>
                  (properties acc) !! name)) (required acc)).
  { eapply Forall_impl; [exact Hacc|]. intros name Hname. simpl.
    rewrite lookup_insert. case_decide; [by eexists|done]. }
  destruct (param_required p); [|exact Hold].
  apply Forall_app. split; [exact Hold|].
  apply Forall_singleton. rewrite lookup_insert_eq. by eexists.
Qed.

(** X3. Every name in the ["required"] list of a translated tool is a key
    of its ["properties"], whatever the parameter list (repeated names
    included). *)
Theorem required_names_are_properties (tool : ToolDefinition) :
  let parameters :=
    function_parameters
      (function (SchemaTranslator._convert_tool_to_openai_format tool)) in
  Forall (λ name, is_Some (properties parameters !! name))
         (required parameters).
Proof.
  intros parameters. unfold parameters. rewrite convert_tool_parameters.
  apply add_param_required_in_properties. simpl. constructor.
Qed.

(** ** The registry after loading *)

Lemma register_all_lookup_unlisted (listing : list ToolDefinition)
    (registry : gmap string OpenAITool) (name : string) :
  name ∉ (tool_name <$> listing) →
  foldl OpenAIPgMcpClient.register registry listing !! name =
  registry !! name.
Proof.
  revert registry. induction listing as [|tool listing IH];
    intros registry Hname; simpl; [done|].
  rewrite fmap_cons in Hname. apply not_elem_of_cons in Hname as [Hne Hname].
  rewrite IH by done. unfold OpenAIPgMcpClient.register.
  by rewrite lookup_insert_ne.
Qed.

Lemma register_all_lookup_listed (before after : list ToolDefinition)
    (tool : ToolDefinition) (registry : gmap string OpenAITool) :
  tool_name tool ∉ (tool_name <$> after) →
  foldl OpenAIPgMcpClient.register registry (before ++ tool :: after)
    !! tool_name tool =
  Some (SchemaTranslator._convert_tool_to_openai_format tool).
Proof.
  intros Hlast. rewrite foldl_app. simpl.
  rewrite register_all_lookup_unlisted by done.
  unfold OpenAIPgMcpClient.register. by rewrite lookup_insert_eq.
Qed.

(** What [_load_tools] does once the server has answered. *)
Lemma load_tools_run (W : World) (st : State OpenAIPgMcpClient.Self)
    (listing : option (list ToolDefinition)) :
  OpenAIPgMcpClient.session (self st) ≠ None →
  server_info W (history st) = Return listing →
  let registry :=
    foldl OpenAIPgMcpClient.register (OpenAIPgMcpClient.tools (self st))
      (default [] listing) in
  OpenAIPgMcpClient._load_tools W st =
    (Return tt,
     {| self := OpenAIPgMcpClient.with_tools (self st) registry;
        history := history st ++
          [EvServerInfo; EvInfo (LoadedTools (size registry))] |}).
Proof.
  intros Hs Hinfo registry. unfold OpenAIPgMcpClient._load_tools.
  rewrite bind_get_self.
  destruct (OpenAIPgMcpClient.session (self st)) as [sess|]; [|done].
  rewrite bind_request, Hinfo. rewrite bind_get_self.
  unfold bind, set_self, get_self, emit. simpl.
  by rewrite <- app_assoc.
Qed.

(** X4. Loading tools adds to the registry and never clears it: a name
    that the server does not list keeps the entry it had, and a listed name
    is bound to the translation of the last definition listed under it. *)
Theorem load_tools_merges (W : World) (st : State OpenAIPgMcpClient.Self)
    (listing : option (list ToolDefinition)) :
  OpenAIPgMcpClient.session (self st) ≠ None →
  server_info W (history st) = Return listing →
  let st' := (OpenAIPgMcpClient._load_tools W st).2 in
  (OpenAIPgMcpClient._load_tools W st).1 = Return tt
  ∧ (∀ name, name ∉ (tool_name <$> default [] listing) →
       OpenAIPgMcpClient.tools (self st') !! name =
       OpenAIPgMcpClient.tools (self st) !! name)
  ∧ (∀ before tool after,
       default [] listing = before ++ tool :: after →
       tool_name tool ∉ (tool_name <$> after) →
       OpenAIPgMcpClient.tools (self st') !! tool_name tool =
       Some (SchemaTranslator._convert_tool_to_openai_format tool)).
Proof.
  intros Hs Hinfo st'. subst st'.
  rewrite (load_tools_run W st listing Hs Hinfo). simpl.
  split; [reflexivity|]. split.
  - intros name Hname. by apply register_all_lookup_unlisted.
  - intros before tool after Hsplit Hlast. rewrite Hsplit.
    by apply register_all_lookup_listed.
Qed.

Lemma load_tools_merges_witness :
  let st' :=
    (OpenAIPgMcpClient._load_tools listing_world
       (Demo.start loaded_client)).2 in
  OpenAIPgMcpClient.tools (self st') !! "pg_explain" =
    Some (SchemaTranslator._convert_tool_to_openai_format explain_tool)
  ∧ OpenAIPgMcpClient.tools (self st') !! "pg_query" =
    Some (SchemaTranslator._convert_tool_to_openai_format Demo.pg_query_tool).
Proof.
  intros st'.
  destruct (load_tools_merges listing_world (Demo.start loaded_client)
              (Some [Demo.connect_tool; Demo.pg_query_tool]))
    as (_ & Hkept & Hlisted); [discriminate | reflexivity |].
  subst st'. split.
  - rewrite (Hkept "pg_explain"); [reflexivity|].
    simpl. intros Hin. apply list_elem_of_In in Hin. simpl in Hin.
    destruct Hin as [Hin|[Hin|[]]]; discriminate.
  - apply (Hlisted [Demo.connect_tool] Demo.pg_query_tool []);
      [reflexivity|]. simpl. apply not_elem_of_nil.
Defined.

(** X5. After a new client is initialised against a server whose tools have
    pairwise different names, looking up a listed name gives the
    translation of that tool, and looking up any other name gives
    nothing. *)
Theorem registry_lookup_after_initialize (W : World) (url : string)
    (h : list Event) (listing : list ToolDefinition) :
  sse_client W h url = Return tt →
  create_session W (h ++ [EvSseClient url]) = Return tt →
  server_info W (h ++ [EvSseClient url; EvCreateSession]) =
    Return (Some listing) →
  NoDup (tool_name <$> listing) →
  let st' :=
    (OpenAIPgMcpClient.initialize W
       {| self := OpenAIPgMcpClient.__init__ W url; history := h |}).2 in
  (∀ tool, tool ∈ listing →
     OpenAIPgMcpClient.tools (self st') !! tool_name tool =
     Some (SchemaTranslator._convert_tool_to_openai_format tool))
  ∧ (∀ name, name ∉ (tool_name <$> listing) →
     OpenAIPgMcpClient.tools (self st') !! name = None).
Proof.
  intros Hsse Hcreate Hinfo Hnd st'. subst st'.
  unfold OpenAIPgMcpClient.initialize, OpenAIPgMcpClient._load_tools,
    bind, get_self, set_self, request, emit. simpl.
  rewrite Hsse, Hcreate. simpl.
  rewrite <- app_assoc. simpl. rewrite Hinfo. simpl. split.
  - intros tool Hin. apply list_elem_of_split in Hin as (before & after & ->).
    apply register_all_lookup_listed.
    rewrite fmap_app, fmap_cons in Hnd.
    apply NoDup_app in Hnd as (_ & _ & Hnd).
    by apply NoDup_cons in Hnd as [Hnot _].
  - intros name Hname. rewrite register_all_lookup_unlisted by done.
    apply lookup_empty.
Qed.

Lemma registry_lookup_after_initialize_witness :
  let st' :=
    (OpenAIPgMcpClient.initialize listing_world
       (Demo.start (OpenAIPgMcpClient.__init__ listing_world
                      "http://localhost:8000/sse"))).2 in
  OpenAIPgMcpClient.tools (self st') !! "pg_query" =
    Some (SchemaTranslator._convert_tool_to_openai_format Demo.pg_query_tool)
  ∧ OpenAIPgMcpClient.tools (self st') !! "pg_explain" = None.
Proof.
  intros st'.
  destruct (registry_lookup_after_initialize listing_world
              "http://localhost:8000/sse" []
              [Demo.connect_tool; Demo.pg_query_tool])
    as [Hlisted Hother]; [reflexivity.. | |].
  { simpl. apply NoDup_cons. split; [|apply NoDup_singleton].
    intros Hin. apply list_elem_of_singleton in Hin. discriminate. }
  subst st'. split.
  - apply (Hlisted Demo.pg_query_tool). right. left.
  - apply Hother. simpl. intros Hin. apply list_elem_of_In in Hin.
    simpl in Hin. destruct Hin as [Hin|[Hin|[]]]; discriminate.
Defined.

(** ** Failures of [initialize] *)

(** X6. When the transport cannot be opened, or the session cannot be
    created on it, [initialize] raises that error and leaves the client as
    it was: no session is stored and the tool listing is never asked for. *)
Theorem initialize_transport_failure (W : World)
    (st : State OpenAIPgMcpClient.Self) (e : exn) :
  let url := OpenAIPgMcpClient.pg_mcp_url (self st) in
  (sse_client W (history st) url = Raise e →
   OpenAIPgMcpClient.initialize W st =
     (Raise e,
      {| self := self st; history := history st ++ [EvSseClient url] |}))
  ∧ (sse_client W (history st) url = Return tt →
     create_session W (history st ++ [EvSseClient url]) = Raise e →
     OpenAIPgMcpClient.initialize W st =
       (Raise e,
        {| self := self st;
           history := history st ++ [EvSseClient url; EvCreateSession] |})).
Proof.
  intros url. subst url. split.
  - intros Hsse. unfold OpenAIPgMcpClient.initialize.
    rewrite bind_get_self, bind_request, Hsse. reflexivity.
  - intros Hsse Hcreate. unfold OpenAIPgMcpClient.initialize.
    rewrite bind_get_self, bind_request, Hsse.
    rewrite bind_request. cbn [self history]. rewrite Hcreate.
    by rewrite <- app_assoc.
Qed.

Lemma initialize_transport_failure_witness :
  let st := Demo.start (OpenAIPgMcpClient.__init__ offline_world
                          "http://localhost:8000/sse") in
  OpenAIPgMcpClient.initialize offline_world st =
    (Raise (Exn "ConnectError" "connection refused"),
     {| self := self st;
        history := [EvSseClient "http://localhost:8000/sse"] |}).
Proof.
  intros st.
  destruct (initialize_transport_failure offline_world st
              (Exn "ConnectError" "connection refused")) as [Hopen _].
  apply Hopen. reflexivity.
Defined.

(** X7. When the transport opens and the listing request fails,
    [initialize] raises that error with the session already stored: the
    client is left with a session and the registry it had. *)
Theorem initialize_listing_failure (W : World)
    (st : State OpenAIPgMcpClient.Self) (e : exn) :
  let url := OpenAIPgMcpClient.pg_mcp_url (self st) in
  sse_client W (history st) url = Return tt →
  create_session W (history st ++ [EvSseClient url]) = Return tt →
  server_info W (history st ++ [EvSseClient url; EvCreateSession]) = Raise e →
  OpenAIPgMcpClient.initialize W st =
    (Raise e,
     {| self := OpenAIPgMcpClient.with_session (self st)
                  (Some {| OpenAIPgMcpClient.transport := url |});
        history := history st ++
          [EvSseClient url; EvCreateSession; EvServerInfo] |}).
Proof.
  intros url Hsse Hcreate Hinfo. subst url.
  unfold OpenAIPgMcpClient.initialize.
  rewrite bind_get_self, bind_request, Hsse.
  rewrite bind_request. cbn [self history]. rewrite Hcreate.
  rewrite bind_get_self. unfold bind at 1, set_self. cbn [self history].
  unfold OpenAIPgMcpClient._load_tools. rewrite bind_get_self.
  cbn [self OpenAIPgMcpClient.session OpenAIPgMcpClient.with_session].
  rewrite bind_request. cbn [self history].
  rewrite <- app_assoc. cbn [app]. rewrite Hinfo.
  by rewrite <- app_assoc.
Qed.

Lemma initialize_listing_failure_witness :
  let st := Demo.start (OpenAIPgMcpClient.__init__ listing_fails_world
                          "http://localhost:8000/sse") in
  let st' := (OpenAIPgMcpClient.initialize listing_fails_world st).2 in
  (OpenAIPgMcpClient.initialize listing_fails_world st).1 =
    Raise (Exn "ProtocolError" "malformed tool listing")
  ∧ OpenAIPgMcpClient.session (self st') =
      Some {| OpenAIPgMcpClient.transport := "http://localhost:8000/sse" |}
  ∧ OpenAIPgMcpClient.tools (self st') = ∅.
Proof.
  intros st st'. subst st'.
  rewrite (initialize_listing_failure listing_fails_world st
             (Exn "ProtocolError" "malformed tool listing")
             eq_refl eq_refl eq_refl).
  repeat split.
Defined.

(** ** Connections: how the methods combine *)

Section ConnectionFacts.
Import OpenAIPgMcpClient.
Variable W : World.

(** The run of [disconnect] on a connected client whose request returns. *)
Lemma disconnect_run (st : State Self) (answer : json) :
  session (self st) ≠ None →
  py_truthy (conn_id (self st)) = true →
  call_tool W (history st) "disconnect"
    (JObj [("connection_id", conn_id (self st))]) = Return answer →
  disconnect W st =
    (Return tt,
     {| self := with_conn_id (self st) JNull;
        history := history st ++
          [EvCallTool "disconnect"
             (JObj [("connection_id", conn_id (self st))]);
           EvInfo Disconnected] |}).
Proof.
  intros Hs Hc Hcall. unfold disconnect. rewrite bind_get_self.
  rewrite (connected_with_both _ Hs Hc). cbn [negb].
  unfold session_call_tool. rewrite bind_request, Hcall.
  rewrite bind_get_self. unfold bind, set_self, emit. cbn [self history].
  by rewrite <- app_assoc.
Qed.

(** The run of [connect_to_database] on an initialised client, for an
    answer that is a JSON object. *)
Lemma connect_run (st : State Self) (cs : string)
    (d : list (string * json)) :
  session (self st) ≠ None →
  call_tool W (history st) "connect"
    (JObj [("connection_string", JStr cs)]) = Return (JObj d) →
  connect_to_database W cs st =
    let id := default JNull (assoc_get "connection_id" d) in
    let sent :=
      EvCallTool "connect" (JObj [("connection_string", JStr cs)]) in
    if py_truthy id then
      (Return id,
       {| self := with_conn_id (self st) id;
          history := history st ++ [sent; EvInfo (ConnectedWith id)] |})
    else
      (Raise connection_rejected,
       {| self := with_conn_id (self st) id;
          history := history st ++ [sent] |}).
Proof.
  intros Hs Hcall. unfold connect_to_database. rewrite bind_get_self.
  destruct (session (self st)) as [sess|]; [|done].
  unfold session_call_tool. rewrite bind_request, Hcall.
  unfold get_connection_id. rewrite bind_ret, bind_get_self.
  unfold bind, set_self, emit, raise, ret. cbn [self history].
  destruct (py_truthy (default JNull (assoc_get "connection_id" d)));
    simpl; [|done].
  by rewrite <- app_assoc.
Qed.

(** The run of a query helper on a connected client. *)
Lemma execute_query_run (st : State Self) (query : string) :
  session (self st) ≠ None →
  py_truthy (conn_id (self st)) = true →
  execute_query W query st =
    (call_tool W (history st) "pg_query"
       (JObj [("connection_id", conn_id (self st)); ("query", JStr query)]),
     {| self := self st;
        history := history st ++
          [EvCallTool "pg_query"
             (JObj [("connection_id", conn_id (self st));
                    ("query", JStr query)])] |}).
Proof.
  intros Hs Hc. unfold execute_query. rewrite bind_get_self.
  rewrite (connected_with_both _ Hs Hc).
  unfold session_call_tool. rewrite bind_request.
  by destruct (call_tool W (history st) "pg_query" _).
Qed.

Lemma explain_query_run (st : State Self) (query : string) :
  session (self st) ≠ None →
  py_truthy (conn_id (self st)) = true →
  explain_query W query st =
    (call_tool W (history st) "pg_explain"
       (JObj [("connection_id", conn_id (self st)); ("query", JStr query)]),
     {| self := self st;
        history := history st ++
          [EvCallTool "pg_explain"
             (JObj [("connection_id", conn_id (self st));
                    ("query", JStr query)])] |}).
Proof.
  intros Hs Hc. unfold explain_query. rewrite bind_get_self.
  rewrite (connected_with_both _ Hs Hc).
  unfold session_call_tool. rewrite bind_request.
  by destruct (call_tool W (history st) "pg_explain" _).
Qed.

End ConnectionFacts.

(** X8. On a connected client, [execute_query] and [explain_query] each
    send exactly one request, [pg_query] or [pg_explain], carrying the
    client's connection identifier and the query text, and hand back
    whatever the transport answers, a result or an error, without looking
    at it and without changing the client. *)
Theorem query_helpers_pass_through (W : World)
    (st : State OpenAIPgMcpClient.Self) (query : string) :
  OpenAIPgMcpClient.session (self st) ≠ None →
  py_truthy (OpenAIPgMcpClient.conn_id (self st)) = true →
  let arguments :=
    JObj [("connection_id", OpenAIPgMcpClient.conn_id (self st));
          ("query", JStr query)] in
  OpenAIPgMcpClient.execute_query W query st =
    (call_tool W (history st) "pg_query" arguments,
     {| self := self st;
        history := history st ++ [EvCallTool "pg_query" arguments] |})
  ∧ OpenAIPgMcpClient.explain_query W query st =
    (call_tool W (history st) "pg_explain" arguments,
     {| self := self st;
        history := history st ++ [EvCallTool "pg_explain" arguments] |}).
Proof.
  intros Hs Hc arguments. split.
  - by apply execute_query_run.
  - by apply explain_query_run.
Qed.

Lemma query_helpers_pass_through_witness :
  let st :=
    Demo.start (OpenAIPgMcpClient.with_conn_id (Demo.fresh steady_world)
                  (JStr "conn-7")) in
  let arguments :=
    JObj [("connection_id", JStr "conn-7");
          ("query", JStr Demo.count_query)] in
  OpenAIPgMcpClient.execute_query steady_world Demo.count_query st =
    (Return (JObj [("rows", JArr [JArr [JNum 42]])]),
     {| self := self st; history := [EvCallTool "pg_query" arguments] |})
  ∧ OpenAIPgMcpClient.explain_query steady_world Demo.count_query st =
    (Return (JObj [("rows", JArr [JArr [JNum 42]])]),
     {| self := self st; history := [EvCallTool "pg_explain" arguments] |}).
Proof.
  intros st arguments.
  exact (query_helpers_pass_through steady_world st Demo.count_query
           ltac:(discriminate) eq_refl).
Defined.

(** X9. Connect, then query, then disconnect: when the server accepts the
    connection with identifier [id], the query request and the disconnect
    request both carry [id], the query's result is what the server sent,
    and the client ends without a connection identifier. *)
Theorem connect_query_disconnect (W : World)
    (st : State OpenAIPgMcpClient.Self) (cs query : string)
    (d : list (string * json)) (rows answer : json) :
  let id := default JNull (assoc_get "connection_id" d) in
  let connecting :=
    EvCallTool "connect" (JObj [("connection_string", JStr cs)]) in
  let querying :=
    EvCallTool "pg_query" (JObj [("connection_id", id); ("query", JStr query)]) in
  let closing := EvCallTool "disconnect" (JObj [("connection_id", id)]) in
  OpenAIPgMcpClient.session (self st) ≠ None →
  call_tool W (history st) "connect"
    (JObj [("connection_string", JStr cs)]) = Return (JObj d) →
  py_truthy id = true →
  call_tool W (history st ++ [connecting; EvInfo (ConnectedWith id)])
    "pg_query" (JObj [("connection_id", id); ("query", JStr query)]) =
    Return rows →
  call_tool W (history st ++ [connecting; EvInfo (ConnectedWith id); querying])
    "disconnect" (JObj [("connection_id", id)]) = Return answer →
  (OpenAIPgMcpClient.connect_to_database W cs ;;;
   result <- OpenAIPgMcpClient.execute_query W query ;;
   OpenAIPgMcpClient.disconnect W ;;;
   ret result) st =
    (Return rows,
     {| self := OpenAIPgMcpClient.with_conn_id (self st) JNull;
        history := history st ++
          [connecting; EvInfo (ConnectedWith id); querying; closing;
           EvInfo Disconnected] |}).
Proof.
  intros id connecting querying closing Hs Hconnect Hid Hquery Hclose.
  unfold bind at 1. rewrite (connect_run W st cs d Hs Hconnect).
  cbn zeta. fold id. rewrite Hid.
  unfold bind at 1. rewrite execute_query_run; [|exact Hs|exact Hid].
  cbn [self history OpenAIPgMcpClient.conn_id OpenAIPgMcpClient.with_conn_id].
  fold connecting. rewrite Hquery.
  unfold bind at 1.
  rewrite (disconnect_run W _ answer); [|exact Hs|exact Hid|].
  - cbn [self history OpenAIPgMcpClient.conn_id
           OpenAIPgMcpClient.with_conn_id].
    unfold ret. rewrite <- !app_assoc. reflexivity.
  - cbn [self history OpenAIPgMcpClient.conn_id
           OpenAIPgMcpClient.with_conn_id].
    rewrite <- app_assoc. exact Hclose.
Qed.

Lemma connect_query_disconnect_witness :
  let st := Demo.start (Demo.fresh steady_world) in
  (OpenAIPgMcpClient.connect_to_database steady_world
     "postgresql://localhost/app" ;;;
   result <- OpenAIPgMcpClient.execute_query steady_world Demo.count_query ;;
   OpenAIPgMcpClient.disconnect steady_world ;;;
   ret result) st =
    (Return (JObj [("rows", JArr [JArr [JNum 42]])]),
     {| self := OpenAIPgMcpClient.with_conn_id (self st) JNull;
        history :=
          [EvCallTool "connect"
             (JObj [("connection_string", JStr "postgresql://localhost/app")]);
           EvInfo (ConnectedWith (JStr "conn-7"));
           EvCallTool "pg_query"
             (JObj [("connection_id", JStr "conn-7");
                    ("query", JStr Demo.count_query)]);
           EvCallTool "disconnect" (JObj [("connection_id", JStr "conn-7")]);
           EvInfo Disconnected] |}).
Proof.
  intros st.
  exact (connect_query_disconnect steady_world st
           "postgresql://localhost/app" Demo.count_query
           [("connection_id", JStr "conn-7")]
           (JObj [("rows", JArr [JArr [JNum 42]])])
           (JObj [("status", JStr "disconnected")])
           ltac:(discriminate) eq_refl eq_refl eq_refl eq_refl).
Defined.

(** X10. A rejected reconnect drops the connection the client held: when
    the answer to [connect] carries no identifier, [conn_id] is overwritten
    with the empty value, so the query helpers refuse to run and
    [disconnect] sends nothing, whatever identifier was held before. *)
Theorem rejected_reconnect_drops_connection (W : World)
    (st : State OpenAIPgMcpClient.Self) (cs query : string)
    (d : list (string * json)) :
  OpenAIPgMcpClient.session (self st) ≠ None →
  call_tool W (history st) "connect"
    (JObj [("connection_string", JStr cs)]) = Return (JObj d) →
  py_truthy (default JNull (assoc_get "connection_id" d)) = false →
  let st' := (OpenAIPgMcpClient.connect_to_database W cs st).2 in
  (OpenAIPgMcpClient.connect_to_database W cs st).1 =
    Raise OpenAIPgMcpClient.connection_rejected
  ∧ py_truthy (OpenAIPgMcpClient.conn_id (self st')) = false
  ∧ OpenAIPgMcpClient.execute_query W query st' =
      (Raise OpenAIPgMcpClient.not_connected, st')
  ∧ OpenAIPgMcpClient.disconnect W st' = (Return tt, st').
Proof.
  intros Hs Hcall Hid st'. subst st'.
  rewrite (connect_run W st cs d Hs Hcall). cbn zeta. rewrite Hid.
  cbn [fst snd self OpenAIPgMcpClient.conn_id OpenAIPgMcpClient.with_conn_id].
  split; [reflexivity|]. split; [exact Hid|].
  unfold OpenAIPgMcpClient.execute_query, OpenAIPgMcpClient.disconnect.
  rewrite !bind_get_self.
  rewrite unconnected_without_conn_id by exact Hid. by split.
Qed.

Lemma rejected_reconnect_drops_connection_witness :
  let first_connect :=
    EvCallTool "connect"
      (JObj [("connection_string", JStr "postgresql://localhost/app")]) in
  let st :=
    {| self := OpenAIPgMcpClient.with_conn_id (Demo.fresh moody_world)
                 (JStr "conn-1");
       history := [first_connect; EvInfo (ConnectedWith (JStr "conn-1"))] |} in
  let st' :=
    (OpenAIPgMcpClient.connect_to_database moody_world
       "postgresql://localhost/other" st).2 in
  OpenAIPgMcpClient.conn_id (self st) = JStr "conn-1"
  ∧ (OpenAIPgMcpClient.connect_to_database moody_world
       "postgresql://localhost/other" st).1 =
    Raise (ValueError "Failed to connect to database. No connection ID returned.")
  ∧ OpenAIPgMcpClient.conn_id (self st') = JNull
  ∧ OpenAIPgMcpClient.execute_query moody_world Demo.count_query st' =
      (Raise (ValueError
                "Not connected to database. Call connect_to_database() first."),
       st').
Proof.
  intros first_connect st st'.
  destruct (rejected_reconnect_drops_connection moody_world st
              "postgresql://localhost/other" Demo.count_query
              [("error", JStr "too many connections")])
    as (Hraise & _ & Hquery & _); [discriminate | reflexivity | reflexivity |].
  split; [reflexivity|]. split; [exact Hraise|]. split; [reflexivity|].
  exact Hquery.
Defined.

(** X11. A [disconnect] whose request fails raises the transport's error
    and keeps the connection identifier, so a later [disconnect] sends the
    request again and, when that one returns, clears the identifier. *)
Theorem failed_disconnect_can_be_retried (W : World)
    (st : State OpenAIPgMcpClient.Self) (e : exn) (answer : json) :
  let closing :=
    EvCallTool "disconnect"
      (JObj [("connection_id", OpenAIPgMcpClient.conn_id (self st))]) in
  OpenAIPgMcpClient.session (self st) ≠ None →
  py_truthy (OpenAIPgMcpClient.conn_id (self st)) = true →
  call_tool W (history st) "disconnect"
    (JObj [("connection_id", OpenAIPgMcpClient.conn_id (self st))]) =
    Raise e →
  call_tool W (history st ++ [closing]) "disconnect"
    (JObj [("connection_id", OpenAIPgMcpClient.conn_id (self st))]) =
    Return answer →
  OpenAIPgMcpClient.disconnect W st =
    (Raise e, {| self := self st; history := history st ++ [closing] |})
  ∧ OpenAIPgMcpClient.disconnect W
      {| self := self st; history := history st ++ [closing] |} =
    (Return tt,
     {| self := OpenAIPgMcpClient.with_conn_id (self st) JNull;
        history := history st ++ [closing; closing; EvInfo Disconnected] |}).
Proof.
  intros closing Hs Hc Hfail Hretry. split.
  - unfold OpenAIPgMcpClient.disconnect. rewrite bind_get_self.
    rewrite (connected_with_both _ Hs Hc). cbn [negb].
    unfold OpenAIPgMcpClient.session_call_tool.
    by rewrite bind_request, Hfail.
  - rewrite (disconnect_run W _ answer); [|exact Hs|exact Hc|exact Hretry].
    cbn [self history]. by rewrite <- app_assoc.
Qed.

Lemma failed_disconnect_can_be_retried_witness :
  let st :=
    Demo.start (OpenAIPgMcpClient.with_conn_id (Demo.fresh flaky_world)
                  (JStr "conn-1")) in
  let closing :=
    EvCallTool "disconnect" (JObj [("connection_id", JStr "conn-1")]) in
  OpenAIPgMcpClient.disconnect flaky_world st =
    (Raise (Exn "TimeoutError" "disconnect timed out"),
     {| self := self st; history := [closing] |})
  ∧ OpenAIPgMcpClient.disconnect flaky_world
      {| self := self st; history := [closing] |} =
    (Return tt,
     {| self := OpenAIPgMcpClient.with_conn_id (self st) JNull;
        history := [closing; closing; EvInfo Disconnected] |}).
Proof.
  intros st closing.
  exact (failed_disconnect_can_be_retried flaky_world st
           (Exn "TimeoutError" "disconnect timed out")
           (JObj [("status", JStr "disconnected")])
           ltac:(discriminate) eq_refl eq_refl eq_refl).
Defined.

(** X12. A transport error during [connect] is raised to the caller and
    leaves the client as it was, the connection identifier it held
    included. *)
Theorem failed_connect_keeps_client (W : World)
    (st : State OpenAIPgMcpClient.Self) (cs : string) (e : exn) :
  OpenAIPgMcpClient.session (self st) ≠ None →
  call_tool W (history st) "connect"
    (JObj [("connection_string", JStr cs)]) = Raise e →
  (OpenAIPgMcpClient.connect_to_database W cs st).1 = Raise e
  ∧ self (OpenAIPgMcpClient.connect_to_database W cs st).2 = self st
  ∧ history (OpenAIPgMcpClient.connect_to_database W cs st).2 =
      history st ++
      [EvCallTool "connect" (JObj [("connection_string", JStr cs)])].
Proof.
  intros Hs Hcall. unfold OpenAIPgMcpClient.connect_to_database.
  rewrite bind_get_self.
  destruct (OpenAIPgMcpClient.session (self st)) as [sess|]; [|done].
  unfold OpenAIPgMcpClient.session_call_tool.
  by rewrite bind_request, Hcall.
Qed.

Lemma failed_connect_keeps_client_witness :
  let st :=
    Demo.start (OpenAIPgMcpClient.with_conn_id (Demo.fresh offline_world)
                  (JStr "conn-1")) in
  let outcome :=
    OpenAIPgMcpClient.connect_to_database offline_world
      "postgresql://localhost/app" st in
  outcome.1 = Raise (Exn "ConnectionError" "server unreachable")
  ∧ OpenAIPgMcpClient.conn_id (self outcome.2) = JStr "conn-1".
Proof.
  intros st outcome. subst outcome.
  destruct (failed_connect_keeps_client offline_world st
              "postgresql://localhost/app"
              (Exn "ConnectionError" "server unreachable"))
    as (Hraise & Hself & _); [discriminate | reflexivity |].
  split; [exact Hraise|]. by rewrite Hself.
Defined.

(** ** More on the chat loop of [OpenAIPgMcpClient] *)

(** X13. When the first completion asks for no tool (no [tool_calls], or
    an empty list), [chat] returns that completion's text after exactly one
    completion request and no tool call. *)
Theorem chat_without_tool_calls (W : World) (user_message : string)
    (st : State OpenAIPgMcpClient.Self)
    (message : ChatMessage) (choices : list ChatMessage) :
  OpenAIPgMcpClient.session (self st) ≠ None →
  completions_create W (history st) (OpenAIPgMcpClient.model (self st))
    [SystemTurn (OpenAIPgMcpClient.system_prompt (self st));
     UserTurn user_message]
    (map_to_list (OpenAIPgMcpClient.tools (self st))).*2 =
    Return (message :: choices) →
  tool_calls message = None ∨ tool_calls message = Some [] →
  OpenAIPgMcpClient.chat W user_message st =
    (Return (content message),
     {| self := self st;
        history := history st ++ [mcp_first_request (self st) user_message] |}).
Proof.
  intros Hs Hfirst Hnone. unfold OpenAIPgMcpClient.chat.
  rewrite bind_get_self.
  destruct (OpenAIPgMcpClient.session (self st)) as [sess|]; [|done].
  unfold OpenAIPgMcpClient.create. rewrite bind_request, Hfirst.
  unfold first_choice. rewrite bind_ret.
  by destruct Hnone as [-> | ->].
Qed.

Lemma chat_without_tool_calls_witness :
  let st := Demo.start (Demo.fresh steady_world) in
  OpenAIPgMcpClient.chat steady_world "Hello?" st =
    (Return (Some "Hello."),
     {| self := self st;
        history := [mcp_first_request (self st) "Hello?"] |}).
Proof.
  intros st.
  exact (chat_without_tool_calls steady_world "Hello?" st
           (Demo.text "Hello.") [] ltac:(discriminate) eq_refl
           (or_introl eq_refl)).
Defined.

(** X14. [chat] never writes the client: whatever the completion asks
    for, a [connect] or [disconnect] tool included, the session, the
    connection identifier and the registry are after the call what they
    were before it. *)
Theorem chat_never_changes_client (W : World) (user_message : string)
    (st : State OpenAIPgMcpClient.Self) :
  self (OpenAIPgMcpClient.chat W user_message st).2 = self st.
Proof. by apply (chat_keeps W (λ s, s = self st) user_message st). Qed.

(** X15. Arguments that do not decode stop [chat] before anything is sent
    to the MCP server: the decoder's error is raised after the first
    completion request, with no tool call and no follow-up. *)
Theorem chat_with_undecodable_arguments (W : World) (user_message : string)
    (st : State OpenAIPgMcpClient.Self)
    (message : ChatMessage) (choices : list ChatMessage)
    (tool_call : ToolCall) (others : list ToolCall) (e : exn) :
  OpenAIPgMcpClient.session (self st) ≠ None →
  completions_create W (history st) (OpenAIPgMcpClient.model (self st))
    [SystemTurn (OpenAIPgMcpClient.system_prompt (self st));
     UserTurn user_message]
    (map_to_list (OpenAIPgMcpClient.tools (self st))).*2 =
    Return (message :: choices) →
  tool_calls message = Some (tool_call :: others) →
  json_loads W (call_arguments tool_call) = Raise e →
  OpenAIPgMcpClient.chat W user_message st =
    (Raise e,
     {| self := self st;
        history := history st ++ [mcp_first_request (self st) user_message] |}).
Proof.
  intros Hs Hfirst Hcalls Hargs.
  rewrite (chat_with_tool_calls W user_message st message choices tool_call
             others Hs Hfirst Hcalls).
  unfold OpenAIPgMcpClient.chat_tool_call.
  unfold bind at 1. unfold lift_result. by rewrite Hargs.
Qed.

Lemma chat_with_undecodable_arguments_witness :
  let st := Demo.start (Demo.fresh garbled_first_world) in
  OpenAIPgMcpClient.chat garbled_first_world "How many users?" st =
    (Raise (Exn "JSONDecodeError" "Expecting value"),
     {| self := self st;
        history := [mcp_first_request (self st) "How many users?"] |}).
Proof.
  intros st.
  exact (chat_with_undecodable_arguments garbled_first_world
           "How many users?" st
           (Demo.asks [call_garbled; Demo.call_1]) [] call_garbled
           [Demo.call_1] (Exn "JSONDecodeError" "Expecting value")
           ltac:(discriminate) eq_refl eq_refl eq_refl).
Defined.

(** ** Counting requests *)

Section CountingFacts.
Context {S : Type}.

Lemma requests_within_silent {A} (m : M S A) :
  (∀ st, history (m st).2 = history st) → requests_within 0 0 m.
Proof.
  intros Hm st. exists []. rewrite Hm, app_nil_r. repeat split; simpl; lia.
Qed.

Lemma requests_within_ret {A} (a : A) : requests_within 0 0 (@ret S A a).
Proof. by apply requests_within_silent. Qed.

Lemma requests_within_raise {A} (e : exn) :
  requests_within 0 0 (@raise S A e).
Proof. by apply requests_within_silent. Qed.

Lemma requests_within_lift_result {A} (r : Result A) :
  requests_within 0 0 (@lift_result S A r).
Proof. by apply requests_within_silent. Qed.

Lemma requests_within_get_self : requests_within 0 0 (@get_self S).
Proof. by apply requests_within_silent. Qed.

Lemma requests_within_set_self (s : S) : requests_within 0 0 (set_self s).
Proof. by apply requests_within_silent. Qed.

Lemma requests_within_first_choice (response : Response) :
  requests_within 0 0 (@first_choice S response).
Proof. apply requests_within_silent. by destruct response. Qed.

Lemma requests_within_log (ev : Event) :
  is_log ev = true → requests_within 0 0 (@emit S ev).
Proof.
  intros Hlog st. exists [ev]. split; [reflexivity|].
  destruct ev; try discriminate; split; simpl; lia.
Qed.

Lemma requests_within_completion {A} (mdl : string) (messages : list Turn)
    (tools : list OpenAITool) (answer : list Event → Result A) :
  requests_within 1 0 (@request S A (EvCompletion mdl messages tools) answer).
Proof.
  intros st. exists [EvCompletion mdl messages tools].
  split; [reflexivity|]. split; simpl; lia.
Qed.

Lemma requests_within_call_tool {A} (name : string) (arguments : json)
    (answer : list Event → Result A) :
  requests_within 0 1 (@request S A (EvCallTool name arguments) answer).
Proof.
  intros st. exists [EvCallTool name arguments].
  split; [reflexivity|]. split; simpl; lia.
Qed.

Lemma requests_within_weaken {A} (n r n' r' : nat) (m : M S A) :
  (n ≤ n')%nat → (r ≤ r')%nat →
  requests_within n r m → requests_within n' r' m.
Proof.
  intros Hn Hr Hm st. destruct (Hm st) as (evs & Hevs & Hc & Hrem).
  exists evs. repeat split; [done|lia|lia].
Qed.

Lemma requests_within_bind {A B} (n1 r1 n2 r2 : nat) (m : M S A)
    (k : A → M S B) :
  requests_within n1 r1 m → (∀ a, requests_within n2 r2 (k a)) →
  requests_within (n1 + n2) (r1 + r2) (bind m k).
Proof.
  intros Hm Hk st. unfold bind.
  destruct (Hm st) as (evs & Hevs & Hc & Hr).
  destruct (m st) as [[a|e] st1]; simpl in *.
  - destruct (Hk a st1) as (evs' & Hevs' & Hc' & Hr').
    exists (evs ++ evs'). split; [by rewrite Hevs', Hevs, app_assoc|].
    unfold completions_made, remote_made in *.
    rewrite !filter_app, !length_app. lia.
  - exists evs. split; [done|]. lia.
Qed.

Lemma requests_within_try_except {A} (n1 r1 n2 r2 : nat) (body : M S A)
    (handler : exn → M S A) :
  requests_within n1 r1 body → (∀ e, requests_within n2 r2 (handler e)) →
  requests_within (n1 + n2) (r1 + r2) (try_except body handler).
Proof.
  intros Hm Hh st. unfold try_except.
  destruct (Hm st) as (evs & Hevs & Hc & Hr).
  destruct (body st) as [[a|e] st1]; simpl in *.
  - exists evs. split; [done|]. lia.
  - destruct (Hh e st1) as (evs' & Hevs' & Hc' & Hr').
    exists (evs ++ evs'). split; [by rewrite Hevs', Hevs, app_assoc|].
    unfold completions_made, remote_made in *.
    rewrite !filter_app, !length_app. lia.
Qed.

(** A loop whose body sends nothing sends nothing. *)
Lemma requests_within_quiet_loop {A Acc R} (l : list A) (acc : Acc)
    (body : Acc → A → M S (Acc + R)) :
  (∀ acc' x, requests_within 0 0 (body acc' x)) →
  requests_within 0 0 (for_loop l acc body).
Proof.
  intros Hbody. revert acc. induction l as [|x l IH]; intros acc; simpl.
  - apply requests_within_ret.
  - apply (requests_within_bind 0 0 0 0); [apply Hbody|].
    intros [acc'|r]; [apply IH | apply requests_within_ret].
Qed.

(** A loop whose body always returns or raises runs its body once. *)
Lemma requests_within_returning_loop {A Acc R} (n r : nat) (l : list A)
    (acc : Acc) (body : Acc → A → M S (Acc + R)) :
  (∀ acc' x, requests_within n r (body acc' x)) →
  (∀ acc' x st acc'', (body acc' x st).1 ≠ Return (inl acc'')) →
  requests_within n r (for_loop l acc body).
Proof.
  intros Hbody Hreturns. destruct l as [|x l]; simpl.
  - apply (requests_within_weaken 0 0); [lia | lia | apply requests_within_ret].
  - intros st. unfold bind.
    destruct (Hbody acc x st) as (evs & Hevs & Hc & Hr).
    pose proof (Hreturns acc x st) as Hnot.
    destruct (body acc x st) as [[[acc'|v]|e] st1]; simpl in *.
    + by destruct (Hnot acc').
    + by exists evs.
    + by exists evs.
Qed.

End CountingFacts.

Lemma mcp_chat_tool_call_returns (W : World) (s : OpenAIPgMcpClient.Self)
    (user_message : string) (openai_tools : list OpenAITool)
    (message : ChatMessage) (all_calls acc : list ToolCall)
    (tool_call : ToolCall) (st : State OpenAIPgMcpClient.Self)
    (acc' : list ToolCall) :
  (OpenAIPgMcpClient.chat_tool_call W s user_message openai_tools message
     all_calls acc tool_call st).1 ≠ Return (inl acc').
Proof.
  unfold OpenAIPgMcpClient.chat_tool_call.
  unfold bind at 1. unfold lift_result.
  destruct (json_loads W (call_arguments tool_call)) as [args|e]; [|done].
  unfold bind at 1. unfold emit. cbn [self history].
  unfold OpenAIPgMcpClient.session_call_tool, OpenAIPgMcpClient.create.
  rewrite bind_request.
  destruct (call_tool W _ (call_name tool_call) args) as [result|e]; [|done].
  rewrite bind_request.
  destruct (completions_create W _ _ _ _) as [[|final finals]|e]; done.
Qed.

Lemma mcp_chat_tool_call_requests (W : World) (s : OpenAIPgMcpClient.Self)
    (user_message : string) (openai_tools : list OpenAITool)
    (message : ChatMessage) (all_calls acc : list ToolCall)
    (tool_call : ToolCall) :
  requests_within 1 1
    (OpenAIPgMcpClient.chat_tool_call W s user_message openai_tools message
       all_calls acc tool_call).
Proof.
  unfold OpenAIPgMcpClient.chat_tool_call.
  apply (requests_within_bind 0 0 1 1); [apply requests_within_lift_result|].
  intros args.
  apply (requests_within_bind 0 0 1 1); [by apply requests_within_log|].
  intros _.
  apply (requests_within_bind 0 1 1 0); [apply requests_within_call_tool|].
  intros tool_result.
  apply (requests_within_bind 1 0 0 0); [apply requests_within_completion|].
  intros response.
  apply (requests_within_bind 0 0 0 0); [apply requests_within_first_choice|].
  intros final. apply requests_within_ret.
Qed.

(** X16. One [chat] of [OpenAIPgMcpClient] sends at most two completion
    requests and at most one request to the MCP server, however many tool
    calls the completion asks for and whatever the collaborators answer. *)
Theorem chat_sends_at_most_three_requests (W : World) (user_message : string) :
  requests_within 2 1 (OpenAIPgMcpClient.chat W user_message).
Proof.
  unfold OpenAIPgMcpClient.chat.
  apply (requests_within_bind 0 0 2 1); [apply requests_within_get_self|].
  intros s. destruct (OpenAIPgMcpClient.session s).
  2: { apply (requests_within_weaken 0 0); [lia|lia|].
       apply requests_within_raise. }
  apply (requests_within_bind 1 0 1 1);
    [apply requests_within_completion|]. intros response.
  apply (requests_within_bind 0 0 1 1);
    [apply requests_within_first_choice|]. intros message.
  destruct (tool_calls message) as [[|tool_call others]|];
    try (apply (requests_within_weaken 0 0); [lia|lia|];
         apply requests_within_ret).
  apply (requests_within_bind 1 1 0 0).
  - apply requests_within_returning_loop.
    + intros acc x. apply mcp_chat_tool_call_requests.
    + intros acc x st acc'. apply mcp_chat_tool_call_returns.
  - intros [acc|final]; apply requests_within_ret.
Qed.

(** ** More on the chat loop of [SimpleOpenAIClient] *)

Lemma for_loop_app {S A Acc R} (l1 l2 : list A) (acc : Acc)
    (body : Acc → A → M S (Acc + R)) (st : State S) :
  for_loop (l1 ++ l2) acc body st =
  match for_loop l1 acc body st with
  | (Return (inl acc'), st') => for_loop l2 acc' body st'
  | other => other
  end.
Proof.
  revert acc st. induction l1 as [|x l1 IH]; intros acc st; [done|].
  simpl. unfold bind.
  destruct (body acc x st) as [[[acc'|v]|e] st1]; [apply IH|done..].
Qed.

Section SimpleRunFacts.
Import SimpleOpenAIClient.
Variable W : World.

Lemma mock_tool_requests (function_name : string) (args : json) :
  requests_within 0 0 (mock_tool W function_name args).
Proof.
  unfold mock_tool.
  destruct (String.eqb function_name "connect").
  { apply (requests_within_bind 0 0 0 0); [apply requests_within_get_self|].
    intros s.
    apply (requests_within_bind 0 0 0 0); [apply requests_within_set_self|].
    intros _. apply requests_within_ret. }
  destruct (String.eqb function_name "disconnect").
  { apply (requests_within_bind 0 0 0 0); [apply requests_within_get_self|].
    intros s.
    apply (requests_within_bind 0 0 0 0); [apply requests_within_set_self|].
    intros _. apply requests_within_ret. }
  destruct (String.eqb function_name "pg_query").
  { apply (requests_within_bind 0 0 0 0).
    - unfold get_query.
      destruct args; first [apply requests_within_ret
                           | apply requests_within_raise].
    - intros query. unfold execute_query.
      apply (requests_within_bind 0 0 0 0);
        [by apply requests_within_log|]. intros _.
      destruct query; try apply requests_within_raise.
      destruct (str_contains _ _); apply requests_within_ret. }
  destruct (String.eqb function_name "pg_explain");
    apply requests_within_ret.
Qed.

Lemma simple_chat_tool_call_requests (responses : list Turn)
    (tool_call : ToolCall) :
  requests_within 0 0 (chat_tool_call W responses tool_call).
Proof.
  unfold chat_tool_call.
  apply (requests_within_bind 0 0 0 0); [apply requests_within_lift_result|].
  intros args.
  apply (requests_within_bind 0 0 0 0); [by apply requests_within_log|].
  intros _.
  apply (requests_within_bind 0 0 0 0); [apply mock_tool_requests|].
  intros result. apply requests_within_ret.
Qed.

Lemma second_call_requests (s : Self) (messages : list Turn) :
  requests_within 1 0 (second_call W s messages).
Proof.
  unfold second_call, create.
  apply (requests_within_try_except 1 0 0 0).
  - apply (requests_within_bind 1 0 0 0);
      [apply requests_within_completion|]. intros response.
    apply (requests_within_bind 0 0 0 0);
      [apply requests_within_first_choice|]. intros final.
    apply requests_within_ret.
  - intros e.
    apply (requests_within_bind 0 0 0 0); [by apply requests_within_log|].
    intros _. apply requests_within_ret.
Qed.

Lemma auto_connect_requests : requests_within 0 0 (auto_connect W).
Proof.
  unfold auto_connect.
  apply (requests_within_bind 0 0 0 0); [apply requests_within_get_self|].
  intros s. destruct (negb (str_truthy (conn_id s)));
    [|apply requests_within_ret].
  destruct (str_truthy (environ_get W "DATABASE_URL"));
    [|apply requests_within_ret].
  apply (requests_within_bind 0 0 0 0); [|intros; apply requests_within_ret].
  unfold connect_to_database.
  apply (requests_within_bind 0 0 0 0); [apply requests_within_get_self|].
  intros s'.
  apply (requests_within_bind 0 0 0 0); [apply requests_within_set_self|].
  intros _.
  apply (requests_within_bind 0 0 0 0); [by apply requests_within_log|].
  intros _. apply requests_within_ret.
Qed.

Lemma chat_body_requests (user_message : string) :
  requests_within 2 0 (chat_body W user_message).
Proof.
  unfold chat_body, create.
  apply (requests_within_bind 0 0 2 0); [apply requests_within_get_self|].
  intros s.
  apply (requests_within_bind 1 0 1 0);
    [apply requests_within_completion|]. intros response.
  apply (requests_within_bind 0 0 1 0);
    [apply requests_within_first_choice|]. intros message.
  destruct (tool_calls message) as [[|tool_call others]|];
    try (apply (requests_within_weaken 0 0); [lia|lia|];
         apply requests_within_ret).
  apply (requests_within_bind 0 0 1 0).
  - apply requests_within_quiet_loop. intros acc x.
    apply simple_chat_tool_call_requests.
  - intros [responses|final].
    + apply (requests_within_bind 0 0 1 0);
        [apply requests_within_get_self|]. intros s'.
      apply second_call_requests.
    + apply (requests_within_weaken 0 0); [lia|lia|].
      apply requests_within_ret.
Qed.

End SimpleRunFacts.

(** X17. One [chat] of the simplified client sends at most two completion
    requests and never anything to the MCP server: its tools are answered
    locally. *)
Theorem simple_chat_never_contacts_server (W : World) (user_message : string) :
  requests_within 2 0 (SimpleOpenAIClient.chat W user_message).
Proof.
  unfold SimpleOpenAIClient.chat.
  apply (requests_within_try_except 2 0 0 0).
  - apply (requests_within_bind 0 0 2 0); [apply auto_connect_requests|].
    intros _. apply chat_body_requests.
  - intros e.
    apply (requests_within_bind 0 0 0 0); [by apply requests_within_log|].
    intros _. apply requests_within_ret.
Qed.

Section SimpleLoopFacts.
Import SimpleOpenAIClient.
Variable W : World.

Lemma same_settings_refl (s : Self) : same_settings s s.
Proof. by repeat split. Qed.

Lemma same_settings_trans (s1 s2 s3 : Self) :
  same_settings s1 s2 → same_settings s2 s3 → same_settings s1 s3.
Proof.
  intros (Ha & Hm & Ht & Hp) (Ha' & Hm' & Ht' & Hp').
  repeat split; congruence.
Qed.

(** One iteration of the tool loop on a call that can run. *)
Lemma simple_chat_tool_call_run (acc : list Turn) (tool_call : ToolCall)
    (st : State Self) :
  runnable W tool_call →
  ∃ result st' logs,
    chat_tool_call W acc tool_call st =
      (Return (inl (acc ++ [ToolTurn (call_id tool_call)
                              (json_dumps W result)])), st')
    ∧ conn_id (self st') = conn_id_step (conn_id (self st)) tool_call
    ∧ same_settings (self st) (self st')
    ∧ history st' = history st ++ logs
    ∧ Forall (λ ev, is_log ev = true) logs.
Proof.
  intros (args & Hargs & Hquery).
  unfold chat_tool_call. unfold bind at 1. unfold lift_result.
  rewrite Hargs. unfold bind at 1. unfold emit. cbn [self history].
  unfold conn_id_step, mock_tool.
  destruct (String.eqb (call_name tool_call) "connect").
  { eexists _, _, [_]. split; [reflexivity|].
    repeat split. by repeat constructor. }
  destruct (String.eqb (call_name tool_call) "disconnect").
  { eexists _, _, [_]. split; [reflexivity|].
    repeat split. by repeat constructor. }
  destruct (String.eqb (call_name tool_call) "pg_query") eqn:Hname.
  { apply String.eqb_eq in Hname.
    destruct (Hquery Hname) as (d & q & -> & Hq).
    unfold get_query. cbn iota. rewrite Hq. unfold execute_query.
    unfold bind, emit, ret. cbn [self history].
    destruct (str_contains "SELECT" (str_upper W q));
      (eexists _, _, [_; _]; split; [by rewrite <- app_assoc|];
       repeat split; by repeat constructor). }
  destruct (String.eqb (call_name tool_call) "pg_explain");
    (eexists _, _, [_]; split; [reflexivity|];
     repeat split; by repeat constructor).
Qed.

(** The whole loop on calls that can all run. *)
Lemma simple_loop_run (calls : list ToolCall) (acc : list Turn)
    (st : State Self) :
  Forall (runnable W) calls →
  ∃ added st' logs,
    for_loop calls acc (chat_tool_call W) st =
      (Return (inl (acc ++ added)), st')
    ∧ turn_id <$> added = Some ∘ call_id <$> calls
    ∧ conn_id (self st') = conn_id_after calls (conn_id (self st))
    ∧ same_settings (self st) (self st')
    ∧ history st' = history st ++ logs
    ∧ Forall (λ ev, is_log ev = true) logs.
Proof.
  revert acc st. induction calls as [|tool_call calls IH];
    intros acc st Hrun.
  - exists [], st, []. simpl. rewrite !app_nil_r.
    repeat split; constructor.
  - apply Forall_cons in Hrun as [Hfirst Hrest]. simpl. unfold bind at 1.
    destruct (simple_chat_tool_call_run acc tool_call st Hfirst)
      as (result & st1 & logs1 & -> & Hconn1 & Hsame1 & Hhist1 & Hlogs1).
    destruct (IH (acc ++ [ToolTurn (call_id tool_call)
                            (json_dumps W result)]) st1 Hrest)
      as (added & st2 & logs2 & -> & Hids & Hconn2 & Hsame2 & Hhist2 & Hlogs2).
    exists (ToolTurn (call_id tool_call) (json_dumps W result) :: added),
      st2, (logs1 ++ logs2).
    split; [by rewrite <- app_assoc|].
    split; [rewrite !fmap_cons; by rewrite Hids|].
    split; [unfold conn_id_after in *; simpl; by rewrite Hconn2, Hconn1|].
    split; [by eapply same_settings_trans|].
    split; [by rewrite Hhist2, Hhist1, app_assoc|].
    by apply Forall_app.
Qed.

End SimpleLoopFacts.

Section SimpleExchangeFacts.
Import SimpleOpenAIClient.
Variable W : World.

(** The run of [second_call]: one request, then at most an error log. *)
Lemma second_call_run (s : Self) (messages : list Turn) (st : State Self) :
  ∃ r tail,
    second_call W s messages st =
      (Return r,
       {| self := self st;
          history := history st ++
            EvCompletion (model s) messages (tools s) :: tail |})
    ∧ Forall (λ ev, is_log ev = true) tail.
Proof.
  unfold second_call, try_except, create. rewrite bind_request.
  destruct (completions_create W (history st) (model s) messages (tools s))
    as [[|final finals]|e].
  - eexists _, [_].
    split; [unfold first_choice, bind, raise, emit, ret; cbn [self history];
            by rewrite <- app_assoc|].
    by repeat constructor.
  - exists (content final), []. split; [reflexivity|constructor].
  - eexists _, [_].
    split; [unfold bind, emit, ret; cbn [self history];
            by rewrite <- app_assoc|].
    by repeat constructor.
Qed.

(** An exchange in which every requested call can run. *)
Lemma simple_chat_with_runnable_calls (user_message : string)
    (st : State Self) (message : ChatMessage) (choices : list ChatMessage)
    (tool_call : ToolCall) (others : list ToolCall) :
  let st1 := (auto_connect W st).2 in
  completions_create W (history st1) (model (self st1))
    [SystemTurn (system_prompt (self st1)); UserTurn user_message]
    (tools (self st1)) = Return (message :: choices) →
  tool_calls message = Some (tool_call :: others) →
  Forall (runnable W) (tool_call :: others) →
  ∃ r logs responses tail s2,
    chat W user_message st =
      (Return r,
       {| self := s2;
          history :=
            history st1 ++
            first_request (self st1) user_message ::
            (logs ++
             followup_request (self st1) user_message message
               (tool_call :: others) responses :: tail) |})
    ∧ Forall (λ ev, is_log ev = true) logs
    ∧ Forall (λ ev, is_log ev = true) tail
    ∧ turn_id <$> responses = Some ∘ call_id <$> (tool_call :: others)
    ∧ conn_id s2 = conn_id_after (tool_call :: others) (conn_id (self st1)).
Proof.
  intros st1 Hfirst Hcalls Hrun. subst st1.
  unfold chat, try_except. unfold bind at 1.
  pose proof (auto_connect_returns W st) as Hauto.
  destruct (auto_connect W st) as [[[]|e0] st1]; [|discriminate].
  cbn [fst snd] in *. clear Hauto.
  unfold chat_body. rewrite bind_get_self. unfold create.
  rewrite bind_request, Hfirst. unfold first_choice. rewrite bind_ret, Hcalls.
  unfold bind at 1.
  destruct (simple_loop_run W (tool_call :: others) []
              {| self := self st1;
                 history := history st1 ++
                   [EvCompletion (model (self st1))
                      [SystemTurn (system_prompt (self st1));
                       UserTurn user_message] (tools (self st1))] |} Hrun)
    as (added & st2 & logs & -> & Hids & Hconn & Hsame & Hhist & Hlogs).
  rewrite bind_get_self. cbn [self history] in *.
  destruct Hsame as (_ & Hmodel & Htools & Hprompt).
  destruct (second_call_run
              (self st2)
              ([SystemTurn (system_prompt (self st2)); UserTurn user_message;
                AssistantTurn (or_empty (content message))
                  (tool_call :: others)] ++ [] ++ added) st2)
    as (r & tail & -> & Htail).
  exists r, logs, added, tail, (self st2).
  split.
  { rewrite Hhist. unfold first_request, followup_request.
    rewrite Hmodel, Htools, Hprompt. rewrite <- !app_assoc. reflexivity. }
  repeat split; assumption.
Qed.

End SimpleExchangeFacts.

(** X18. When every tool call that the first completion asks for can run,
    the simplified client runs all of them and then sends exactly one
    follow-up request, which carries the system, user and assistant turns
    followed by one tool result per requested call, in the order of the
    requests and tagged with their call identifiers; between the two
    requests it only writes log lines. *)
Theorem simple_chat_batches_tool_results (W : World) (user_message : string)
    (st : State SimpleOpenAIClient.Self)
    (message : ChatMessage) (choices : list ChatMessage)
    (tool_call : ToolCall) (others : list ToolCall) :
  let st1 := (SimpleOpenAIClient.auto_connect W st).2 in
  completions_create W (history st1) (SimpleOpenAIClient.model (self st1))
    [SystemTurn (SimpleOpenAIClient.system_prompt (self st1));
     UserTurn user_message]
    (SimpleOpenAIClient.tools (self st1)) = Return (message :: choices) →
  tool_calls message = Some (tool_call :: others) →
  Forall (runnable W) (tool_call :: others) →
  ∃ logs responses tail,
    history (SimpleOpenAIClient.chat W user_message st).2 =
      history st1 ++
      first_request (self st1) user_message ::
      (logs ++
       followup_request (self st1) user_message message
         (tool_call :: others) responses :: tail)
    ∧ Forall (λ ev, is_log ev = true) logs
    ∧ Forall (λ ev, is_log ev = true) tail
    ∧ turn_id <$> responses = Some ∘ call_id <$> (tool_call :: others).
Proof.
  intros st1 Hfirst Hcalls Hrun.
  destruct (simple_chat_with_runnable_calls W user_message st message choices
              tool_call others Hfirst Hcalls Hrun)
    as (r & logs & responses & tail & s2 & Hchat & Hlogs & Htail & Hids & _).
  exists logs, responses, tail. by rewrite Hchat.
Qed.

(** X19. When every requested tool call can run, the connection identifier
    of the simplified client after the exchange is decided by the requested
    calls alone, taken in order: a [connect] sets the mock identifier, a
    [disconnect] clears it, any other tool leaves it. *)
Theorem simple_chat_conn_id_follows_calls (W : World) (user_message : string)
    (st : State SimpleOpenAIClient.Self)
    (message : ChatMessage) (choices : list ChatMessage)
    (tool_call : ToolCall) (others : list ToolCall) :
  let st1 := (SimpleOpenAIClient.auto_connect W st).2 in
  completions_create W (history st1) (SimpleOpenAIClient.model (self st1))
    [SystemTurn (SimpleOpenAIClient.system_prompt (self st1));
     UserTurn user_message]
    (SimpleOpenAIClient.tools (self st1)) = Return (message :: choices) →
  tool_calls message = Some (tool_call :: others) →
  Forall (runnable W) (tool_call :: others) →
  SimpleOpenAIClient.conn_id
    (self (SimpleOpenAIClient.chat W user_message st).2) =
  conn_id_after (tool_call :: others) (SimpleOpenAIClient.conn_id (self st1)).
Proof.
  intros st1 Hfirst Hcalls Hrun.
  destruct (simple_chat_with_runnable_calls W user_message st message choices
              tool_call others Hfirst Hcalls Hrun)
    as (r & logs & responses & tail & s2 & Hchat & _ & _ & _ & Hconn).
  by rewrite Hchat.
Qed.

Lemma mixed_calls_runnable :
  Forall (runnable mixed_world) [call_connect; call_unknown; Demo.call_1].
Proof.
  repeat constructor.
  - exists (JObj []). split; [reflexivity|]. discriminate.
  - exists (JObj []). split; [reflexivity|]. discriminate.
  - exists Demo.count_args. split; [reflexivity|]. intros _.
    by exists [("query", JStr Demo.count_query)], Demo.count_query.
Qed.

Lemma simple_chat_batches_tool_results_witness :
  let st := Demo.start Demo.simple in
  ∃ logs responses tail,
    history (SimpleOpenAIClient.chat mixed_world "Set me up." st).2 =
      first_request (self st) "Set me up." ::
      (logs ++
       followup_request (self st) "Set me up."
         (Demo.asks [call_connect; call_unknown; Demo.call_1])
         [call_connect; call_unknown; Demo.call_1] responses :: tail)
    ∧ Forall (λ ev, is_log ev = true) logs
    ∧ Forall (λ ev, is_log ev = true) tail
    ∧ turn_id <$> responses = [Some "call_4"; Some "call_5"; Some "call_1"].
Proof.
  intros st.
  exact (simple_chat_batches_tool_results mixed_world "Set me up." st
           (Demo.asks [call_connect; call_unknown; Demo.call_1]) []
           call_connect [call_unknown; Demo.call_1]
           eq_refl eq_refl mixed_calls_runnable).
Defined.

Lemma simple_chat_conn_id_follows_calls_witness :
  SimpleOpenAIClient.conn_id
    (self (SimpleOpenAIClient.chat mixed_world "Set me up."
             (Demo.start Demo.simple)).2) =
  Some "mock-connection-id".
Proof.
  exact (simple_chat_conn_id_follows_calls mixed_world "Set me up."
           (Demo.start Demo.simple)
           (Demo.asks [call_connect; call_unknown; Demo.call_1]) []
           call_connect [call_unknown; Demo.call_1]
           eq_refl eq_refl mixed_calls_runnable).
Defined.

(** X20. A requested call whose arguments do not decode ends the exchange
    of the simplified client: [chat] returns "Error: ..." with the
    decoder's message, no follow-up request is sent and the calls after it
    are not run, while what the calls before it did to the connection
    identifier stays. *)
Theorem simple_chat_stops_at_failing_call (W : World) (user_message : string)
    (st : State SimpleOpenAIClient.Self)
    (message : ChatMessage) (choices : list ChatMessage)
    (before : list ToolCall) (bad : ToolCall) (after : list ToolCall)
    (e : exn) :
  let st1 := (SimpleOpenAIClient.auto_connect W st).2 in
  completions_create W (history st1) (SimpleOpenAIClient.model (self st1))
    [SystemTurn (SimpleOpenAIClient.system_prompt (self st1));
     UserTurn user_message]
    (SimpleOpenAIClient.tools (self st1)) = Return (message :: choices) →
  tool_calls message = Some (before ++ bad :: after) →
  Forall (runnable W) before →
  json_loads W (call_arguments bad) = Raise e →
  ∃ logs s2,
    SimpleOpenAIClient.chat W user_message st =
      (Return (Some ("Error: " +:+ str_of_exn e)),
       {| self := s2;
          history :=
            history st1 ++ first_request (self st1) user_message :: logs |})
    ∧ Forall (λ ev, is_log ev = true) logs
    ∧ SimpleOpenAIClient.conn_id s2 =
        conn_id_after before (SimpleOpenAIClient.conn_id (self st1)).
Proof.
  intros st1 Hfirst Hcalls Hrun Hbad. subst st1.
  unfold SimpleOpenAIClient.chat, try_except. unfold bind at 1.
  pose proof (auto_connect_returns W st) as Hauto.
  destruct (SimpleOpenAIClient.auto_connect W st) as [[[]|e0] st1];
    [|discriminate].
  cbn [fst snd] in *. clear Hauto.
  unfold SimpleOpenAIClient.chat_body. rewrite bind_get_self.
  unfold SimpleOpenAIClient.create.
  rewrite bind_request, Hfirst. unfold first_choice. rewrite bind_ret, Hcalls.
  clear Hcalls.
  destruct (before ++ bad :: after) as [|c cs] eqn:Hsplit.
  { by destruct before. }
  rewrite <- Hsplit. clear Hsplit c cs.
  unfold bind at 1. rewrite for_loop_app.
  destruct (simple_loop_run W before []
              {| self := self st1;
                 history := history st1 ++
                   [EvCompletion (SimpleOpenAIClient.model (self st1))
                      [SystemTurn (SimpleOpenAIClient.system_prompt (self st1));
                       UserTurn user_message]
                      (SimpleOpenAIClient.tools (self st1))] |} Hrun)
    as (added & st2 & logs & -> & _ & Hconn & _ & Hhist & Hlogs).
  cbn [for_loop]. unfold bind at 1.
  unfold SimpleOpenAIClient.chat_tool_call at 1.
  unfold bind at 1. unfold lift_result. rewrite Hbad.
  unfold bind, emit, ret. cbn [self history] in *.
  exists (logs ++ [EvError (ErrorInChat e)]), (self st2).
  split; [|split].
  - rewrite Hhist. unfold first_request. by rewrite <- !app_assoc.
  - apply Forall_app. split; [exact Hlogs|by repeat constructor].
  - exact Hconn.
Qed.

Lemma simple_chat_stops_at_failing_call_witness :
  let st := Demo.start Demo.simple in
  ∃ logs s2,
    SimpleOpenAIClient.chat garbled_world "Set me up." st =
      (Return (Some "Error: Expecting value"),
       {| self := s2;
          history := first_request (self st) "Set me up." :: logs |})
    ∧ Forall (λ ev, is_log ev = true) logs
    ∧ SimpleOpenAIClient.conn_id s2 = Some "mock-connection-id".
Proof.
  intros st.
  apply (simple_chat_stops_at_failing_call garbled_world "Set me up." st
           (Demo.asks [call_connect; call_garbled; Demo.call_1]) []
           [call_connect] call_garbled [Demo.call_1]
           (Exn "JSONDecodeError" "Expecting value"));
    [reflexivity | reflexivity | | reflexivity].
  apply Forall_singleton. exists (JObj []). split; [reflexivity|].
  discriminate.
Defined.

(** ** The entry points *)

Section ProcessFacts.
Context {C : Type}.

Lemma keeps_in_client {A} (P : C → Prop) (m : M C A) :
  keeps P m → keeps (λ p, P (Cli.client p)) (Cli.in_client m).
Proof.
  intros Hm st H. unfold Cli.in_client.
  specialize (Hm {| self := Cli.client (self st); history := history st |} H).
  by destruct (m _) as [r st'].
Qed.

Lemma keeps_write (P : C → Prop) (o : Output) :
  keeps (λ p, P (Cli.client p)) (Cli.write o).
Proof. intros st H. exact H. Qed.

Lemma appends_in_client {A} (m : M C A) :
  appends m → appends (Cli.in_client m).
Proof.
  intros Hm st. unfold Cli.in_client.
  destruct (Hm {| self := Cli.client (self st); history := history st |})
    as [evs Hevs].
  destruct (m _) as [r st']. by exists evs.
Qed.

Lemma appends_write (o : Output) : appends (@Cli.write C o).
Proof. intros st. exists []. simpl. by rewrite app_nil_r. Qed.

(** A body that starts with a step that returns. *)
Lemma try_finally_after {S A B} (m : M S A) (k : A → M S B)
    (final : M S unit) (st st1 : State S) (a : A) :
  m st = (Return a, st1) →
  Cli.try_finally (bind m k) final st = Cli.try_finally (k a) final st1.
Proof. intros Hm. unfold Cli.try_finally, bind. by rewrite Hm. Qed.

End ProcessFacts.

Section McpProgramFacts.
Import OpenAIPgMcpClient.
Variable W : World.
Variable str_lower : string → string.

Lemma chat_appends (user_message : string) : appends (chat W user_message).
Proof.
  unfold chat. apply appends_bind; [apply appends_get_self|]. intros s.
  destruct (session s); [|apply appends_raise].
  apply appends_bind; [apply appends_request|]. intros response.
  apply appends_bind; [apply appends_first_choice|]. intros message.
  destruct (tool_calls message) as [[|tool_call others]|];
    [apply appends_ret | | apply appends_ret].
  apply appends_bind.
  - apply appends_for_loop. intros acc x. unfold chat_tool_call.
    apply appends_bind; [apply appends_lift_result|]. intros args.
    apply appends_bind; [apply appends_emit|]. intros _.
    apply appends_bind; [apply appends_request|]. intros tool_result.
    apply appends_bind; [apply appends_request|]. intros followup.
    apply appends_bind; [apply appends_first_choice|]. intros final.
    apply appends_ret.
  - intros [acc|final]; apply appends_ret.
Qed.

Lemma mcp_loop_keeps (P : Self → Prop) (lines : list string) :
  keeps (λ p, P (Cli.client p)) (Cli.mcp_loop W str_lower lines).
Proof.
  induction lines as [|line rest IH]; simpl.
  - apply keeps_bind; [apply keeps_write | intros; apply keeps_raise].
  - apply keeps_bind; [apply keeps_write|]. intros _.
    destruct (String.eqb (str_lower line) "exit"); [apply keeps_ret|].
    apply keeps_bind; [apply keeps_in_client, chat_keeps|]. intros response.
    apply keeps_bind; [apply keeps_write|]. intros _. exact IH.
Qed.

Lemma mcp_loop_appends (lines : list string) :
  appends (Cli.mcp_loop W str_lower lines).
Proof.
  induction lines as [|line rest IH]; simpl.
  - apply appends_bind; [apply appends_write | intros; apply appends_raise].
  - apply appends_bind; [apply appends_write|]. intros _.
    destruct (String.eqb (str_lower line) "exit"); [apply appends_ret|].
    apply appends_bind; [apply appends_in_client, chat_appends|].
    intros response.
    apply appends_bind; [apply appends_write|]. intros _. exact IH.
Qed.

Lemma example_loop_keeps (P : Self → Prop) (queries : list string) :
  keeps (λ p, P (Cli.client p)) (Cli.example_loop W queries).
Proof.
  induction queries as [|query rest IH]; simpl; [apply keeps_ret|].
  apply keeps_bind; [apply keeps_write|]. intros _.
  apply keeps_bind; [apply keeps_in_client, chat_keeps|]. intros response.
  apply keeps_bind; [apply keeps_write|]. intros _. exact IH.
Qed.

Lemma example_loop_appends (queries : list string) :
  appends (Cli.example_loop W queries).
Proof.
  induction queries as [|query rest IH]; simpl; [apply appends_ret|].
  apply appends_bind; [apply appends_write|]. intros _.
  apply appends_bind; [apply appends_in_client, chat_appends|].
  intros response.
  apply appends_bind; [apply appends_write|]. intros _. exact IH.
Qed.

(** A successful [connect_to_database] leaves a connected client. *)
Lemma connect_success (st st1 : State Self) (cs : string) (id : json) :
  connect_to_database W cs st = (Return id, st1) →
  session (self st1) ≠ None
  ∧ py_truthy (conn_id (self st1)) = true
  ∧ conn_id (self st1) = id.
Proof.
  unfold connect_to_database. rewrite bind_get_self.
  destruct (session (self st)) as [sess|] eqn:Hsess; [|discriminate].
  unfold session_call_tool. rewrite bind_request.
  destruct (call_tool W (history st) "connect" _) as [result|e];
    [|discriminate].
  unfold get_connection_id.
  destruct result; try discriminate.
  rewrite bind_ret, bind_get_self. unfold bind, set_self, emit, raise, ret.
  cbn [self history].
  destruct (py_truthy (default JNull (assoc_get "connection_id" fields)))
    eqn:Hid; simpl; [|discriminate].
  intros Heq. inversion Heq; subst. simpl. by rewrite Hsess.
Qed.

(** Whatever the body does, the [finally] clause sends the [disconnect]
    of a connected client. *)
Lemma finally_disconnects {A} (body : M (Cli.Process Self) A)
    (st : State (Cli.Process Self)) :
  keeps (λ p, Cli.client p = Cli.client (self st)) body →
  appends body →
  session (Cli.client (self st)) ≠ None →
  py_truthy (conn_id (Cli.client (self st))) = true →
  ∃ evs tail,
    history (Cli.try_finally body (Cli.in_client (disconnect W)) st).2 =
      history st ++ evs ++
      EvCallTool "disconnect"
        (JObj [("connection_id", conn_id (Cli.client (self st)))]) :: tail
    ∧ (tail = [] ∨ tail = [EvInfo Disconnected]).
Proof.
  intros Hkeeps Happends Hs Hc. unfold Cli.try_finally.
  specialize (Hkeeps st eq_refl). destruct (Happends st) as [evs Hevs].
  destruct (body st) as [r st1]. cbn [fst snd] in *.
  unfold Cli.in_client, disconnect. rewrite bind_get_self.
  cbn [self history]. rewrite Hkeeps.
  rewrite (connected_with_both _ Hs Hc). cbn [negb].
  unfold session_call_tool. rewrite bind_request. cbn [self history].
  destruct (call_tool W (history st1) "disconnect" _) as [answer|e].
  - exists evs, [EvInfo Disconnected]. split; [|by right].
    unfold bind, get_self, set_self, emit. cbn [self history snd].
    rewrite Hevs. by rewrite <- !app_assoc.
  - exists evs, []. split; [|by left].
    cbn [self history snd]. rewrite Hevs. by rewrite <- !app_assoc.
Qed.

End McpProgramFacts.

Section BracketFacts.
Import OpenAIPgMcpClient.
Variable W : World.

(** The programs that connect and then run a body under [finally]. *)
Lemma connected_program_disconnects {A} (pg_url url : string)
    (body : M (Cli.Process Self) A)
    (st : State (list Output)) (st_i st1 : State Self) (id : json) :
  (∀ c, keeps (λ p, Cli.client p = c) body) →
  appends body →
  initialize W {| self := __init__ W pg_url; history := history st |} =
    (Return tt, st_i) →
  connect_to_database W url st_i = (Return id, st1) →
  ∃ evs tail,
    history
      (Cli.with_client (__init__ W pg_url)
         (Cli.in_client (initialize W) ;;;
          Cli.try_finally
            (Cli.in_client (connect_to_database W url) ;;; body)
            (Cli.in_client (disconnect W))) st).2 =
      history st1 ++ evs ++
      EvCallTool "disconnect" (JObj [("connection_id", id)]) :: tail
    ∧ (tail = [] ∨ tail = [EvInfo Disconnected]).
Proof.
  intros Hkeeps Happends Hinit Hconnect.
  destruct (connect_success W st_i st1 url id Hconnect) as (Hs & Hc & Hid).
  destruct st_i as [c_i h_i].
  unfold Cli.with_client. unfold bind at 1. unfold Cli.in_client at 1.
  cbn [self history Cli.client Cli.terminal]. rewrite Hinit.
  rewrite (try_finally_after _ _ _ _
             {| self := {| Cli.client := self st1; Cli.terminal := self st |};
                history := history st1 |} id).
  2: { unfold Cli.in_client. cbn [self history Cli.client Cli.terminal].
       by rewrite Hconnect. }
  destruct (finally_disconnects W body
              {| self := {| Cli.client := self st1; Cli.terminal := self st |};
                 history := history st1 |}
              (Hkeeps _) Happends Hs Hc) as (evs & tail & Hhist & Htail).
  exists evs, tail. split; [|exact Htail].
  cbn [self history Cli.client] in Hhist. rewrite Hid in Hhist.
  destruct (Cli.try_finally body _ _) as [r st2]. exact Hhist.
Qed.

End BracketFacts.

(** X21. [main] of [openai_pg_mcp_client.py] always closes the connection
    it opened: once the client is initialised and connected with identifier
    [id], then in single-query mode as in interactive mode, and whatever
    the chats do (errors and end of input included), the program ends by
    sending a [disconnect] request that carries [id]. *)
Theorem mcp_main_always_disconnects (W : World)
    (str_lower : string → string) (query : option string)
    (lines : list string) (st : State (list Output))
    (st_i st1 : State OpenAIPgMcpClient.Self) (url : string) (id : json) :
  environ_get W "DATABASE_URL" = Some url →
  str_truthy (Some url) = true →
  OpenAIPgMcpClient.initialize W
    {| self := OpenAIPgMcpClient.__init__ W
                 (default "http://localhost:8000/sse"
                    (environ_get W "PG_MCP_URL"));
       history := history st |} = (Return tt, st_i) →
  OpenAIPgMcpClient.connect_to_database W url st_i = (Return id, st1) →
  ∃ evs tail,
    history (Cli.mcp_main W str_lower query lines st).2 =
      history st1 ++ evs ++
      EvCallTool "disconnect" (JObj [("connection_id", id)]) :: tail
    ∧ (tail = [] ∨ tail = [EvInfo Disconnected]).
Proof.
  intros Henv Hurl Hinit Hconnect. unfold Cli.mcp_main.
  rewrite Henv, Hurl. cbn [negb default].
  apply (connected_program_disconnects W _ url _ st st_i st1 id);
    [| |exact Hinit|exact Hconnect].
  - intros c. destruct (str_truthy query).
    + apply keeps_bind;
        [apply (keeps_in_client (λ p, p = c)), chat_keeps|].
      intros response. apply (keeps_write (λ p, p = c)).
    + apply keeps_bind; [apply (keeps_write (λ p, p = c))|]. intros _.
      apply (mcp_loop_keeps W str_lower (λ p, p = c)).
  - destruct (str_truthy query).
    + apply appends_bind; [apply appends_in_client, chat_appends|].
      intros response. apply appends_write.
    + apply appends_bind; [apply appends_write|]. intros _.
      apply mcp_loop_appends.
Qed.

(** X22. [run_example] closes the connection it opened in the same way:
    once initialised and connected with identifier [id], it ends by sending
    a [disconnect] request that carries [id], also when one of its four
    questions fails. *)
Theorem run_example_always_disconnects (W : World)
    (st : State (list Output))
    (st_i st1 : State OpenAIPgMcpClient.Self) (url : string) (id : json) :
  environ_get W "DATABASE_URL" = Some url →
  str_truthy (Some url) = true →
  OpenAIPgMcpClient.initialize W
    {| self := OpenAIPgMcpClient.__init__ W
                 (default "http://localhost:8000/sse"
                    (environ_get W "PG_MCP_URL"));
       history := history st |} = (Return tt, st_i) →
  OpenAIPgMcpClient.connect_to_database W url st_i = (Return id, st1) →
  ∃ evs tail,
    history (Cli.run_example W st).2 =
      history st1 ++ evs ++
      EvCallTool "disconnect" (JObj [("connection_id", id)]) :: tail
    ∧ (tail = [] ∨ tail = [EvInfo Disconnected]).
Proof.
  intros Henv Hurl Hinit Hconnect. unfold Cli.run_example.
  rewrite Henv, Hurl. cbn [negb default].
  apply (connected_program_disconnects W _ url _ st st_i st1 id);
    [| |exact Hinit|exact Hconnect].
  - intros c. apply (example_loop_keeps W (λ p, p = c)).
  - apply example_loop_appends.
Qed.

Lemma mcp_main_always_disconnects_witness :
  ∃ before tail,
    history (Cli.mcp_main talkative_world ascii_lower None
               ["How many users?"; "Exit"; "never read"]
               (Demo.start [])).2 =
      before ++
      EvCallTool "disconnect" (JObj [("connection_id", JStr "conn-7")]) :: tail
    ∧ (tail = [] ∨ tail = [EvInfo Disconnected]).
Proof.
  destruct (mcp_main_always_disconnects talkative_world ascii_lower None
              ["How many users?"; "Exit"; "never read"] (Demo.start [])
              _ _ "postgresql://localhost/app" (JStr "conn-7")
              eq_refl eq_refl eq_refl eq_refl)
    as (evs & tail & Hhist & Htail).
  eexists _, tail. split; [|exact Htail].
  rewrite Hhist. by rewrite app_assoc.
Defined.

Lemma run_example_always_disconnects_witness :
  ∃ before tail,
    history (Cli.run_example talkative_world (Demo.start [])).2 =
      before ++
      EvCallTool "disconnect" (JObj [("connection_id", JStr "conn-7")]) :: tail
    ∧ (tail = [] ∨ tail = [EvInfo Disconnected]).
Proof.
  destruct (run_example_always_disconnects talkative_world (Demo.start [])
              _ _ "postgresql://localhost/app" (JStr "conn-7")
              eq_refl eq_refl eq_refl eq_refl)
    as (evs & tail & Hhist & Htail).
  eexists _, tail. split; [|exact Htail].
  rewrite Hhist. by rewrite app_assoc.
Defined.

Lemma bind_ext {S A B} (m : M S A) (k k' : A → M S B) (st : State S) :
  (∀ a st', k a st' = k' a st') → bind m k st = bind m k' st.
Proof.
  intros Hk. unfold bind. destruct (m st) as [[a|e] st']; [apply Hk|done].
Qed.

Lemma try_except_ext {S A} (body body' : M S A) (handler : exn → M S A)
    (st : State S) :
  body st = body' st →
  try_except body handler st = try_except body' handler st.
Proof. intros Hb. unfold try_except. by rewrite Hb. Qed.

Lemma try_finally_ext {S A} (body body' : M S A) (final : M S unit)
    (st : State S) :
  body st = body' st →
  Cli.try_finally body final st = Cli.try_finally body' final st.
Proof. intros Hb. unfold Cli.try_finally. by rewrite Hb. Qed.

Lemma with_client_ext {C A} (c : C) (m m' : M (Cli.Process C) A)
    (st : State (list Output)) :
  (∀ st', m st' = m' st') →
  Cli.with_client c m st = Cli.with_client c m' st.
Proof. intros Hm. unfold Cli.with_client. by rewrite Hm. Qed.

Section LoopFacts.
Variable W : World.
Variable str_lower : string → string.

Lemma mcp_loop_after_exit (before : list string) (e : string)
    (rest : list string) (st : State (Cli.Process OpenAIPgMcpClient.Self)) :
  str_lower e = "exit" →
  Cli.mcp_loop W str_lower (before ++ e :: rest) st =
  Cli.mcp_loop W str_lower (before ++ [e]) st.
Proof.
  intros He. revert st. induction before as [|line before IH]; intros st.
  - simpl. apply bind_ext. intros _ st1. by rewrite He.
  - simpl. apply bind_ext. intros _ st1.
    destruct (String.eqb (str_lower line) "exit"); [done|].
    apply bind_ext. intros response st2.
    apply bind_ext. intros _ st3. apply IH.
Qed.

Lemma simple_loop_after_exit (before : list string) (e : string)
    (rest : list string) (st : State (Cli.Process SimpleOpenAIClient.Self)) :
  str_lower e = "exit" →
  Cli.simple_loop W str_lower (before ++ e :: rest) st =
  Cli.simple_loop W str_lower (before ++ [e]) st.
Proof.
  intros He. revert st. induction before as [|line before IH]; intros st.
  - simpl. apply bind_ext. intros _ st1. by rewrite He.
  - simpl. apply bind_ext. intros _ st1.
    destruct (String.eqb (str_lower line) "exit"); [done|].
    apply bind_ext. intros response st2.
    apply bind_ext. intros _ st3. apply IH.
Qed.

End LoopFacts.

(** X23. Both interactive programs stop reading at the first line that
    lower-cases to "exit": whatever is typed after that line makes no
    difference to the run, its requests and its output. *)
Theorem input_after_exit_is_never_read (W : World)
    (str_lower : string → string) (before : list string) (e : string)
    (rest : list string) (st : State (list Output)) :
  str_lower e = "exit" →
  Cli.mcp_main W str_lower None (before ++ e :: rest) st =
    Cli.mcp_main W str_lower None (before ++ [e]) st
  ∧ Cli.simple_main W str_lower (before ++ e :: rest) st =
    Cli.simple_main W str_lower (before ++ [e]) st.
Proof.
  intros He. split.
  - unfold Cli.mcp_main.
    destruct (negb (str_truthy (environ_get W "DATABASE_URL"))); [done|].
    apply with_client_ext. intros st1.
    apply bind_ext. intros _ st2.
    apply try_finally_ext. apply bind_ext. intros id st3.
    cbn [str_truthy]. apply bind_ext. intros _ st4.
    by apply mcp_loop_after_exit.
  - unfold Cli.simple_main. apply try_except_ext.
    apply bind_ext. intros c st1.
    apply with_client_ext. intros st2.
    apply bind_ext. intros _ st3. apply bind_ext. intros _ st4.
    by apply simple_loop_after_exit.
Qed.

Lemma input_after_exit_is_never_read_witness :
  Cli.mcp_main talkative_world ascii_lower None
    ["How many users?"; "Exit"; "never read"] (Demo.start []) =
  Cli.mcp_main talkative_world ascii_lower None
    ["How many users?"; "Exit"] (Demo.start [])
  ∧ Cli.simple_main talkative_world ascii_lower
      ["How many users?"; "Exit"; "never read"] (Demo.start []) =
    Cli.simple_main talkative_world ascii_lower
      ["How many users?"; "Exit"] (Demo.start []).
Proof.
  exact (input_after_exit_is_never_read talkative_world ascii_lower
           ["How many users?"] "Exit" ["never read"] (Demo.start [])
           eq_refl).
Defined.

(** X24. Without [OPENAI_API_KEY] (unset or empty) the simplified program
    creates no client and sends nothing: it logs the error, prints
    "Error: OPENAI_API_KEY environment variable not set" and returns
    normally, without reading a line. *)
Theorem simple_main_without_api_key (W : World)
    (str_lower : string → string) (lines : list string)
    (st : State (list Output)) :
  str_truthy (environ_get W "OPENAI_API_KEY") = false →
  Cli.simple_main W str_lower lines st =
    (Return tt,
     {| self := self st ++
          [LoggedError missing_api_key;
           LoggedError ("Error in main: " +:+ missing_api_key);
           Printed ("Error: " +:+ missing_api_key)];
        history := history st |}).
Proof.
  intros Hkey. unfold Cli.simple_main, Cli.new_simple_client,
    SimpleOpenAIClient.__init__, try_except, bind.
  rewrite Hkey. cbn [self history str_of_exn ValueError].
  by rewrite <- app_assoc.
Qed.

Lemma simple_main_without_api_key_witness :
  Cli.simple_main steady_world ascii_lower ["How many users?"; "exit"]
    (Demo.start []) =
    (Return tt,
     {| self :=
          [LoggedError "OPENAI_API_KEY environment variable not set";
           LoggedError
             "Error in main: OPENAI_API_KEY environment variable not set";
           Printed "Error: OPENAI_API_KEY environment variable not set"];
        history := [] |}).
Proof.
  exact (simple_main_without_api_key steady_world ascii_lower
           ["How many users?"; "exit"] (Demo.start []) eq_refl).
Defined.

Section SimpleProgramFacts.
Variable W : World.
Variable str_lower : string → string.




End SimpleProgramFacts.

Section SimpleMainFacts.
Variable W : World.
Variable str_lower : string → string.


End SimpleMainFacts.





(** ** The conversion script *)

Section ConverterFacts.
Import Converter.
Variable re_subn : string → string → string → string * nat.
Variable backup_path_of : string → string.

Lemma apply_replacements_changes (table : list (string * string))
    (acc : string * list string) :
  (length (foldl (apply_replacement re_subn) acc table).2 ≤
   length acc.2 + length table)%nat.
Proof.
  revert acc. induction table as [|entry table IH]; intros acc; simpl; [lia|].
  etrans; [apply IH|]. unfold apply_replacement.
  destruct (re_subn entry.1 entry.2 acc.1) as [new_content count].
  destruct (0 <? count)%nat; simpl; [rewrite length_app; simpl|]; lia.
Qed.

Lemma apply_replacements_without_match (table : list (string * string))
    (acc : string * list string) :
  Forall (λ entry, (re_subn entry.1 entry.2 acc.1).2 = 0) table →
  foldl (apply_replacement re_subn) acc table = acc.
Proof.
  induction table as [|entry table IH]; intros Hnone; simpl; [done|].
  apply Forall_cons in Hnone as [Hentry Hnone].
  assert (Hstep : apply_replacement re_subn acc entry = acc).
  { unfold apply_replacement.
    destruct (re_subn entry.1 entry.2 acc.1) as [new_content count].
    simpl in Hentry. by rewrite Hentry. }
  rewrite Hstep. by apply IH.
Qed.

(** The run of [convert_file] on a file that exists. *)
Lemma convert_file_run (fs : gmap string string) (file_path original : string) :
  fs !! file_path = Some original →
  ∃ content changes,
    foldl (apply_replacement re_subn) (original, []) REPLACEMENTS =
      (content, changes)
    ∧ (length changes ≤ length REPLACEMENTS)%nat
    ∧ convert_file re_subn backup_path_of fs file_path =
        (Return (length changes, changes),
         if bool_decide (content = original) then fs
         else <[file_path := content]>
                (<[backup_path_of file_path := original]> fs)).
Proof.
  intros Hfile. unfold convert_file. rewrite Hfile.
  pose proof (apply_replacements_changes REPLACEMENTS (original, []))
    as Hlen.
  destruct (foldl (apply_replacement re_subn) (original, []) REPLACEMENTS)
    as [content changes].
  exists content, changes. simpl in Hlen. by repeat split.
Qed.

End ConverterFacts.

(** X27. [convert_file] never loses the original text: it reports at most
    one change per pattern and either leaves the file system exactly as it
    was, or has written the original text to the backup path and the new,
    different text to the file, touching no other path. *)
Theorem convert_file_keeps_the_original
    (re_subn : string → string → string → string * nat)
    (backup_path_of : string → string)
    (fs : gmap string string) (file_path original : string) :
  fs !! file_path = Some original →
  backup_path_of file_path ≠ file_path →
  let outcome := Converter.convert_file re_subn backup_path_of fs file_path in
  ∃ changes,
    outcome.1 = Return (length changes, changes)
    ∧ (length changes ≤ 15)%nat
    ∧ (outcome.2 = fs
       ∨ (outcome.2 !! backup_path_of file_path = Some original
          ∧ (∃ content, content ≠ original
                        ∧ outcome.2 !! file_path = Some content)
          ∧ ∀ other, other ≠ file_path →
                     other ≠ backup_path_of file_path →
                     outcome.2 !! other = fs !! other)).
Proof.
  intros Hfile Hbackup outcome. subst outcome.
  destruct (convert_file_run re_subn backup_path_of fs file_path original
              Hfile) as (content & changes & _ & Hlen & ->).
  exists changes. split; [reflexivity|]. split; [exact Hlen|].
  cbn [fst snd]. case_bool_decide as Hsame; [by left|right].
  split; [|split].
  - rewrite lookup_insert_ne by done. apply lookup_insert_eq.
  - exists content. split; [done|]. apply lookup_insert_eq.
  - intros other Hother Hother'. by rewrite !lookup_insert_ne.
Qed.

Lemma convert_file_keeps_the_original_witness :
  let outcome :=
    Converter.convert_file literal_subn append_bak project_files "client.py" in
  outcome.2 !! "client.py.bak" = Some claude_client_py
  ∧ outcome.2 !! "client.py" =
      Some "key = os.environ.get('OPENAI_API_KEY'); import openai"
  ∧ outcome.2 !! "hello.py" = Some plain_py.
Proof.
  intros outcome.
  assert (Hnew : outcome.2 !! "client.py" =
                 Some "key = os.environ.get('OPENAI_API_KEY'); import openai")
    by (vm_compute; reflexivity).
  destruct (convert_file_keeps_the_original literal_subn append_bak
              project_files "client.py" claude_client_py)
    as (changes & _ & _ & [Hsame | (Hbak & _ & Hother)]);
    [reflexivity | discriminate | |].
  - exfalso. fold outcome in Hsame. rewrite Hsame in Hnew.
    vm_compute in Hnew. discriminate.
  - fold outcome in Hbak, Hother.
    split; [exact Hbak|]. split; [exact Hnew|].
    rewrite (Hother "hello.py"); [by vm_compute | discriminate | discriminate].
Defined.

(** X28. A file in which no pattern matches is left alone: [convert_file]
    reports no change and writes neither the file nor a backup. A path
    that does not exist raises [FileNotFoundError], also without a
    write. *)
Theorem convert_file_without_matches
    (re_subn : string → string → string → string * nat)
    (backup_path_of : string → string)
    (fs : gmap string string) (file_path : string) :
  (∀ original,
     fs !! file_path = Some original →
     Forall (λ entry, (re_subn entry.1 entry.2 original).2 = 0)
            Converter.REPLACEMENTS →
     Converter.convert_file re_subn backup_path_of fs file_path =
       (Return (0, []), fs))
  ∧ (fs !! file_path = None →
     Converter.convert_file re_subn backup_path_of fs file_path =
       (Raise (Converter.file_not_found file_path), fs)).
Proof.
  split.
  - intros original Hfile Hnone. unfold Converter.convert_file.
    rewrite Hfile.
    rewrite (apply_replacements_without_match re_subn Converter.REPLACEMENTS
               (original, [])) by exact Hnone.
    by rewrite bool_decide_eq_true_2.
  - intros Hmissing. unfold Converter.convert_file. by rewrite Hmissing.
Qed.

Lemma convert_file_without_matches_witness :
  Converter.convert_file literal_subn append_bak project_files "hello.py" =
    (Return (0, []), project_files)
  ∧ Converter.convert_file literal_subn append_bak project_files "gone.py" =
    (Raise (Exn "FileNotFoundError"
              "[Errno 2] No such file or directory: 'gone.py'"),
     project_files).
Proof.
  destruct (convert_file_without_matches literal_subn append_bak
              project_files "hello.py") as [Hquiet _].
  destruct (convert_file_without_matches literal_subn append_bak
              project_files "gone.py") as [_ Hgone].
  split.
  - apply (Hquiet plain_py); [reflexivity|].
    repeat constructor.
  - apply Hgone. reflexivity.
Defined.

Section DirectoryFacts.
Import Converter.
Variable re_subn : string → string → string → string * nat.
Variable backup_path_of : string → string.

Lemma convert_file_returns (fs : gmap string string)
    (file_path original : string) :
  fs !! file_path = Some original →
  ∃ changes fs',
    convert_file re_subn backup_path_of fs file_path =
      (Return (length changes, changes), fs')
    ∧ (length changes ≤ 15)%nat
    ∧ ∀ other, is_Some (fs !! other) → is_Some (fs' !! other).
Proof.
  intros Hfile.
  destruct (convert_file_run re_subn backup_path_of fs file_path original
              Hfile) as (content & changes & _ & Hlen & ->).
  eexists changes, _. split; [reflexivity|]. split; [exact Hlen|].
  intros other Hother. case_bool_decide; [done|].
  rewrite !lookup_insert. repeat case_decide; by eauto.
Qed.

Lemma convert_each_totals (python_files : list string) (t : Tally) :
  Forall (λ file_path, is_Some (files t !! file_path)) python_files →
  ∃ t',
    convert_each re_subn backup_path_of python_files t = (Return tt, t')
    ∧ (files_modified t ≤ files_modified t')%nat
    ∧ (files_modified t' ≤ files_modified t + length python_files)%nat
    ∧ (total_replacements t + (files_modified t' - files_modified t) ≤
       total_replacements t')%nat
    ∧ (total_replacements t' ≤
       total_replacements t + 15 * (files_modified t' - files_modified t))%nat
    ∧ ∀ other, is_Some (files t !! other) → is_Some (files t' !! other).
Proof.
  revert t. induction python_files as [|file_path rest IH]; intros t Hfiles.
  - exists t. simpl. repeat split; try lia. done.
  - apply Forall_cons in Hfiles as [[original Hfile] Hrest].
    destruct (convert_file_returns (files t) file_path original Hfile)
      as (changes & fs' & Hrun & Hlen & Hdom).
    simpl. rewrite Hrun.
    match goal with
    | |- context [convert_each _ _ rest ?next] =>
        destruct (IH next) as (t' & -> & Hlow & Hhigh & Htlow & Hthigh & Hdom')
    end.
    { eapply Forall_impl; [exact Hrest|]. intros other Hother.
      destruct (0 <? length changes)%nat; simpl; by apply Hdom. }
    exists t'. split; [reflexivity|].
    destruct (0 <? length changes)%nat eqn:Hpos; simpl in *.
    + apply Nat.ltb_lt in Hpos.
      repeat split; try lia. intros other Hother. by apply Hdom', Hdom.
    + repeat split; try lia. intros other Hother. by apply Hdom', Hdom.
Qed.

End DirectoryFacts.

(** X29. When every listed file exists, [convert_directory] does not
    fail, counts as modified at most the listed files, reports between one
    and fifteen replacements per file it counts, and deletes no file. *)
Theorem convert_directory_totals
    (re_subn : string → string → string → string * nat)
    (backup_path_of : string → string)
    (fs : gmap string string) (python_files : list string) :
  Forall (λ file_path, is_Some (fs !! file_path)) python_files →
  ∃ modified total t,
    Converter.convert_directory re_subn backup_path_of fs python_files =
      (Return (modified, total), t)
    ∧ (modified ≤ length python_files)%nat
    ∧ (modified ≤ total)%nat
    ∧ (total ≤ 15 * modified)%nat
    ∧ ∀ other, is_Some (fs !! other) →
               is_Some (Converter.files t !! other).
Proof.
  intros Hfiles. unfold Converter.convert_directory.
  destruct (convert_each_totals re_subn backup_path_of python_files
              {| Converter.files_modified := 0;
                 Converter.total_replacements := 0;
                 Converter.printed :=
                   ["Found " +:+ pretty (length python_files) +:+
                    " Python files to check"];
                 Converter.files := fs |} Hfiles)
    as (t & -> & _ & Hhigh & Htlow & Hthigh & Hdom).
  exists (Converter.files_modified t), (Converter.total_replacements t), t.
  simpl in *. repeat split; try lia. exact Hdom.
Qed.

Lemma convert_directory_totals_witness :
  ∃ t,
    Converter.convert_directory literal_subn append_bak project_files
      ["client.py"; "hello.py"] = (Return (1, 2), t)
    ∧ is_Some (Converter.files t !! "hello.py").
Proof.
  destruct (convert_directory_totals literal_subn append_bak project_files
              ["client.py"; "hello.py"])
    as (modified & total & t & Hrun & _ & _ & _ & Hdom).
  { repeat constructor; by eexists. }
  exists t. split; [|apply Hdom; by eexists].
  rewrite Hrun.
  assert (Hcount :
    (Converter.convert_directory literal_subn append_bak project_files
       ["client.py"; "hello.py"]).1 = Return (1, 2))
    by (vm_compute; reflexivity).
  rewrite Hrun in Hcount. simpl in Hcount. by inversion Hcount.
Defined.
